(** * JoeSandbox -> Sentinel threat-intelligence connector: [utils.py]

    A shallow embedding of
    [Source/JoeSandboxThreatIntelligence/JoeSandbox/utils.py] and the
    properties of its indicator extraction and batched submission.

    Python values are modelled by the observations the code makes of them,
    dictionaries by finite maps, and the effects of the code (logging, the
    wall clock, HTTP requests, sleeping, exceptions) by a state-and-error
    monad over an explicit world. *)

From Stdlib Require Import ZArith NArith List String Ascii Bool Lia DecimalString.
From stdpp Require Import base option list strings gmap.

Import ListNotations.
Local Open Scope string_scope.
Local Open Scope list_scope.

(* ===================================================================== *)
(** * Python values                                                       *)
(* ===================================================================== *)

(** A value stored in a report entry.  Strings are byte strings (the UTF-8
    encoding of the Python text).  [PyOther] stands for every other object a
    decoded report can hold (a float, a list, a nested object): the code
    only ever tests such a value for truth, hashes it or formats it, so it
    is represented by the results of [bool()], of [hash()] (does it
    succeed?) and of [str()]. *)
Inductive PyVal :=
| PyNone
| PyBool (b : bool)
| PyInt (z : Z)
| PyStr (s : string)
| PyOther (truthy hashable : bool) (text : string).

(** [bool(v)] *)
Definition py_bool (v : PyVal) : bool :=
  match v with
  | PyNone => false
  | PyBool b => b
  | PyInt z => negb (z =? 0)%Z
  | PyStr s => negb (String.eqb s EmptyString)
  | PyOther t _ _ => t
  end.

(** [str(int)] *)
Definition str_of_Z (z : Z) : string := NilZero.string_of_int (Z.to_int z).

(** [str(v)], which is also what an f-string field [{v}] expands to. *)
Definition py_str (v : PyVal) : string :=
  match v with
  | PyNone => "None"
  | PyBool true => "True"
  | PyBool false => "False"
  | PyInt z => str_of_Z z
  | PyStr s => s
  | PyOther _ _ t => t
  end.

(** [a or b] *)
Definition py_or (a b : PyVal) : PyVal := if py_bool a then a else b.

(** [d.get(key)]: the value, or [None] when the key is absent. *)
Definition dict_get (d : gmap string PyVal) (key : string) : PyVal :=
  default PyNone (d !! key).

(** [d.get(key, dflt)] *)
Definition dict_get_default (d : gmap string PyVal) (key : string) (dflt : PyVal) : PyVal :=
  default dflt (d !! key).

(* ===================================================================== *)
(** * SHA-1 and name-based UUIDs ([uuid.uuid5])                           *)
(* ===================================================================== *)

Module Sha1.
Local Open Scope N_scope.

Definition mask32 (x : N) : N := N.land x 4294967295.
Definition add32 (x y : N) : N := mask32 (x + y).
Definition rotl32 (n x : N) : N :=
  N.lor (mask32 (N.shiftl x n)) (N.shiftr x (32 - n)).
Definition not32 (x : N) : N := N.lxor x 4294967295.

(** Big-endian bytes of a number, [k] of them. *)
Fixpoint be_bytes (k : nat) (x : N) : list N :=
  match k with
  | O => []
  | S k' => N.land (N.shiftr x (8 * N.of_nat k')) 255 :: be_bytes k' x
  end.

Definition be_word (bs : list N) : N :=
  fold_left (fun acc b => N.lor (N.shiftl acc 8) b) bs 0.

(** Message padding: a [0x80] byte, zeros up to 56 modulo 64, then the bit
    length on 8 bytes. *)
Definition pad (msg : list N) : list N :=
  let len := N.of_nat (length msg) in
  let zeros := N.to_nat ((119 - len mod 64) mod 64) in
  msg ++ [128] ++ repeat 0 zeros ++ be_bytes 8 (8 * len).

Fixpoint words_of (n : nat) (bs : list N) : list N :=
  match n with
  | O => []
  | S n' => be_word (take 4 bs) :: words_of n' (drop 4 bs)
  end.

(** The message schedule, newest word first. *)
Fixpoint expand (n : nat) (rev_w : list N) : list N :=
  match n with
  | O => rev_w
  | S n' =>
      let g i := nth i rev_w 0 in
      expand n' (rotl32 1 (N.lxor (N.lxor (g 2%nat) (g 7%nat))
                                  (N.lxor (g 13%nat) (g 15%nat))) :: rev_w)
  end.

Definition State : Type := N * N * N * N * N.

Definition round (t : nat) (st : State) (w : N) : State :=
  let '(a, b, c, d, e) := st in
  let '(f, k) :=
    if (t <? 20)%nat then (N.lor (N.land b c) (N.land (not32 b) d), 1518500249)
    else if (t <? 40)%nat then (N.lxor (N.lxor b c) d, 1859775393)
    else if (t <? 60)%nat then
      (N.lor (N.lor (N.land b c) (N.land b d)) (N.land c d), 2400959708)
    else (N.lxor (N.lxor b c) d, 3395469782) in
  let tmp := add32 (add32 (add32 (add32 (rotl32 5 a) f) e) k) w in
  (tmp, a, rotl32 30 b, c, d).

Fixpoint rounds (t : nat) (ws : list N) (st : State) : State :=
  match ws with
  | [] => st
  | w :: ws' => rounds (S t) ws' (round t st w)
  end.

Definition block (st : State) (bs : list N) : State :=
  let ws := rev (expand 64 (rev (words_of 16 bs))) in
  let '(a, b, c, d, e) := rounds 0 ws st in
  let '(h0, h1, h2, h3, h4) := st in
  (add32 h0 a, add32 h1 b, add32 h2 c, add32 h3 d, add32 h4 e).

Fixpoint blocks (n : nat) (st : State) (bs : list N) : State :=
  match n with
  | O => st
  | S n' => blocks n' (block st (take 64 bs)) (drop 64 bs)
  end.

Definition init : State :=
  (1732584193, 4023233417, 2562383102, 271733878, 3285377520).

(** The 20-byte digest. *)
Definition digest (msg : list N) : list N :=
  let p := pad msg in
  let '(h0, h1, h2, h3, h4) := blocks (length p / 64) init p in
  be_bytes 4 h0 ++ be_bytes 4 h1 ++ be_bytes 4 h2 ++ be_bytes 4 h3 ++ be_bytes 4 h4.

End Sha1.

Module Uuid.
Local Open Scope N_scope.

(** A UUID is its 128-bit integer ([UUID.int]). *)
Definition UUID := N.

(** [uuid.NAMESPACE_DNS] = 6ba7b810-9dad-11d1-80b4-00c04fd430c8 *)
Definition NAMESPACE_DNS : UUID := 143098242404177361603877621312831893704.

Definition bytes_of_string (s : string) : list N :=
  map N_of_ascii (list_ascii_of_string s).

(** [UUID(bytes=..., version=v)]: the variant bits are set to RFC 4122 and
    the version nibble to [v]. *)
Definition set_version (v : N) (x : N) : N :=
  let x := N.ldiff x (N.shiftl 49152 48) in
  let x := N.lor x (N.shiftl 32768 48) in
  let x := N.ldiff x (N.shiftl 61440 64) in
  N.lor x (N.shiftl v 76).

(** [uuid5(namespace, name)]: SHA-1 of the namespace bytes followed by the
    name, truncated to 16 bytes. *)
Definition uuid5 (namespace : UUID) (name : string) : UUID :=
  let h := Sha1.digest (Sha1.be_bytes 16 namespace ++ bytes_of_string name) in
  set_version 5 (Sha1.be_word (take 16 h)).

Definition hex_digit (d : N) : ascii :=
  if d <? 10 then ascii_of_N (48 + d) else ascii_of_N (87 + d).

(** ['%0kx' % x], most significant digit first. *)
Fixpoint hex (k : nat) (x : N) : string :=
  match k with
  | O => EmptyString
  | S k' => String (hex_digit (N.land (N.shiftr x (4 * N.of_nat k')) 15)) (hex k' x)
  end.

(** [str(uuid)]: 8-4-4-4-12 hexadecimal digits. *)
Definition to_string (u : UUID) : string :=
  hex 8 (N.shiftr u 96) +:+ "-" +:+ hex 4 (N.shiftr u 80) +:+ "-" +:+
  hex 4 (N.shiftr u 64) +:+ "-" +:+ hex 4 (N.shiftr u 48) +:+ "-" +:+ hex 12 u.

End Uuid.

(** [generate_unique_id(indicator_type, indicator_value, threat_source)].
    Every caller passes a string literal as [indicator_type] and a value read
    from a report entry as [indicator_value]; the f-string formats the
    latter with [str()]. *)
Definition generate_unique_id
    (indicator_type : string) (indicator_value : PyVal) (threat_source : string) : string :=
  let custom_namespace := Uuid.uuid5 Uuid.NAMESPACE_DNS threat_source in
  let name_string := indicator_type +:+ ":" +:+ py_str indicator_value in
  let indicator_uuid := Uuid.uuid5 custom_namespace name_string in
  "indicator--" +:+ Uuid.to_string indicator_uuid.

(** The default value of the parameter [threat_source]. *)
Definition default_threat_source : string := "JoeSandbox".

(* ===================================================================== *)
(** * The [ipaddress] module (CPython 3.10 and later)                     *)
(* ===================================================================== *)

Module IpAddress.
Local Open Scope N_scope.

Definition is_digit (c : ascii) : bool :=
  let n := N_of_ascii c in (48 <=? n) && (n <=? 57).

Definition is_hex_digit (c : ascii) : bool :=
  let n := N_of_ascii c in
  ((48 <=? n) && (n <=? 57)) || ((65 <=? n) && (n <=? 70)) || ((97 <=? n) && (n <=? 102)).

Definition hex_value (c : ascii) : N :=
  let n := N_of_ascii c in
  if n <=? 57 then n - 48 else if n <=? 70 then n - 55 else n - 87.

Fixpoint str_all (p : ascii -> bool) (s : string) : bool :=
  match s with
  | EmptyString => true
  | String c s' => p c && str_all p s'
  end.

(** [c in s] *)
Fixpoint str_contains (c : ascii) (s : string) : bool :=
  match s with
  | EmptyString => false
  | String a s' => Ascii.eqb a c || str_contains c s'
  end.

(** [s.split(c)] *)
Fixpoint split_on (c : ascii) (s : string) : list string :=
  match s with
  | EmptyString => [EmptyString]
  | String a s' =>
      if Ascii.eqb a c then EmptyString :: split_on c s'
      else match split_on c s' with
           | h :: t => String a h :: t
           | [] => [String a EmptyString]
           end
  end.

(** [s.partition(c)]: the text before the first [c], and the text after it
    when there is one. *)
Fixpoint partition_on (c : ascii) (s : string) : string * option string :=
  match s with
  | EmptyString => (EmptyString, None)
  | String a s' =>
      if Ascii.eqb a c then (EmptyString, Some s')
      else let '(h, t) := partition_on c s' in (String a h, t)
  end.

(** [int(s, base)] on a string of digits of that base. *)
Definition int_of (base : N) (digit : ascii -> N) (s : string) : N :=
  fold_left (fun acc c => acc * base + digit c) (list_ascii_of_string s) 0.

(** [_BaseV4._parse_octet]; [None] is [ValueError]. *)
Definition parse_octet (octet_str : string) : option N :=
  if String.eqb octet_str EmptyString then None
  else if negb (str_all is_digit octet_str) then None
  else if (3 <? String.length octet_str)%nat then None
  else if negb (String.eqb octet_str "0") &&
          match octet_str with String c _ => Ascii.eqb c "0" | EmptyString => false end
       then None
  else let octet_int := int_of 10 (fun c => N_of_ascii c - 48) octet_str in
       if 255 <? octet_int then None else Some octet_int.

(** [_BaseV4._ip_int_from_string]; [None] is [AddressValueError]. *)
Definition v4_int_from_string (ip_str : string) : option N :=
  if String.eqb ip_str EmptyString then None
  else let octets := split_on "." ip_str in
       if negb (length octets =? 4)%nat then None
       else Sha1.be_word <$> mapM parse_octet octets.

(** [IPv4Address(address)] for a string argument. *)
Definition v4_of_string (addr_str : string) : option N :=
  if str_contains "/" addr_str then None else v4_int_from_string addr_str.

(** [_BaseV6._parse_hextet]; [None] is [ValueError] (for the empty string
    it is raised by [int]). *)
Definition parse_hextet (hextet_str : string) : option N :=
  if negb (str_all is_hex_digit hextet_str) then None
  else if (4 <? String.length hextet_str)%nat then None
  else if String.eqb hextet_str EmptyString then None
  else Some (int_of 16 hex_value hextet_str).

(** ['%x' % n] *)
Definition hex_str (n : N) : string :=
  let fix go (fuel : nat) (n : N) (acc : string) : string :=
    match fuel with
    | O => acc
    | S fuel' =>
        let acc' := String (Uuid.hex_digit (n mod 16)) acc in
        if n <? 16 then acc' else go fuel' (n / 16) acc'
    end in
  go (S (N.to_nat (N.log2 n))) n EmptyString.

(** The scan for the single empty part strictly between the endpoints:
    [Some None] when there is none, [Some (Some i)] for one at index [i],
    [None] when there are two ([AddressValueError]). *)
Fixpoint find_skip (parts : list string) (i : nat) (last : nat) (found : option nat)
    : option (option nat) :=
  match parts with
  | [] => Some found
  | p :: rest =>
      if ((1 <=? i) && (i <? last))%nat && String.eqb p EmptyString then
        match found with
        | Some _ => None
        | None => find_skip rest (S i) last (Some i)
        end
      else find_skip rest (S i) last found
  end.

(** The hextets [parts[i]] for [i] in [range(lo, hi)], shifted into [acc]. *)
Definition shift_hextets (parts : list string) (acc : N) : option N :=
  foldl (fun acc p => a ← acc; h ← parse_hextet p; Some (N.lor (N.shiftl a 16) h))
        (Some acc) parts.

(** [_BaseV6._ip_int_from_string]; [None] is [AddressValueError]. *)
Definition v6_int_from_string (ip_str : string) : option N :=
  if String.eqb ip_str EmptyString then None else
  let parts := split_on ":" ip_str in
  if (length parts <? 3)%nat then None else
  parts ← (let tail := List.last parts EmptyString in
           if str_contains "." tail then
             ipv4_int ← v4_of_string tail;
             Some (removelast parts ++
                   [hex_str (N.land (N.shiftr ipv4_int 16) 65535);
                    hex_str (N.land ipv4_int 65535)])
           else Some parts);
  if (9 <? length parts)%nat then None else
  skip_index ← find_skip parts 0 (length parts - 1) None;
  let first_empty := String.eqb (List.hd EmptyString parts) EmptyString in
  let last_empty := String.eqb (List.last parts EmptyString) EmptyString in
  '(parts_hi, parts_lo, parts_skipped) ←
    match skip_index with
    | Some skip_index =>
        let parts_hi := skip_index in
        let parts_lo := (length parts - skip_index - 1)%nat in
        parts_hi ← (if first_empty then
                      if (parts_hi - 1 =? 0)%nat then Some (parts_hi - 1)%nat else None
                    else Some parts_hi);
        parts_lo ← (if last_empty then
                      if (parts_lo - 1 =? 0)%nat then Some (parts_lo - 1)%nat else None
                    else Some parts_lo);
        if (8 <=? parts_hi + parts_lo)%nat then None
        else Some (parts_hi, parts_lo, (8 - (parts_hi + parts_lo))%nat)
    | None =>
        if negb (length parts =? 8)%nat then None
        else if first_empty then None
        else if last_empty then None
        else Some (length parts, 0%nat, 0%nat)
    end;
  hi ← shift_hextets (take parts_hi parts) 0;
  shift_hextets (drop (length parts - parts_lo) parts)
                (N.shiftl hi (16 * N.of_nat parts_skipped)).

(** [_BaseV6._split_scope_id]; [None] is [AddressValueError]. *)
Definition split_scope_id (ip_str : string) : option (string * option string) :=
  match partition_on "%" ip_str with
  | (addr, None) => Some (addr, None)
  | (addr, Some scope_id) =>
      if String.eqb scope_id EmptyString || str_contains "%" scope_id then None
      else Some (addr, Some scope_id)
  end.

(** [IPv6Address(address)] for a string argument: the integer and the
    scope id. *)
Definition v6_of_string (addr_str : string) : option (N * option string) :=
  if str_contains "/" addr_str then None else
  '(addr_str, scope_id) ← split_scope_id addr_str;
  ip ← v6_int_from_string addr_str;
  Some (ip, scope_id).

Inductive Address :=
| IPv4Address (ip : N)
| IPv6Address (ip : N) (scope_id : option string).

(** The constructors [IPv4Address(address)] and [IPv6Address(address)] on a
    Python value: an [int] (and [bool] is one) is range-checked, anything
    else is parsed from its [str()]. *)
Definition as_int (address : PyVal) : option Z :=
  match address with
  | PyInt z => Some z
  | PyBool b => Some (if b then 1%Z else 0%Z)
  | _ => None
  end.

Definition make_v4 (address : PyVal) : option N :=
  match as_int address with
  | Some z => if ((0 <=? z) && (z <=? 4294967295))%Z then Some (Z.to_N z) else None
  | None => v4_of_string (py_str address)
  end.

Definition make_v6 (address : PyVal) : option (N * option string) :=
  match as_int address with
  | Some z =>
      if ((0 <=? z) && (z <? 2 ^ 128))%Z then Some (Z.to_N z, None) else None
  | None => v6_of_string (py_str address)
  end.

(** [ip_address(address)]; [None] is [ValueError]. *)
Definition ip_address (address : PyVal) : option Address :=
  match make_v4 address with
  | Some ip => Some (IPv4Address ip)
  | None =>
      match make_v6 address with
      | Some (ip, scope_id) => Some (IPv6Address ip scope_id)
      | None => None
      end
  end.

End IpAddress.

(** [check_ip(ip)]: the STIX type of the address, [None] when it is not
    one. *)
Definition check_ip (ip : PyVal) : option string :=
  match IpAddress.ip_address ip with
  | Some (IpAddress.IPv4Address _) => Some "ipv4-addr"
  | Some (IpAddress.IPv6Address _ _) => Some "ipv6-addr"
  | None => None
  end.

(* ===================================================================== *)
(** * [str.strip], [str.lower] and [json.loads]                           *)
(* ===================================================================== *)

Module Json.

(** [s.lower()].  Only ASCII letters change: the case of any other letter
    has no bearing on whether a text is JSON, nor on the truth value of
    what it decodes to. *)
Definition lower_char (c : ascii) : ascii :=
  let n := N_of_ascii c in
  if ((65 <=? n) && (n <=? 90))%N then ascii_of_N (n + 32) else c.

Fixpoint lower (s : string) : string :=
  match s with
  | EmptyString => EmptyString
  | String c s' => String (lower_char c) (lower s')
  end.

(** The UTF-8 encodings of the characters [str.isspace] accepts. *)
Definition unicode_spaces : list (list N) :=
  map (fun n => [n]) [9; 10; 11; 12; 13; 28; 29; 30; 31; 32]%N ++
  [[194; 133]; [194; 160]; [225; 154; 128]]%N ++
  map (fun n => [226; 128; n]%N) [128; 129; 130; 131; 132; 133; 134; 135; 136; 137; 138; 168; 169; 175]%N ++
  [[226; 129; 159]; [227; 128; 128]]%N.

Fixpoint drop_prefix (p bs : list N) : option (list N) :=
  match p, bs with
  | [], _ => Some bs
  | x :: p', y :: bs' => if (x =? y)%N then drop_prefix p' bs' else None
  | _ :: _, [] => None
  end.

(** One leading character removed when it is a space. *)
Definition drop_space (spaces : list (list N)) (bs : list N) : option (list N) :=
  foldr (fun p acc => match drop_prefix p bs with Some r => Some r | None => acc end)
        None spaces.

Fixpoint lstrip (fuel : nat) (spaces : list (list N)) (bs : list N) : list N :=
  match fuel with
  | O => bs
  | S fuel' =>
      match drop_space spaces bs with
      | Some r => lstrip fuel' spaces r
      | None => bs
      end
  end.

(** [s.strip()] *)
Definition strip (s : string) : string :=
  let bs := Uuid.bytes_of_string s in
  let l := lstrip (length bs) unicode_spaces bs in
  let r := rev (lstrip (length l) (map (@rev N) unicode_spaces) (rev l)) in
  string_of_list_ascii (map ascii_of_N r).

(** What [json.loads] returns, as far as a truth test can tell. *)
Inductive Value :=
| Null
| Bool (b : bool)
| Int (z : Z)
| Float (nonzero : bool)
| Str (nonempty : bool)
| Array (nonempty : bool)
| Object (nonempty : bool).

(** [bool(v)] *)
Definition truthy (v : Value) : bool :=
  match v with
  | Null => false
  | Bool b => b
  | Int z => negb (z =? 0)%Z
  | Float b | Str b | Array b | Object b => b
  end.

Definition quote : ascii := ascii_of_N 34.
Definition backslash : ascii := ascii_of_N 92.

Definition is_ws (c : ascii) : bool :=
  let n := N_of_ascii c in ((n =? 32) || (n =? 9) || (n =? 10) || (n =? 13))%N.

Fixpoint skip_ws (s : string) : string :=
  match s with
  | String c s' => if is_ws c then skip_ws s' else s
  | EmptyString => s
  end.

Fixpoint strip_prefix (p s : string) : option string :=
  match p, s with
  | EmptyString, _ => Some s
  | String a p', String b s' => if Ascii.eqb a b then strip_prefix p' s' else None
  | String _ _, EmptyString => None
  end.

(** The digits at the head of [s], and what follows them. *)
Fixpoint span_digits (s : string) : string * string :=
  match s with
  | String c s' =>
      if IpAddress.is_digit c then let '(ds, r) := span_digits s' in (String c ds, r)
      else (EmptyString, s)
  | EmptyString => (EmptyString, s)
  end.

Definition dec_value (ds : string) : Z :=
  Z.of_N (IpAddress.int_of 10 (fun c => N_of_ascii c - 48)%N ds).

(** Is the decimal [m * 10^e] a double other than zero?  Conversion rounds
    to nearest, ties to even, so exactly the values above half the
    smallest subnormal, [2^-1075], are. *)
Definition float_nonzero (m e : Z) : bool :=
  (negb (m =? 0) && ((0 <=? e) || (10 ^ (- e) <? m * 2 ^ 1075)))%Z.

(** [sys.get_int_max_str_digits()], the default. *)
Definition int_max_str_digits : nat := 4300.

(** The number at the head of [s]; [None] when there is none, or when an
    integer has more digits than [int] accepts. *)
Definition match_number (s : string) : option (Value * string) :=
  let '(neg, s1) := match s with
                    | String "-" r => (true, r)
                    | _ => (false, s)
                    end in
  '(int_ds, s2) ← match s1 with
                  | String c r =>
                      if Ascii.eqb c "0" then Some ("0", r)
                      else if IpAddress.is_digit c then
                        let '(ds, r') := span_digits r in Some (String c ds, r')
                      else None
                  | EmptyString => None
                  end;
  let '(frac, s3) := match s2 with
                     | String "." (String d r) =>
                         if IpAddress.is_digit d then
                           let '(ds, r') := span_digits r in (Some (String d ds), r')
                         else (None, s2)
                     | _ => (None, s2)
                     end in
  let '(exp, s4) := match s3 with
                    | String c r =>
                        if Ascii.eqb c "e" || Ascii.eqb c "E" then
                          let '(eneg, r1) := match r with
                                             | String "-" r1 => (true, r1)
                                             | String "+" r1 => (false, r1)
                                             | _ => (false, r)
                                             end in
                          let '(ds, r2) := span_digits r1 in
                          if String.eqb ds EmptyString then (None, s3)
                          else (Some (if eneg then - dec_value ds else dec_value ds)%Z, r2)
                        else (None, s3)
                    | EmptyString => (None, s3)
                    end in
  match frac, exp with
  | None, None =>
      if (int_max_str_digits <? String.length int_ds)%nat then None
      else Some (Int (if neg then - dec_value int_ds else dec_value int_ds)%Z, s4)
  | _, _ =>
      let fr := default EmptyString frac in
      Some (Float (float_nonzero (dec_value (int_ds +:+ fr))
                                 (default 0%Z exp - Z.of_nat (String.length fr))), s4)
  end.

(** The rest of a string literal after its opening quote: whether it holds
    a character, and what follows the closing quote. *)
Fixpoint scanstring (s : string) (nonempty : bool) : option (bool * string) :=
  match s with
  | EmptyString => None
  | String c rest =>
      if Ascii.eqb c quote then Some (nonempty, rest)
      else if Ascii.eqb c backslash then
        match rest with
        | EmptyString => None
        | String "u" (String h1 (String h2 (String h3 (String h4 r)))) =>
            if forallb IpAddress.is_hex_digit [h1; h2; h3; h4]
            then scanstring r true else None
        | String e r =>
            if existsb (Ascii.eqb e) [quote; backslash; "/"; "b"; "f"; "n"; "r"; "t"]%char
            then scanstring r true else None
        end
      else if (N_of_ascii c <=? 31)%N then None
      else scanstring rest true
  end.

(** The scanner: the value at the head of [s] and the text after it. *)
Fixpoint scan_once (fuel : nat) (s : string) : option (Value * string) :=
  match fuel with
  | O => None
  | S fuel' =>
      (** the items of an array after its first, up to the bracket *)
      let fix array_tail (n : nat) (s : string) : option string :=
        match n with
        | O => None
        | S n' =>
            match skip_ws s with
            | String "]" r => Some r
            | String "," r =>
                '(_, r') ← scan_once fuel' (skip_ws r); array_tail n' r'
            | _ => None
            end
        end in
      (** the members of an object from a key on, up to the brace *)
      let fix object_members (n : nat) (s : string) : option string :=
        match n with
        | O => None
        | S n' =>
            match s with
            | String c r =>
                if Ascii.eqb c quote then
                  '(_, r1) ← scanstring r false;
                  match skip_ws r1 with
                  | String ":" r2 =>
                      '(_, r3) ← scan_once fuel' (skip_ws r2);
                      match skip_ws r3 with
                      | String "}" r4 => Some r4
                      | String "," r4 => object_members n' (skip_ws r4)
                      | _ => None
                      end
                  | _ => None
                  end
                else None
            | EmptyString => None
            end
        end in
      match s with
      | EmptyString => None
      | String c r =>
          if Ascii.eqb c quote then
            '(ne, r') ← scanstring r false; Some (Str ne, r')
          else if Ascii.eqb c "{" then
            match skip_ws r with
            | String "}" r' => Some (Object false, r')
            | r' => r'' ← object_members fuel' r'; Some (Object true, r'')
            end
          else if Ascii.eqb c "[" then
            match skip_ws r with
            | String "]" r' => Some (Array false, r')
            | r' => '(_, r1) ← scan_once fuel' r'; r2 ← array_tail fuel' r1;
                    Some (Array true, r2)
            end
          else if Ascii.eqb c "n" then r' ← strip_prefix "null" s; Some (Null, r')
          else if Ascii.eqb c "t" then r' ← strip_prefix "true" s; Some (Bool true, r')
          else if Ascii.eqb c "f" then r' ← strip_prefix "false" s; Some (Bool false, r')
          else if Ascii.eqb c "N" then r' ← strip_prefix "NaN" s; Some (Float true, r')
          else if Ascii.eqb c "I" then r' ← strip_prefix "Infinity" s; Some (Float true, r')
          else match strip_prefix "-Infinity" s with
               | Some r' => Some (Float true, r')
               | None => match_number s
               end
      end
  end.

(** [json.loads(s)]; [None] is a [ValueError] (a [JSONDecodeError], or the
    one [int] raises on too many digits).  The interpreter's bound on the
    nesting depth is not modelled. *)
Definition loads (s : string) : option Value :=
  '(v, r) ← scan_once (S (String.length s)) (skip_ws s);
  if String.eqb (skip_ws r) EmptyString then Some v else None.

End Json.

(* ===================================================================== *)
(** * [datetime]: the calendar and the two timestamp formats              *)
(* ===================================================================== *)

Module DateTime.
Local Open Scope Z_scope.

(** A UTC [datetime] is the number of microseconds since
    0001-01-01T00:00:00, the origin of Python's proleptic calendar. *)
Definition datetime := Z.

Definition us_per_day : Z := 86400000000.

(** [date.max.toordinal()] *)
Definition MAXORDINAL : Z := 3652059.

(** [d.toordinal()]: the day number, 0001-01-01 being day 1. *)
Definition toordinal (d : datetime) : Z := d / us_per_day + 1.

Definition days_in_month (month : Z) : Z :=
  nth (Z.to_nat month) [-1; 31; 28; 31; 30; 31; 30; 31; 31; 30; 31; 30; 31] 0.

Definition days_before_month (month : Z) : Z :=
  nth (Z.to_nat month) [-1; 0; 31; 59; 90; 120; 151; 181; 212; 243; 273; 304; 334] 0.

(** The end of [_ord2ymd]: the month and the day of the month of the day
    at offset [n] from the first of January, found from an estimate of the
    month that is right or one too large. *)
Definition month_day (n : Z) (leapyear : bool) : Z * Z :=
  let month := Z.shiftr (n + 50) 5 in
  let preceding :=
    days_before_month month + (if (2 <? month) && leapyear then 1 else 0) in
  let '(month, preceding) :=
    if n <? preceding then
      (month - 1,
       preceding - (days_in_month (month - 1)
                    + (if (month - 1 =? 2) && leapyear then 1 else 0)))
    else (month, preceding) in
  (month, n - preceding + 1).

(** [_ord2ymd(n)]: ordinal to (year, month, day). *)
Definition ord2ymd (n : Z) : Z * Z * Z :=
  let n := n - 1 in
  let n400 := n / 146097 in
  let n := n mod 146097 in
  let year := n400 * 400 + 1 in
  let n100 := n / 36524 in
  let n := n mod 36524 in
  let n4 := n / 1461 in
  let n := n mod 1461 in
  let n1 := n / 365 in
  let n := n mod 365 in
  let year := year + n100 * 100 + n4 * 4 + n1 in
  if (n1 =? 4) || (n100 =? 4) then (year - 1, 12, 31)
  else
    let leapyear := (n1 =? 3) && (negb (n4 =? 24) || (n100 =? 3)) in
    let '(month, day) := month_day n leapyear in
    (year, month, day).

Definition year (d : datetime) : Z := fst (fst (ord2ymd (toordinal d))).
Definition month (d : datetime) : Z := snd (fst (ord2ymd (toordinal d))).
Definition day (d : datetime) : Z := snd (ord2ymd (toordinal d)).
Definition hour (d : datetime) : Z := (d mod us_per_day) / 3600000000.
Definition minute (d : datetime) : Z := (d mod 3600000000) / 60000000.
Definition second (d : datetime) : Z := (d mod 60000000) / 1000000.
Definition microsecond (d : datetime) : Z := d mod 1000000.

(** [d + timedelta(days=n)]; [None] is [OverflowError], raised by
    [timedelta] for more than 999999999 days and by the sum when it leaves
    the years 1 to 9999. *)
Definition add_days (d : datetime) (n : Z) : option datetime :=
  if 999999999 <? Z.abs n then None
  else
    let r := d + n * us_per_day in
    if (0 <? toordinal r) && (toordinal r <=? MAXORDINAL) then Some r else None.

(** The format [%0wd] of a number that is not negative. *)
Definition zero_pad (w : nat) (z : Z) : string :=
  let s := str_of_Z z in
  string_of_list_ascii (repeat "0"%char (w - String.length s)) +:+ s.

(** [d.strftime(UTC_DATE_FORMAT)].

    Modelled from the spec: the constant [UTC_DATE_FORMAT] of [const.py] is
    not part of the sources at hand; by the docstring of [get_utc_time]
    (result [2025-06-26T14:03:12.123Z]) it is [%Y-%m-%dT%H:%M:%S].  The C
    library prints [%Y] without padding. *)
Definition strftime_utc_date_format (d : datetime) : string :=
  str_of_Z (year d) +:+ "-" +:+ zero_pad 2 (month d) +:+ "-" +:+ zero_pad 2 (day d)
  +:+ "T" +:+ zero_pad 2 (hour d) +:+ ":" +:+ zero_pad 2 (minute d)
  +:+ ":" +:+ zero_pad 2 (second d).

(** The text [YYYY-MM-DDThh:mm:ss] followed by [suffix], where a digit
    stands for any digit: the shape of an ISO-8601 timestamp. *)
Fixpoint matches (shape : string) (s : string) : bool :=
  match shape, s with
  | EmptyString, EmptyString => true
  | String p shape', String c s' =>
      (if Ascii.eqb p "d" then IpAddress.is_digit c else Ascii.eqb p c)
      && matches shape' s'
  | _, _ => false
  end.

(** ISO-8601, UTC, millisecond precision, trailing [Z]. *)
Definition is_iso8601_ms_z (s : string) : bool := matches "dddd-dd-ddTdd:dd:dd.dddZ" s.

(** ISO-8601, UTC, second precision, trailing [Z]. *)
Definition is_iso8601_s_z (s : string) : bool := matches "dddd-dd-ddTdd:dd:ddZ" s.

End DateTime.

(* ===================================================================== *)
(** * Configuration, indicators, requests and the world                   *)
(* ===================================================================== *)

(** The constants the module imports from [const.py] ([CONFIDENCE],
    [HASH_TYPE_LIST], [RETRY_STATUS_CODE], the settings objects
    [SENTINEL_API] and [joe_config]), which is not part of the sources at
    hand: they are parameters of the model.  [VALID_UNTIL] is the integer
    [int(joe_config.VALID_UNTIL)]. *)
Record Config := {
  CONFIDENCE : gmap string Z;
  HASH_TYPE_LIST : list (string * string);
  RETRY_STATUS_CODE : list Z;
  VALID_UNTIL : Z;
  BASE_URL : string;
  APPLICATION_ID : string;
  APPLICATION_SECRET : string;
  RESOURCE_APPLICATION_ID_URI : string;
  AUTH_URL : string;
  URL : string;
  USER_AGENT : string;
  TIMEOUT : Z;
  SLEEP : Z;
  MAX_TI_INDICATORS_PER_REQUEST : Z
}.

(** The dictionary [get_static_data] builds, key by key. *)
Record Indicator := {
  ind_type : string;
  ind_spec_version : string;
  ind_id : string;
  ind_created : string;
  ind_modified : string;
  ind_revoked : bool;
  ind_labels : list string;
  ind_confidence : Z;
  ind_name : PyVal;
  ind_description : string;
  ind_indicator_types : list string;
  ind_pattern : string;
  ind_pattern_type : string;
  ind_pattern_version : string;
  ind_valid_from : string;
  ind_valid_until : string
}.

(** An element of a list of IOCs: a dictionary, or any other value, which
    has no [get] method. *)
Inductive Entry :=
| EntryDict (d : gmap string PyVal)
| EntryOther (v : PyVal).

(** The body of an HTTP response, as [Response.json()] sees it. *)
Inductive Body :=
| BodyObject (d : gmap string PyVal)
| BodyOtherJson
| BodyNotJson.

Record Response := { status_code : Z; body : Body }.

(** The exceptions that occur, by the classes the handlers tell apart.
    All derive from [Exception]. *)
Inductive Exn :=
| AttributeError
| TypeError
| ValueError                        (* and its subclass [json.JSONDecodeError] *)
| OverflowError
| HTTPError (response : option Response)
| RequestException                  (* any other exception of [requests] *)
| OtherError                        (* any other exception *)
| ExceptionFrom (cause : Exn)       (* [raise Exception(err) from err] *)
| ExceptionMsg (msg : string).      (* [raise Exception(msg)] *)

(** The payload of a [post]. *)
Inductive Payload :=
| FormData (fields : list (string * string))
| JsonEnvelope (sourcesystem : string) (stixobjects : list Indicator).

Record Request := {
  rq_url : string;
  rq_headers : list (string * string);
  rq_payload : Payload;
  rq_timeout : Z
}.

Inductive PostResult :=
| Responded (r : Response)
| Raised (e : Exn).

(** The value logged as [err_response]. *)
Inductive ErrResponse :=
| ErrEmpty                          (* the initial empty dictionary *)
| ErrParsed (b : Body)              (* the decoded body *)
| ErrParseFailed.                   (* the fallback message *)

Inductive Level := INFO | WARNING | ERROR.

(** The log messages, with the values they interpolate. *)
Inductive Message :=
| MsgProcessingError (category : string) (err : Exn)
| MsgUnrecognizedIP (ip_add : PyVal)
| MsgHttpRetry (attempt status sleep_s : Z)
| MsgHttpError (herr : Exn)
| MsgErrorBody (err_response : ErrResponse)
| MsgConnRetry (attempt sleep_s : Z)
| MsgConnFailed (conn_err : Exn)
| MsgUnexpected (err : Exn)
| MsgLength (n : nat)
| MsgSubmitError (err : Exn).

Inductive Event :=
| EvLog (level : Level) (msg : Message)
| EvPost (rq : Request)
| EvSleep (seconds : Z).

(** What the program cannot decide: the time each reading of the clock
    returns, and the outcome of each request, by their rank. *)
Record Env := {
  utcnow : nat -> DateTime.datetime;
  respond : nat -> Request -> PostResult
}.

(** The state the program acts on: how often the clock was read and a
    request sent, what happened so far, oldest event first, and the list
    [indicators] that the running [add_*_indicators] call is building. *)
Record World := {
  now_calls : nat;
  post_calls : nat;
  events : list Event;
  indicators : list Indicator
}.

Definition initial_world : World :=
  {| now_calls := 0; post_calls := 0; events := []; indicators := [] |}.

(** The outcome of a computation: a value, an exception, or the end of the
    fuel of a bounded loop (which [create_indicator] never reaches, see
    [create_indicator_terminates]). *)
Inductive Result (A : Type) :=
| Ok (a : A)
| Raise (e : Exn)
| OutOfFuel.
Arguments Ok {A} a.
Arguments Raise {A} e.
Arguments OutOfFuel {A}.

Definition M (A : Type) : Type := World -> Result A * World.

#[global] Instance M_ret : MRet M := fun A a w => (Ok a, w).

#[global] Instance M_bind : MBind M := fun A B f m w =>
  match m w with
  | (Ok a, w') => f a w'
  | (Raise e, w') => (Raise e, w')
  | (OutOfFuel, w') => (OutOfFuel, w')
  end.

Definition raise {A} (e : Exn) : M A := fun w => (Raise e, w).

(** [try: body  except Exception as err: handler] *)
Definition try_except {A} (body : M A) (handler : Exn -> M A) : M A := fun w =>
  match body w with
  | (Raise e, w') => handler e w'
  | r => r
  end.

Definition emit (ev : Event) : M unit := fun w =>
  (Ok tt, {| now_calls := now_calls w; post_calls := post_calls w;
             events := events w ++ [ev]; indicators := indicators w |}).

Definition log (level : Level) (msg : Message) : M unit := emit (EvLog level msg).

(** [time.sleep(seconds)] *)
Definition sleep (seconds : Z) : M unit := emit (EvSleep seconds).

(** [indicators = []] *)
Definition indicators_reset : M unit := fun w =>
  (Ok tt, {| now_calls := now_calls w; post_calls := post_calls w;
             events := events w; indicators := [] |}).

(** [indicators.append(x)] *)
Definition indicators_append (x : Indicator) : M unit := fun w =>
  (Ok tt, {| now_calls := now_calls w; post_calls := post_calls w;
             events := events w; indicators := indicators w ++ [x] |}).

(** [return indicators] *)
Definition indicators_return : M (list Indicator) := fun w => (Ok (indicators w), w).

(** [for x in xs: body] *)
Fixpoint py_for {A} (xs : list A) (body : A -> M unit) : M unit :=
  match xs with
  | [] => mret tt
  | x :: xs' => _ ← body x; py_for xs' body
  end.

(** [entry.get(key)] *)
Definition entry_get (entry : Entry) (key : string) : M PyVal :=
  match entry with
  | EntryDict d => mret (dict_get d key)
  | EntryOther _ => raise AttributeError
  end.

(** [entry.get(key, dflt)] *)
Definition entry_get_default (entry : Entry) (key : string) (dflt : PyVal) : M PyVal :=
  match entry with
  | EntryDict d => mret (dict_get_default d key dflt)
  | EntryOther _ => raise AttributeError
  end.

(** [str_to_bool(value)].  Despite its name the function returns whatever
    [json.loads] decodes; its caller tests the result for truth. *)
Definition str_to_bool (value : PyVal) : M Json.Value :=
  match value with
  | PyStr s =>
      match Json.loads (Json.lower (Json.strip s)) with
      | Some v => mret v
      | None => raise ValueError
      end
  | _ => mret (Json.Bool (py_bool value))
  end.

(* ===================================================================== *)
(** * Building and extracting indicators                                  *)
(* ===================================================================== *)

Section Utils.
Variable cfg : Config.
Variable env : Env.

(** [datetime.now(timezone.utc)] *)
Definition now : M DateTime.datetime := fun w =>
  (Ok (utcnow env (now_calls w)),
   {| now_calls := S (now_calls w); post_calls := post_calls w;
      events := events w; indicators := indicators w |}).

(** [requests.post(...)] *)
Definition post (rq : Request) : M Response := fun w =>
  let w' := {| now_calls := now_calls w; post_calls := S (post_calls w);
               events := events w ++ [EvPost rq]; indicators := indicators w |} in
  match respond env (post_calls w) rq with
  | Responded r => (Ok r, w')
  | Raised e => (Raise e, w')
  end.

(** [get_utc_time()] *)
Definition get_utc_time : M string :=
  current_time ← now;
  mret (DateTime.strftime_utc_date_format current_time
        +:+ "." +:+ DateTime.zero_pad 3 (DateTime.microsecond current_time / 1000) +:+ "Z").

(** [CONFIDENCE.get(key, 0)]: hashing the key comes first. *)
Definition confidence_get (key : PyVal) : M Z :=
  match key with
  | PyStr s => mret (default 0%Z (CONFIDENCE cfg !! s))
  | PyOther _ false _ => raise TypeError
  | _ => mret 0%Z
  end.

(** [get_static_data(unique_uuid, analysis_data, pattern, ioc_value, ioc_type)] *)
Definition get_static_data
    (unique_uuid : string) (analysis_data : gmap string PyVal)
    (pattern : string) (ioc_value : PyVal) (ioc_type : string) : M Indicator :=
  let web_id := dict_get analysis_data "webid" in
  let tags :=
    [ "web_id: " +:+ py_str web_id;
      "threat_names: " +:+ py_str (dict_get_default analysis_data "threatname" (PyStr EmptyString));
      "classification: " +:+ py_str (dict_get_default analysis_data "classification" (PyStr EmptyString));
      "detection: " +:+ py_str (dict_get_default analysis_data "detection" (PyStr EmptyString)) ] in
  t ← now;
  expiration_date ←
    match DateTime.add_days t (VALID_UNTIL cfg) with
    | Some d => mret (DateTime.strftime_utc_date_format d +:+ "Z")
    | None => raise OverflowError
    end;
  created ← get_utc_time;
  modified ← get_utc_time;
  confidence ← confidence_get (dict_get_default analysis_data "detection" (PyStr EmptyString));
  valid_from ← get_utc_time;
  mret {| ind_type := "indicator";
          ind_spec_version := "2.1";
          ind_id := unique_uuid;
          ind_created := created;
          ind_modified := modified;
          ind_revoked := false;
          ind_labels := tags;
          ind_confidence := confidence;
          ind_name := ioc_value;
          ind_description :=
            "Analysis URL: " +:+ BASE_URL cfg +:+ "/analysis/" +:+ py_str web_id;
          ind_indicator_types := [ioc_type];
          ind_pattern := pattern;
          ind_pattern_type := "stix";
          ind_pattern_version := "2.1";
          ind_valid_from := valid_from;
          ind_valid_until := expiration_date |}.

(** The body of the loop of [add_domain_indicators], for one entry. *)
Definition add_domain_indicator (analysis_data : gmap string PyVal) (domain : Entry) : M unit :=
  malicious ← entry_get domain "malicious";
  if negb (py_bool malicious) then mret tt
  else try_except
    (domain_value ← entry_get domain "name";
     let pattern := "[domain-name:value = '" +:+ py_str domain_value +:+ "']" in
     let unique_id := generate_unique_id "domain" domain_value default_threat_source in
     indicator_data ←
       get_static_data unique_id analysis_data pattern domain_value "domain";
     indicators_append indicator_data)
    (fun err => log ERROR (MsgProcessingError "domain" err)).

(** [add_domain_indicators(domains, analysis_data)] *)
Definition add_domain_indicators
    (domains : list Entry) (analysis_data : gmap string PyVal) : M (list Indicator) :=
  _ ← indicators_reset;
  _ ← py_for domains (add_domain_indicator analysis_data);
  indicators_return.

(** The body of the inner loop of [add_file_indicators], for one hash type. *)
Definition add_file_hash_indicator (analysis_data : gmap string PyVal)
    (file : Entry) (filename : PyVal) (hash : string * string) : M unit :=
  let '(hash_type, key) := hash in
  hash_value ← entry_get file key;
  if negb (py_bool hash_value) then mret tt
  else
    let pattern :=
      "[file:hashes.'" +:+ hash_type +:+ "' = '" +:+ py_str hash_value +:+ "']" in
    let unique_id := generate_unique_id "file" hash_value default_threat_source in
    let label := py_or filename hash_value in
    indicator_data ← get_static_data unique_id analysis_data pattern label "file";
    indicators_append indicator_data.

(** The body of the loop of [add_file_indicators], for one entry. *)
Definition add_file_indicator (analysis_data : gmap string PyVal) (file : Entry) : M unit :=
  malicious ← entry_get file "malicious";
  if negb (py_bool malicious) then mret tt
  else try_except
    (filename ← entry_get_default file "name" (PyStr EmptyString);
     py_for (HASH_TYPE_LIST cfg) (add_file_hash_indicator analysis_data file filename))
    (fun err => log ERROR (MsgProcessingError "file" err)).

(** [add_file_indicators(files, analysis_data)] *)
Definition add_file_indicators
    (files : list Entry) (analysis_data : gmap string PyVal) : M (list Indicator) :=
  _ ← indicators_reset;
  _ ← py_for files (add_file_indicator analysis_data);
  indicators_return.

(** The body of the loop of [add_ip_indicators], for one entry. *)
Definition add_ip_indicator (analysis_data : gmap string PyVal) (ip_entry : Entry) : M unit :=
  verdict ← entry_get ip_entry "@malicious";
  malicious ← str_to_bool verdict;
  if negb (Json.truthy malicious) then mret tt
  else try_except
    (ip_add ← entry_get_default ip_entry "$" (PyStr EmptyString);
     match check_ip ip_add with
     | None => log WARNING (MsgUnrecognizedIP ip_add)
     | Some ip_type =>
         let pattern := "[" +:+ ip_type +:+ ":value = '" +:+ py_str ip_add +:+ "']" in
         let unique_id := generate_unique_id "ip" ip_add default_threat_source in
         indicator_data ←
           get_static_data unique_id analysis_data pattern ip_add ip_type;
         indicators_append indicator_data
     end)
    (fun err => log ERROR (MsgProcessingError "IP" err)).

(** [add_ip_indicators(ips, analysis_data)] *)
Definition add_ip_indicators
    (ips : list Entry) (analysis_data : gmap string PyVal) : M (list Indicator) :=
  _ ← indicators_reset;
  _ ← py_for ips (add_ip_indicator analysis_data);
  indicators_return.

(** The body of the loop of [add_url_indicators], for one entry. *)
Definition add_url_indicator (analysis_data : gmap string PyVal) (url_entry : Entry) : M unit :=
  malicious ← entry_get url_entry "malicious";
  if negb (py_bool malicious) then mret tt
  else try_except
    (url_value ← entry_get_default url_entry "name" (PyStr EmptyString);
     let pattern := "[url:value = '" +:+ py_str url_value +:+ "']" in
     let unique_id := generate_unique_id "url" url_value default_threat_source in
     indicator_data ←
       get_static_data unique_id analysis_data pattern url_value "url";
     indicators_append indicator_data)
    (fun err => log ERROR (MsgProcessingError "URL" err)).

(** [add_url_indicators(urls, analysis_data)] *)
Definition add_url_indicators
    (urls : list Entry) (analysis_data : gmap string PyVal) : M (list Indicator) :=
  _ ← indicators_reset;
  _ ← py_for urls (add_url_indicator analysis_data);
  indicators_return.

End Utils.

(* ===================================================================== *)
(** * The report of an analysis                                           *)
(* ===================================================================== *)

#[local] Set Warnings "-register-all".

(** A decoded JSON document, as the report of an analysis is.  A number is
    kept as its text: the code does not look into one. *)
Inductive Data :=
| DNull
| DBool (b : bool)
| DNumber (text : string)
| DStr (s : string)
| DList (items : list Data)
| DDict (members : gmap string Data).

(** [value.get(key, dflt)]: only a dictionary has the method. *)
Definition data_get (value : Data) (key : string) (dflt : Data) : Exn + Data :=
  match value with
  | DDict d => inr (default dflt (d !! key))
  | _ => inl AttributeError
  end.

(** [s.rstrip(c)] for a single character [c]: every trailing [c] goes. *)
Fixpoint rstrip_char (c : ascii) (s : string) : string :=
  match s with
  | EmptyString => EmptyString
  | String a s' =>
      match rstrip_char c s' with
      | EmptyString => if Ascii.eqb a c then EmptyString else String a EmptyString
      | r => String a r
      end
  end.

(** The body of the loop over [contacted.items()]. *)
Definition parse_contacted_item (key : string) (value : Data)
    (ioc_dict : gmap string Data) : gmap string Data :=
  match value with
  | DDict v =>
      let singular_key := rstrip_char "s" key in
      <[ key := default (DList []) (v !! singular_key) ]> ioc_dict
  | DList _ => <[ key := value ]> ioc_dict
  | _ => ioc_dict
  end.

(** [parse_analysis_data(analysis_data)].  The result is a finite map: the
    order of its keys, which in Python follows the order of the report, is
    not modelled. *)
Definition parse_analysis_data (analysis_data : gmap string Data)
    : Exn + gmap string Data :=
  let ioc_dict : gmap string Data := ∅ in
  let analysis := default (DDict ∅) (analysis_data !! "analysis") in
  match data_get analysis "contacted" (DDict ∅) with
  | inl err => inl err
  | inr contacted =>
      match data_get analysis "dropped" (DDict ∅) with
      | inl err => inl err
      | inr dropped =>
          let ioc_dict :=
            match dropped with
            | DDict d => <[ "files" := default (DList []) (d !! "file") ]> ioc_dict
            | _ => ioc_dict
            end in
          let ioc_dict :=
            match contacted with
            | DDict c => map_fold parse_contacted_item ioc_dict c
            | _ => ioc_dict
            end in
          inr ioc_dict
      end
  end.

(* ===================================================================== *)
(** * Submission                                                          *)
(* ===================================================================== *)

(** [Response.ok]: the status is not a client or server error. *)
Definition ok (r : Response) : bool :=
  negb ((400 <=? status_code r)%Z && (status_code r <? 600)%Z).

(** [bool(response)].  The class [requests.Response] defines its truth
    value: [__bool__] returns [self.ok] (in the words of the library:
    returns True if [status_code] is less than 400). *)
Definition Response_bool (r : Response) : bool := ok r.

(** [response.raise_for_status()] *)
Definition raise_for_status (r : Response) : M unit :=
  if ok r then mret tt else raise (HTTPError (Some r)).

(** [response.json().get(key)].  A body that is not JSON makes [json()]
    raise the library's own [JSONDecodeError], a [RequestException]
    (requests 2.27 and later); a JSON value that is not an object has no
    [get]. *)
Definition json_get (r : Response) (key : string) : M PyVal :=
  match body r with
  | BodyObject d => mret (dict_get d key)
  | BodyOtherJson => raise AttributeError
  | BodyNotJson => raise RequestException
  end.

(** The outcome of one turn of the retry loop: [return response], or
    [continue] with the new counters. *)
Inductive Next :=
| Return (response : Response)
| Continue (retry_count_429 retry_connection : Z).

(** [range(start, stop, step)] *)
Fixpoint range_up (fuel : nat) (i stop step : Z) : list Z :=
  match fuel with
  | O => []
  | S fuel' => if (i <? stop)%Z then i :: range_up fuel' (i + step) stop step else []
  end.

Fixpoint range_down (fuel : nat) (i stop step : Z) : list Z :=
  match fuel with
  | O => []
  | S fuel' => if (stop <? i)%Z then i :: range_down fuel' (i + step) stop step else []
  end.

Definition py_range (start stop step : Z) : M (list Z) :=
  if (step =? 0)%Z then raise ValueError
  else if (0 <? step)%Z then mret (range_up (Z.to_nat (stop - start)) start stop step)
  else mret (range_down (Z.to_nat (start - stop)) start stop step).

(** [l[i:j]] for indices that are not negative. *)
Definition slice {A} (l : list A) (i j : Z) : list A :=
  take (Z.to_nat (j - i)) (drop (Z.to_nat i) l).

Section Submission.
Variable cfg : Config.
Variable env : Env.

(** The truth value the handler gives a response object in
    [if herr.response:].  The program runs with [Response_bool]; the
    parameter lets the loop be studied under any other reading. *)
Variable response_bool : Response -> bool.

Definition azure_login_payload : Payload :=
  FormData [ ("grant_type", "client_credentials");
             ("client_id", APPLICATION_ID cfg);
             ("client_secret", APPLICATION_SECRET cfg);
             ("resource", RESOURCE_APPLICATION_ID_URI cfg) ].

Definition auth_request : Request :=
  {| rq_url := AUTH_URL cfg; rq_headers := [];
     rq_payload := azure_login_payload; rq_timeout := TIMEOUT cfg |}.

Definition ingest_request (access_token : PyVal) (indicator_data : list Indicator) : Request :=
  {| rq_url := URL cfg;
     rq_headers := [ ("Authorization", "Bearer " +:+ py_str access_token);
                     ("User-Agent", USER_AGENT cfg);
                     ("Content-Type", "application/json") ];
     rq_payload := JsonEnvelope "JoeSandboxThreatIntelligence" indicator_data;
     rq_timeout := TIMEOUT cfg |}.

(** The body of the [try]: authenticate, then submit. *)
Definition attempt (indicator_data : list Indicator) : M Response :=
  response ← post env auth_request;
  _ ← raise_for_status response;
  access_token ← json_get response "access_token";
  response ← post env (ingest_request access_token indicator_data);
  _ ← raise_for_status response;
  mret response.

(** The end of the [HTTPError] handler. *)
Definition fail_http (herr : Exn) (err_response : ErrResponse) : M Next :=
  _ ← log ERROR (MsgHttpError herr);
  _ ← log ERROR (MsgErrorBody err_response);
  raise (ExceptionFrom herr).

(** [herr.response.json()] under its own [try]. *)
Definition parse_error_body (r : Response) : ErrResponse :=
  match body r with
  | BodyNotJson => ErrParseFailed
  | b => ErrParsed b
  end.

(** One turn of the [while] loop: the [try] and its three handlers. *)
Definition turn (indicator_data : list Indicator)
    (retry retry_count_429 retry_connection : Z) : M Next :=
  try_except
    (response ← attempt indicator_data; mret (Return response))
    (fun err =>
       match err with
       | HTTPError response =>
           match response with
           | Some r =>
               if response_bool r then
                 let err_response := parse_error_body r in
                 if existsb (Z.eqb (status_code r)) (RETRY_STATUS_CODE cfg) then
                   let retry_count_429 := (retry_count_429 + 1)%Z in
                   _ ← log WARNING (MsgHttpRetry retry_count_429 (status_code r) (SLEEP cfg));
                   _ ← sleep (SLEEP cfg);
                   mret (Continue retry_count_429 retry_connection)
                 else fail_http err err_response
               else fail_http err ErrEmpty
           | None => fail_http err ErrEmpty
           end
       | RequestException =>
           if (retry_connection <? retry)%Z then
             let retry_connection := (retry_connection + 1)%Z in
             _ ← log WARNING (MsgConnRetry retry_connection (SLEEP cfg));
             _ ← sleep (SLEEP cfg);
             mret (Continue retry_count_429 retry_connection)
           else
             _ ← log ERROR (MsgConnFailed err);
             raise (ExceptionFrom err)
       | _ =>
           _ ← log ERROR (MsgUnexpected err);
           raise (ExceptionFrom err)
       end).

(** [while retry_count_429 <= retry: ...], then the final [raise]. *)
Fixpoint create_indicator_loop (fuel : nat) (indicator_data : list Indicator)
    (retry retry_count_429 retry_connection : Z) : M Response :=
  match fuel with
  | O => fun w => (OutOfFuel, w)
  | S fuel' =>
      if (retry_count_429 <=? retry)%Z then
        next ← turn indicator_data retry retry_count_429 retry_connection;
        match next with
        | Return response => mret response
        | Continue retry_count_429 retry_connection =>
            create_indicator_loop fuel' indicator_data retry
                                  retry_count_429 retry_connection
        end
      else raise (ExceptionMsg "Failed to create indicator after multiple retries.")
  end.

(** [create_indicator(indicator_data, retry)].  Each turn of the loop that
    does not leave it increments one of the two counters, the first at most
    [retry + 1] times and the second at most [retry] times. *)
Definition create_indicator_under (indicator_data : list Indicator) (retry : Z) : M Response :=
  create_indicator_loop (S (Z.to_nat (2 * retry + 2))) indicator_data retry 0 0.

(** [submit_indicator(indicators_list)]; [create_indicator] is called with
    its default [retry=3]. *)
Definition submit_indicator_under (indicators_list : list Indicator) : M bool :=
  try_except
    (_ ← log INFO (MsgLength (length indicators_list));
     starts ← py_range 0 (Z.of_nat (length indicators_list))
                       (MAX_TI_INDICATORS_PER_REQUEST cfg);
     _ ← py_for starts (fun i =>
           _ ← create_indicator_under
                 (slice indicators_list i (i + MAX_TI_INDICATORS_PER_REQUEST cfg)) 3;
           mret tt);
     mret true)
    (fun err => _ ← log INFO (MsgSubmitError err); raise err).

End Submission.

(** The functions as the program runs them, with the truth value the
    library gives a response. *)
Definition create_indicator (cfg : Config) (env : Env) : list Indicator -> Z -> M Response :=
  create_indicator_under cfg env Response_bool.

Definition submit_indicator (cfg : Config) (env : Env) : list Indicator -> M bool :=
  submit_indicator_under cfg env Response_bool.

(** ** Observations of a trace *)

Definition is_sleep (ev : Event) : bool :=
  match ev with EvSleep _ => true | _ => false end.

(** The sleeps of a trace, with their durations. *)
Definition sleeps (evs : list Event) : list Z :=
  omap (fun ev => match ev with EvSleep s => Some s | _ => None end) evs.

(** The requests of a trace. *)
Definition posts (evs : list Event) : list Request :=
  omap (fun ev => match ev with EvPost rq => Some rq | _ => None end) evs.

Definition is_auth (rq : Request) : bool :=
  match rq_payload rq with FormData _ => true | JsonEnvelope _ _ => false end.

(** The attempts of a trace: each begins with the request for a token. *)
Definition attempts (evs : list Event) : nat :=
  length (List.filter is_auth (posts evs)).

(** The batches a trace submitted for ingestion. *)
Definition batches_posted (evs : list Event) : list (list Indicator) :=
  omap (fun ev => match ev with
                  | EvPost rq => match rq_payload rq with
                                 | JsonEnvelope _ b => Some b
                                 | FormData _ => None
                                 end
                  | _ => None
                  end) evs.

(** The error bodies a trace logged. *)
Definition error_bodies (evs : list Event) : list ErrResponse :=
  omap (fun ev => match ev with
                  | EvLog _ (MsgErrorBody b) => Some b
                  | _ => None
                  end) evs.

(* ===================================================================== *)
(** * Vocabulary of the properties                                        *)
(* ===================================================================== *)

(** The world after further events. *)
Definition with_events (w : World) (evs : list Event) : World :=
  {| now_calls := now_calls w; post_calls := post_calls w;
     events := events w ++ evs; indicators := indicators w |}.

(** The world after a request was sent. *)
Definition sent (w : World) (rq : Request) : World :=
  {| now_calls := now_calls w; post_calls := S (post_calls w);
     events := events w ++ [EvPost rq]; indicators := indicators w |}.

(** The world after [k] readings of the clock. *)
Definition clock_read (k : nat) (w : World) : World :=
  {| now_calls := k + now_calls w; post_calls := post_calls w;
     events := events w; indicators := indicators w |}.

(** The world after an indicator was appended. *)
Definition appended (w : World) (x : Indicator) : World :=
  {| now_calls := now_calls w; post_calls := post_calls w;
     events := events w; indicators := indicators w ++ [x] |}.

(** The text [get_utc_time] makes of the time it reads. *)
Definition utc_time (t : DateTime.datetime) : string :=
  DateTime.strftime_utc_date_format t
  +:+ "." +:+ DateTime.zero_pad 3 (DateTime.microsecond t / 1000) +:+ "Z".

(** The confidence score of a detection verdict that can be hashed: the
    entry of the table for a string that is a key of it, 0 otherwise. *)
Definition confidence_of (cfg : Config) (detection : PyVal) : Z :=
  match detection with
  | PyStr s => default 0%Z (CONFIDENCE cfg !! s)
  | _ => 0%Z
  end.

(** The indicator [get_static_data] returns when the clock is read for the
    [n]-th time, and for the following three times, during the call. *)
Definition static_data_at (cfg : Config) (env : Env) (n : nat)
    (unique_uuid : string) (analysis_data : gmap string PyVal)
    (pattern : string) (ioc_value : PyVal) (ioc_type : string)
    (expiry : DateTime.datetime) : Indicator :=
  {| ind_type := "indicator";
     ind_spec_version := "2.1";
     ind_id := unique_uuid;
     ind_created := utc_time (utcnow env (1 + n));
     ind_modified := utc_time (utcnow env (2 + n));
     ind_revoked := false;
     ind_labels :=
       [ "web_id: " +:+ py_str (dict_get analysis_data "webid");
         "threat_names: " +:+
           py_str (dict_get_default analysis_data "threatname" (PyStr EmptyString));
         "classification: " +:+
           py_str (dict_get_default analysis_data "classification" (PyStr EmptyString));
         "detection: " +:+
           py_str (dict_get_default analysis_data "detection" (PyStr EmptyString)) ];
     ind_confidence :=
       confidence_of cfg
         (dict_get_default analysis_data "detection" (PyStr EmptyString));
     ind_name := ioc_value;
     ind_description :=
       "Analysis URL: " +:+ BASE_URL cfg +:+ "/analysis/" +:+
       py_str (dict_get analysis_data "webid");
     ind_indicator_types := [ioc_type];
     ind_pattern := pattern;
     ind_pattern_type := "stix";
     ind_pattern_version := "2.1";
     ind_valid_from := utc_time (utcnow env (3 + n));
     ind_valid_until := DateTime.strftime_utc_date_format expiry +:+ "Z" |}.

(** Do the [n] numbers from [lo] on all pass the test? *)
Fixpoint all_from (P : Z -> bool) (lo : Z) (n : nat) : bool :=
  match n with
  | O => true
  | S n' => if P lo then all_from P (lo + 1)%Z n' else false
  end.

(** A time from 1000-01-01 to 9999-12-31, the years of four digits. *)
Definition four_digit_year (t : DateTime.datetime) : Prop :=
  (364877 * DateTime.us_per_day <= t < 3652059 * DateTime.us_per_day)%Z.

(** The timestamps of an indicator have the shapes the two formats give:
    milliseconds for [created], [modified] and [valid_from], seconds for
    [valid_until]. *)
Definition well_stamped (ind : Indicator) : Prop :=
  DateTime.is_iso8601_ms_z (ind_created ind) = true /\
  DateTime.is_iso8601_ms_z (ind_modified ind) = true /\
  DateTime.is_iso8601_ms_z (ind_valid_from ind) = true /\
  DateTime.is_iso8601_s_z (ind_valid_until ind) = true /\
  DateTime.is_iso8601_ms_z (ind_valid_until ind) = false.

(** A month from 1 to 12 and a day from 1 to 31. *)
Definition plain_month_day (md : Z * Z) : bool :=
  ((1 <=? fst md) && (fst md <=? 12) && (1 <=? snd md) && (snd md <=? 31))%Z.

(** The number a text spells in hexadecimal, read after [acc]; characters
    that are not digits, such as the dashes of a UUID, are passed over. *)
Fixpoint unhex_from (acc : N) (s : string) : N :=
  match s with
  | EmptyString => acc
  | String c s' =>
      unhex_from (if IpAddress.is_hex_digit c
                  then (acc * 16 + IpAddress.hex_value c)%N else acc) s'
  end.

(** The indicator of one hash of a file: its pattern, its identifier, its
    display label and its type. *)
Definition hash_indicator_of (d : gmap string PyVal) (hash : string * string)
    (ind : Indicator) : Prop :=
  let hash_value := dict_get d (snd hash) in
  ind_pattern ind
    = "[file:hashes.'" +:+ fst hash +:+ "' = '" +:+ py_str hash_value +:+ "']" /\
  ind_id ind = generate_unique_id "file" hash_value "JoeSandbox" /\
  ind_name ind = py_or (dict_get_default d "name" (PyStr EmptyString)) hash_value /\
  ind_indicator_types ind = ["file"].

(** Neither name is the beginning of the other. *)
Definition prefix_free (a b : string) : bool :=
  negb (String.prefix a b) && negb (String.prefix b a).

(** The UUID behind the identifier of a file hash. *)
Definition file_uuid (hash_value : PyVal) : Uuid.UUID :=
  Uuid.uuid5 (Uuid.uuid5 Uuid.NAMESPACE_DNS "JoeSandbox") ("file:" +:+ py_str hash_value).

(** The number of batches of at most [m] elements that [n] elements fill:
    the quotient rounded up. *)
Definition div_ceil (n m : nat) : nat := (n + m - 1) / m.

(** The consecutive slices of [l], [m] elements each but for the last:
    the [k]-th one is [l[k*m : (k+1)*m]]. *)
Definition consecutive_slices {A} (m : nat) (l : list A) : list (list A) :=
  map (fun k => take m (drop (k * m) l)) (seq 0 (div_ceil (length l) m)).

(** A service that accepts every request: each answer is a success that
    carries a JSON object. *)
Definition always_accepts (env : Env) : Prop :=
  forall n rq, exists r d,
    respond env n rq = Responded r /\ ok r = true /\ body r = BodyObject d.

(** A service that answers every request with the response [r]. *)
Definition always_answers (env : Env) (r : Response) : Prop :=
  forall n rq, respond env n rq = Responded r.

(** The first attempt of a call ends in an HTTP error: the request for a
    token, or else the submission that follows it, is answered by [r], a
    client or server error; [w1] is the world at that point. *)
Definition first_failure (cfg : Config) (env : Env) (indicator_data : list Indicator)
    (w : World) (r : Response) (w1 : World) : Prop :=
  ok r = false /\
  ((respond env (post_calls w) (auth_request cfg) = Responded r /\
    w1 = sent w (auth_request cfg))
   \/
   (exists r1 d1,
      respond env (post_calls w) (auth_request cfg) = Responded r1 /\
      ok r1 = true /\ body r1 = BodyObject d1 /\
      let rq := ingest_request cfg (dict_get d1 "access_token") indicator_data in
      respond env (S (post_calls w)) rq = Responded r /\
      w1 = sent (sent w (auth_request cfg)) rq)).

(** An indicator can be built from the report data: the detection verdict
    can be hashed, and the validity window stays within the calendar
    whenever the clock is read. *)
Definition can_build (cfg : Config) (env : Env) (analysis_data : gmap string PyVal) : Prop :=
  (forall n, is_Some (DateTime.add_days (utcnow env n) (VALID_UNTIL cfg))) /\
  match dict_get_default analysis_data "detection" (PyStr EmptyString) with
  | PyOther _ false _ => False
  | _ => True
  end.

(** ** A sample configuration, clock, service and report *)

Definition sample_cfg : Config :=
  {| CONFIDENCE := {[ "malicious" := 100%Z ]};
     HASH_TYPE_LIST := [("MD5", "md5"); ("SHA1", "sha1"); ("SHA256", "sha256")];
     RETRY_STATUS_CODE := [429%Z];
     VALID_UNTIL := 30%Z;
     BASE_URL := "https://sandbox.example";
     APPLICATION_ID := "app";
     APPLICATION_SECRET := "secret";
     RESOURCE_APPLICATION_ID_URI := "resource";
     AUTH_URL := "https://login.example/token";
     URL := "https://api.example/upload";
     USER_AGENT := "agent";
     TIMEOUT := 300%Z;
     SLEEP := 60%Z;
     MAX_TI_INDICATORS_PER_REQUEST := 100%Z |}.

(** 2025-06-26T14:03:12.123456, then one millisecond later at each of the
    first thousand readings. *)
Definition sample_clock (n : nat) : DateTime.datetime :=
  (63886543392123456 + Z.of_nat (Nat.min n 1000) * 1000)%Z.

Definition sample_response (status : Z) : Response :=
  {| status_code := status; body := BodyObject {[ "message" := PyStr "details" ]} |}.

(** A service that answers every request with the given status. *)
Definition sample_env (status : Z) : Env :=
  {| utcnow := sample_clock; respond := fun _ _ => Responded (sample_response status) |}.

Definition sample_analysis : gmap string PyVal :=
  {[ "webid" := PyInt 12345; "detection" := PyStr "malicious" ]}.

(** A malicious file with its three hashes, with and without a name. *)
Definition sample_hashes : gmap string PyVal :=
  {[ "malicious" := PyBool true;
     "md5" := PyStr "d41d8cd98f00b204e9800998ecf8427e";
     "sha1" := PyStr "da39a3ee5e6b4b0d3255bfef95601890afd80709";
     "sha256" := PyStr "e3b0c44298fc1c149afbf4c8996fb92427ae41e4649b934ca495991b7852b855" ]}.

Definition sample_file : gmap string PyVal := <[ "name" := PyStr "dropper.exe" ]> sample_hashes.

(** A malicious domain. *)
Definition sample_domain : gmap string PyVal :=
  {[ "malicious" := PyBool true; "name" := PyStr "evil.example" ]}.

Definition sample_indicator (k : nat) : Indicator :=
  {| ind_type := "indicator"; ind_spec_version := "2.1";
     ind_id := "indicator--" +:+ str_of_Z (Z.of_nat k);
     ind_created := "2025-06-26T14:03:12.123Z"; ind_modified := "2025-06-26T14:03:12.123Z";
     ind_revoked := false; ind_labels := []; ind_confidence := 0%Z;
     ind_name := PyInt (Z.of_nat k); ind_description := "Analysis URL: ";
     ind_indicator_types := ["domain"]; ind_pattern := "[domain-name:value = 'x']";
     ind_pattern_type := "stix"; ind_pattern_version := "2.1";
     ind_valid_from := "2025-06-26T14:03:12.123Z";
     ind_valid_until := "2025-07-26T14:03:12Z" |}.

(** 250 indicators, told apart by their number. *)
Definition sample_indicators : list Indicator := map sample_indicator (seq 0 250).

(** Two IP entries: one whose verdict is not JSON, then a malicious one. *)
Definition sample_bad_ip : gmap string PyVal :=
  {[ "@malicious" := PyStr "maybe"; "$" := PyStr "1.2.3.4" ]}.

Definition sample_good_ip : gmap string PyVal :=
  {[ "@malicious" := PyStr "true"; "$" := PyStr "8.8.8.8" ]}.

(** ** Vocabulary of the further properties *)

(** The world after the events [evs], requests among them. *)
Definition played (w : World) (evs : list Event) : World :=
  {| now_calls := now_calls w; post_calls := length (posts evs) + post_calls w;
     events := events w ++ evs; indicators := indicators w |}.

(** What [k] connection errors in a row leave in the trace when the counter
    of connection retries is [rc] before them: the request, the warning and
    the sleep of each. *)
Fixpoint connection_retries (cfg : Config) (rc : Z) (k : nat) : list Event :=
  match k with
  | O => []
  | S k' =>
      [EvPost (auth_request cfg);
       EvLog WARNING (MsgConnRetry (rc + 1) (SLEEP cfg));
       EvSleep (SLEEP cfg)] ++ connection_retries cfg (rc + 1) k'
  end.

(** The attempt that begins with the request of rank [n] fails as a
    connection does: the request for a token raises an exception of the
    HTTP library other than [HTTPError]. *)
Definition connection_fails (cfg : Config) (env : Env) (n : nat) : Prop :=
  respond env n (auth_request cfg) = Raised RequestException.

(** The attempt that begins with the request of rank [n] is accepted and
    answered by [r]. *)
Definition accepted_at (cfg : Config) (env : Env) (indicator_data : list Indicator)
    (n : nat) (access_token : PyVal) (r : Response) : Prop :=
  exists r1 d1,
    respond env n (auth_request cfg) = Responded r1 /\ ok r1 = true /\
    body r1 = BodyObject d1 /\ access_token = dict_get d1 "access_token" /\
    respond env (S n) (ingest_request cfg access_token indicator_data) = Responded r /\
    ok r = true.

(** A service that accepts every request of a rank from [lo] to [hi - 1]. *)
Definition accepts_between (env : Env) (lo hi : nat) : Prop :=
  forall n rq, lo <= n < hi -> exists r d,
    respond env n rq = Responded r /\ ok r = true /\ body r = BodyObject d.

(** The sample configuration with another maximum per request. *)
Definition sample_cfg_with_max (n : Z) : Config :=
  {| CONFIDENCE := CONFIDENCE sample_cfg;
     HASH_TYPE_LIST := HASH_TYPE_LIST sample_cfg;
     RETRY_STATUS_CODE := RETRY_STATUS_CODE sample_cfg;
     VALID_UNTIL := VALID_UNTIL sample_cfg;
     BASE_URL := BASE_URL sample_cfg;
     APPLICATION_ID := APPLICATION_ID sample_cfg;
     APPLICATION_SECRET := APPLICATION_SECRET sample_cfg;
     RESOURCE_APPLICATION_ID_URI := RESOURCE_APPLICATION_ID_URI sample_cfg;
     AUTH_URL := AUTH_URL sample_cfg;
     URL := URL sample_cfg;
     USER_AGENT := USER_AGENT sample_cfg;
     TIMEOUT := TIMEOUT sample_cfg;
     SLEEP := SLEEP sample_cfg;
     MAX_TI_INDICATORS_PER_REQUEST := n |}.

(** What a report says of the category [key]: the entry of [contacted]
    when it is a list, the list under the singular of the key when it is a
    dictionary; failing both, the dropped files for the key [files]. *)
Definition ioc_of_report (contacted dropped : Data) (key : string) : option Data :=
  match match contacted with DDict c => c !! key | _ => None end with
  | Some (DDict v) => Some (default (DList []) (v !! rstrip_char "s" key))
  | Some (DList items) => Some (DList items)
  | _ =>
      match dropped with
      | DDict d =>
          if String.eqb key "files" then Some (default (DList []) (d !! "file")) else None
      | _ => None
      end
  end.

(** The text of [n] letters [s]. *)
Definition esses (n : nat) : string := string_of_list_ascii (repeat "s"%char n).

(** The text does not end with the letter [s]. *)
Fixpoint no_final_s (s : string) : bool :=
  match s with
  | EmptyString => true
  | String a EmptyString => negb (Ascii.eqb a "s")
  | String _ s' => no_final_s s'
  end.

(** A report of two contacted addresses, one contacted domain and a dropped
    file. *)
Definition sample_report : gmap string Data :=
  {[ "analysis" := DDict
       {[ "contacted" := DDict
            {[ "ips" := DDict {[ "ip" := DList [DStr "8.8.8.8"; DStr "1.1.1.1"] ]};
               "domains" := DDict {[ "domain" := DList [DStr "evil.example"] ]};
               "note" := DStr "n/a" ]};
          "dropped" := DDict {[ "file" := DList [DStr "dropper.exe"] ]} ]} ]}.

(** The verdict test of the domain, URL and file loops: the truth value of
    the entry [malicious]. *)
Definition is_malicious (d : gmap string PyVal) : bool :=
  py_bool (dict_get d "malicious").

(** The world after the indicators [inds] were built and appended: four
    readings of the clock each. *)
Definition built (w : World) (inds : list Indicator) : World :=
  {| now_calls := 4 * length inds + now_calls w; post_calls := post_calls w;
     events := events w; indicators := indicators w ++ inds |}.

(** The indicator of a domain entry. *)
Definition domain_indicator_of (d : gmap string PyVal) (ind : Indicator) : Prop :=
  let domain_value := dict_get d "name" in
  ind_pattern ind = "[domain-name:value = '" +:+ py_str domain_value +:+ "']" /\
  ind_id ind = generate_unique_id "domain" domain_value "JoeSandbox" /\
  ind_name ind = domain_value /\
  ind_indicator_types ind = ["domain"].

(** The indicator of a URL entry. *)
Definition url_indicator_of (d : gmap string PyVal) (ind : Indicator) : Prop :=
  let url_value := dict_get_default d "name" (PyStr EmptyString) in
  ind_pattern ind = "[url:value = '" +:+ py_str url_value +:+ "']" /\
  ind_id ind = generate_unique_id "url" url_value "JoeSandbox" /\
  ind_name ind = url_value /\
  ind_indicator_types ind = ["url"].

(** The truth value [add_ip_indicators] gives a verdict: that of what
    [str_to_bool] returns, when it returns. *)
Definition verdict_of (value : PyVal) : option bool :=
  match value with
  | PyStr s => Json.truthy <$> Json.loads (Json.lower (Json.strip s))
  | _ => Some (py_bool value)
  end.

(** The address of an IP entry. *)
Definition address_of (d : gmap string PyVal) : PyVal :=
  dict_get_default d "$" (PyStr EmptyString).

(** The IP entries that give an indicator, and those that give a warning. *)
Definition is_malicious_ip (d : gmap string PyVal) : bool :=
  match verdict_of (dict_get d "@malicious") with
  | Some true => true
  | _ => false
  end.

Definition has_address (d : gmap string PyVal) : bool :=
  match check_ip (address_of d) with
  | Some _ => true
  | None => false
  end.

(** The indicator of an IP entry. *)
Definition ip_indicator_of (d : gmap string PyVal) (ind : Indicator) : Prop :=
  exists ip_type,
    check_ip (address_of d) = Some ip_type /\
    ind_pattern ind = "[" +:+ ip_type +:+ ":value = '" +:+ py_str (address_of d) +:+ "']" /\
    ind_id ind = generate_unique_id "ip" (address_of d) "JoeSandbox" /\
    ind_name ind = address_of d /\
    ind_indicator_types ind = [ip_type].

(** The warning about an IP entry without a valid address. *)
Definition address_warning (d : gmap string PyVal) : Event :=
  EvLog WARNING (MsgUnrecognizedIP (address_of d)).

(** The hashes of the malicious files, file by file, in the order of
    [HASH_TYPE_LIST]. *)
Definition file_hashes (cfg : Config) (files : list (gmap string PyVal))
    : list (gmap string PyVal * (string * string)) :=
  flat_map (fun d => map (pair d)
                       (List.filter (fun h => py_bool (dict_get d (snd h)))
                                    (HASH_TYPE_LIST cfg)))
           (List.filter is_malicious files).

(** A record of an entry of the given category that could not be
    processed. *)
Definition is_processing_error (category : string) (ev : Event) : Prop :=
  exists err, ev = EvLog ERROR (MsgProcessingError category err).

(** A hexadecimal digit in lower case. *)
Definition is_lower_hex (c : ascii) : bool :=
  let n := N_of_ascii c in
  (((48 <=? n) && (n <=? 57)) || ((97 <=? n) && (n <=? 102)))%N.

(** The text has the given shape, in which [h] stands for any hexadecimal
    digit in lower case, [v] for one of the digits 8, 9, a and b, and any
    other character for itself. *)
Fixpoint has_shape (shape : string) (s : string) : bool :=
  match shape, s with
  | EmptyString, EmptyString => true
  | String p shape', String c s' =>
      (if Ascii.eqb p "h" then is_lower_hex c
       else if Ascii.eqb p "v" then existsb (Ascii.eqb c) ["8"; "9"; "a"; "b"]%char
       else Ascii.eqb p c)
      && has_shape shape' s'
  | _, _ => false
  end.

(** A STIX identifier of an indicator whose UUID has the version 5 and the
    variant of RFC 4122. *)
Definition is_indicator_id (s : string) : bool :=
  has_shape "indicator--hhhhhhhh-hhhh-5hhh-vhhh-hhhhhhhhhhhh" s.

(** The address [a.b.c.d] written with decimal numbers. *)
Definition dotted_quad (a b c d : Z) : string :=
  str_of_Z a +:+ "." +:+ str_of_Z b +:+ "." +:+ str_of_Z c +:+ "." +:+ str_of_Z d.

(** A number from 0 to 255. *)
Definition is_octet (z : Z) : bool := ((0 <=? z) && (z <=? 255))%Z.

(** What the parsers make of the decimal text of a number below 1000: it
    is the octet it spells when that is at most 255 and is rejected
    otherwise, it is rejected after a zero, and it holds none of the
    characters that separate the parts of an address. *)
Definition octet_text_ok (z : Z) : bool :=
  let s := str_of_Z z in
  bool_decide (IpAddress.parse_octet s = if is_octet z then Some (Z.to_N z) else None)
  && bool_decide (IpAddress.parse_octet (String "0" s) = None)
  && negb (IpAddress.str_contains "." s) && negb (IpAddress.str_contains "/" s)
  && negb (IpAddress.str_contains ":" s) && negb (IpAddress.str_contains "%" s)
  && negb (String.eqb s EmptyString).

(** The ASCII characters that [str.isspace] accepts. *)
Definition is_space_code (n : N) : bool :=
  existsb (N.eqb n) [9; 10; 11; 12; 13; 28; 29; 30; 31; 32]%N.

(** A text of ASCII white space. *)
Definition all_spaces (s : string) : bool :=
  IpAddress.str_all (fun c => is_space_code (N_of_ascii c)) s.

(** A clock that always shows the last day of the calendar, 9999-12-31. *)
Definition last_day_env : Env :=
  {| utcnow := fun _ => (3652058 * DateTime.us_per_day)%Z;
     respond := fun _ _ => Responded (sample_response 200) |}.

(** The indicator types that the four extraction functions give. *)
Definition ioc_types : list string := ["domain"; "url"; "file"; "ipv4-addr"; "ipv6-addr"].

(** The fields of an indicator that do not depend on the clock: the
    constants of the format, an identifier of the canonical shape, one
    indicator type among those of [ioc_types], and the four labels. *)
Definition well_formed (ind : Indicator) : Prop :=
  ind_type ind = "indicator" /\ ind_spec_version ind = "2.1" /\
  ind_revoked ind = false /\
  ind_pattern_type ind = "stix" /\ ind_pattern_version ind = "2.1" /\
  is_indicator_id (ind_id ind) = true /\
  (exists ioc_type, ind_indicator_types ind = [ioc_type] /\ In ioc_type ioc_types) /\
  length (ind_labels ind) = 4.

(** The texts [gs] with the character [c] between them: [c.join(gs)]. *)
Fixpoint join_with (c : ascii) (gs : list string) : string :=
  match gs with
  | [] => EmptyString
  | [g] => g
  | g :: rest => g +:+ String c (join_with c rest)
  end.

(** One to four hexadecimal digits. *)
Definition is_hextet (g : string) : bool :=
  IpAddress.str_all IpAddress.is_hex_digit g
  && (1 <=? String.length g)%nat && (String.length g <=? 4)%nat.

(* ===================================================================== *)
(** * Properties                                                          *)
(* ===================================================================== *)

(** ** Running the monad *)

Lemma bind_run {A B} (m : M A) (f : A -> M B) (w : World) :
  (m ≫= f) w =
  match m w with
  | (Ok a, w') => f a w'
  | (Raise e, w') => (Raise e, w')
  | (OutOfFuel, w') => (OutOfFuel, w')
  end.
Proof. reflexivity. Qed.

Lemma ret_run {A} (a : A) (w : World) : mret (M := M) a w = (Ok a, w).
Proof. reflexivity. Qed.

Lemma emit_run (ev : Event) (w : World) : emit ev w = (Ok tt, with_events w [ev]).
Proof. reflexivity. Qed.

Lemma with_events_nil (w : World) : with_events w [] = w.
Proof. destruct w; unfold with_events; simpl. by rewrite app_nil_r. Qed.

Lemma with_events_app (w : World) (e1 e2 : list Event) :
  with_events (with_events w e1) e2 = with_events w (e1 ++ e2).
Proof. unfold with_events; simpl. by rewrite app_assoc. Qed.

Lemma py_for_cons {A} (x : A) (xs : list A) (body : A -> M unit) (w : World) :
  py_for (x :: xs) body w =
  match body x w with
  | (Ok _, w') => py_for xs body w'
  | (Raise e, w') => (Raise e, w')
  | (OutOfFuel, w') => (OutOfFuel, w')
  end.
Proof. reflexivity. Qed.

(** An entry the body leaves the world unchanged on does not show in the
    loop. *)
Lemma py_for_skip {A} (x : A) (xs : list A) (body : A -> M unit) :
  (forall w, body x w = (Ok tt, w)) ->
  forall w, py_for (x :: xs) body w = py_for xs body w.
Proof. intros H w. rewrite py_for_cons, H. reflexivity. Qed.

(** An exception in the body ends the loop: the entries after it are not
    visited. *)
Lemma py_for_raise {A} (x : A) (xs : list A) (body : A -> M unit) (w w' : World) (e : Exn) :
  body x w = (Raise e, w') -> py_for (x :: xs) body w = (Raise e, w').
Proof. intros H. rewrite py_for_cons, H. reflexivity. Qed.

(** ** Entries without a verdict *)

Section Skipped.
Variable cfg : Config.
Variable env : Env.
Variable analysis_data : gmap string PyVal.

Lemma add_domain_indicator_absent (d : gmap string PyVal) (w : World) :
  dict_get d "malicious" = PyNone ->
  add_domain_indicator cfg env analysis_data (EntryDict d) w = (Ok tt, w).
Proof. intros H. unfold add_domain_indicator. simpl. rewrite bind_run, ret_run, H. reflexivity. Qed.

Lemma add_url_indicator_absent (d : gmap string PyVal) (w : World) :
  dict_get d "malicious" = PyNone ->
  add_url_indicator cfg env analysis_data (EntryDict d) w = (Ok tt, w).
Proof. intros H. unfold add_url_indicator. simpl. rewrite bind_run, ret_run, H. reflexivity. Qed.

Lemma add_file_indicator_absent (d : gmap string PyVal) (w : World) :
  dict_get d "malicious" = PyNone ->
  add_file_indicator cfg env analysis_data (EntryDict d) w = (Ok tt, w).
Proof. intros H. unfold add_file_indicator. simpl. rewrite bind_run, ret_run, H. reflexivity. Qed.

Lemma add_ip_indicator_absent (d : gmap string PyVal) (w : World) :
  dict_get d "@malicious" = PyNone ->
  add_ip_indicator cfg env analysis_data (EntryDict d) w = (Ok tt, w).
Proof. intros H. unfold add_ip_indicator. simpl. rewrite bind_run, ret_run, H. reflexivity. Qed.

End Skipped.

(** C10. An entry (a dictionary) whose verdict lookup yields [None] is
    skipped silently, in every category: the loop body returns without an
    exception and leaves the world as it was (no indicator appended,
    nothing logged, the clock not read), so that the whole function behaves
    as if the entry were not in its list.  For an IP entry the verdict goes
    through [str_to_bool], which maps a value that is not a string to its
    truth value. *)
Theorem absent_verdict_is_skipped
    (cfg : Config) (env : Env) (analysis_data : gmap string PyVal)
    (d : gmap string PyVal) (rest : list Entry) (w : World) :
  dict_get d "malicious" = PyNone ->
  dict_get d "@malicious" = PyNone ->
  (add_domain_indicator cfg env analysis_data (EntryDict d) w = (Ok tt, w) /\
   add_url_indicator cfg env analysis_data (EntryDict d) w = (Ok tt, w) /\
   add_file_indicator cfg env analysis_data (EntryDict d) w = (Ok tt, w) /\
   add_ip_indicator cfg env analysis_data (EntryDict d) w = (Ok tt, w)) /\
  (add_domain_indicators cfg env (EntryDict d :: rest) analysis_data w
     = add_domain_indicators cfg env rest analysis_data w /\
   add_url_indicators cfg env (EntryDict d :: rest) analysis_data w
     = add_url_indicators cfg env rest analysis_data w /\
   add_file_indicators cfg env (EntryDict d :: rest) analysis_data w
     = add_file_indicators cfg env rest analysis_data w /\
   add_ip_indicators cfg env (EntryDict d :: rest) analysis_data w
     = add_ip_indicators cfg env rest analysis_data w) /\
  str_to_bool PyNone w = (Ok (Json.Bool false), w).
Proof.
  intros Hm Ha. split; [|split].
  - repeat split.
    + by apply add_domain_indicator_absent.
    + by apply add_url_indicator_absent.
    + by apply add_file_indicator_absent.
    + by apply add_ip_indicator_absent.
  - unfold add_domain_indicators, add_url_indicators, add_file_indicators, add_ip_indicators.
    repeat split; rewrite !bind_run; cbn [indicators_reset]; rewrite !bind_run;
      rewrite py_for_skip; auto; intros w0.
    + by apply add_domain_indicator_absent.
    + by apply add_url_indicator_absent.
    + by apply add_file_indicator_absent.
    + by apply add_ip_indicator_absent.
  - reflexivity.
Qed.

Lemma absent_verdict_is_skipped_witness :
  let d : gmap string PyVal := {[ "name" := PyStr "benign.example"; "$" := PyStr "8.8.8.8" ]} in
  add_domain_indicators sample_cfg (sample_env 200) [EntryDict d] sample_analysis initial_world
    = (Ok [], initial_world) /\
  add_ip_indicators sample_cfg (sample_env 200) [EntryDict d] sample_analysis initial_world
    = (Ok [], initial_world).
Proof.
  intros d.
  destruct (absent_verdict_is_skipped sample_cfg (sample_env 200) sample_analysis d []
              initial_world) as (_ & (Hd & _ & _ & Hi) & _).
  - vm_compute. reflexivity.
  - vm_compute. reflexivity.
  - split; [rewrite Hd | rewrite Hi]; reflexivity.
Defined.
(** ** Slices *)

Lemma div_ceil_gt (n m k : nat) : 0 < m -> (k < div_ceil n m <-> k * m < n).
Proof.
  intros Hm. unfold div_ceil. split; intros H.
  - destruct (Nat.lt_ge_cases (k * m) n) as [|Hge]; [done|]. exfalso.
    assert ((n + m - 1) / m < S k); [|lia].
    apply Nat.Div0.div_lt_upper_bound. lia.
  - apply (Nat.lt_le_trans _ (S k)); [lia|].
    apply Nat.div_le_lower_bound; lia.
Qed.

Lemma concat_slices_take {A} (m : nat) (l : list A) (n : nat) :
  concat (map (fun k => take m (drop (k * m) l)) (seq 0 n)) = take (n * m) l.
Proof.
  induction n as [|n IH].
  - reflexivity.
  - rewrite seq_S, map_app, concat_app, IH. simpl. rewrite app_nil_r.
    rewrite take_take_drop. f_equal. lia.
Qed.

Lemma consecutive_slices_length {A} (m : nat) (l : list A) :
  length (consecutive_slices m l) = div_ceil (length l) m.
Proof. unfold consecutive_slices. by rewrite length_map, length_seq. Qed.

Lemma consecutive_slices_concat {A} (m : nat) (l : list A) :
  0 < m -> concat (consecutive_slices m l) = l.
Proof.
  intros Hm. unfold consecutive_slices. rewrite concat_slices_take.
  apply take_ge.
  destruct (Nat.lt_ge_cases (div_ceil (length l) m * m) (length l)) as [H|]; [|done].
  apply div_ceil_gt in H; [lia | done].
Qed.

Lemma consecutive_slices_sizes {A} (m : nat) (l : list A) :
  0 < m -> Forall (fun b => 0 < length b <= m) (consecutive_slices m l).
Proof.
  intros Hm. unfold consecutive_slices. apply Forall_forall. intros b Hb.
  apply list_elem_of_In, in_map_iff in Hb as (k & <- & Hk).
  apply in_seq in Hk. rewrite length_take, length_drop.
  assert (k * m < length l) by (apply div_ceil_gt; [done | lia]). lia.
Qed.
Lemma consecutive_slices_lookup {A} (m : nat) (l : list A) (k : nat) (b : list A) :
  consecutive_slices m l !! k = Some b ->
  b = take m (drop (k * m) l) /\ length b = Nat.min m (length l - k * m).
Proof.
  unfold consecutive_slices. intros H.
  apply list_lookup_fmap_Some in H as (j & -> & Hj).
  apply lookup_seq in Hj as [-> _]. simpl.
  split; [done|]. by rewrite length_take, length_drop.
Qed.

Lemma range_up_slices {A} (l : list A) (m fuel k : nat) :
  0 < m -> length l - k * m <= fuel ->
  map (fun i => slice l i (i + Z.of_nat m))
      (range_up fuel (Z.of_nat (k * m)) (Z.of_nat (length l)) (Z.of_nat m))
  = map (fun j => take m (drop (j * m) l)) (seq k (div_ceil (length l) m - k)).
Proof.
  intros Hm. revert k. induction fuel as [|fuel IH]; intros k Hfuel.
  - simpl. replace (div_ceil (length l) m - k) with 0; [done|].
    destruct (Nat.lt_ge_cases k (div_ceil (length l) m)) as [H|]; [|lia].
    apply div_ceil_gt in H; lia.
  - simpl. destruct (Z.ltb_spec (Z.of_nat (k * m)) (Z.of_nat (length l))) as [Hlt|Hge].
    + assert (Hk : k < div_ceil (length l) m) by (apply div_ceil_gt; lia).
      replace (div_ceil (length l) m - k) with (S (div_ceil (length l) m - S k)) by lia.
      simpl. f_equal.
      * unfold slice. f_equal; [lia|]. f_equal. lia.
      * replace (Z.of_nat (k * m) + Z.of_nat m)%Z with (Z.of_nat (S k * m)) by lia.
        apply IH. simpl. lia.
    + replace (div_ceil (length l) m - k) with 0; [done|].
      destruct (Nat.lt_ge_cases k (div_ceil (length l) m)) as [H|]; [|lia].
      apply div_ceil_gt in H; lia.
Qed.

(** ** Requests and their outcomes *)

Lemma post_responded (env : Env) (rq : Request) (w : World) (r : Response) :
  respond env (post_calls w) rq = Responded r -> post env rq w = (Ok r, sent w rq).
Proof. intros H. unfold post. rewrite H. reflexivity. Qed.

Lemma post_raised (env : Env) (rq : Request) (w : World) (e : Exn) :
  respond env (post_calls w) rq = Raised e -> post env rq w = (Raise e, sent w rq).
Proof. intros H. unfold post. rewrite H. reflexivity. Qed.

Lemma raise_for_status_ok (r : Response) (w : World) :
  ok r = true -> raise_for_status r w = (Ok tt, w).
Proof. intros H. unfold raise_for_status. rewrite H. reflexivity. Qed.

Lemma raise_for_status_error (r : Response) (w : World) :
  ok r = false -> raise_for_status r w = (Raise (HTTPError (Some r)), w).
Proof. intros H. unfold raise_for_status. rewrite H. reflexivity. Qed.

(** An attempt that the service accepts: two requests, no exception. *)
Lemma attempt_accepted (cfg : Config) (env : Env) (indicator_data : list Indicator)
    (w : World) (r1 r2 : Response) (d1 : gmap string PyVal) :
  let rq2 := ingest_request cfg (dict_get d1 "access_token") indicator_data in
  respond env (post_calls w) (auth_request cfg) = Responded r1 ->
  ok r1 = true -> body r1 = BodyObject d1 ->
  respond env (S (post_calls w)) rq2 = Responded r2 ->
  ok r2 = true ->
  attempt cfg env indicator_data w = (Ok r2, sent (sent w (auth_request cfg)) rq2).
Proof.
  intros rq2 E1 Hok1 Hb1 E2 Hok2. unfold attempt.
  rewrite bind_run, (post_responded _ _ _ _ E1). cbv beta iota zeta.
  rewrite bind_run, (raise_for_status_ok _ _ Hok1). cbv beta iota zeta.
  rewrite bind_run. unfold json_get. rewrite Hb1, ret_run. cbv beta iota zeta.
  rewrite bind_run, (post_responded _ _ (sent w _) _ E2). cbv beta iota zeta.
  rewrite bind_run, (raise_for_status_ok _ _ Hok2). reflexivity.
Qed.

(** Logging shows neither in the requests nor in the sleeps of a trace. *)
Lemma log_not_observed (w : World) (level : Level) (msg : Message) :
  let w' := with_events w [EvLog level msg] in
  batches_posted (events w') = batches_posted (events w) /\
  attempts (events w') = attempts (events w) /\
  sleeps (events w') = sleeps (events w).
Proof.
  unfold batches_posted, attempts, sleeps, posts. cbn [with_events events].
  rewrite !omap_app. simpl. by rewrite !app_nil_r.
Qed.

(** ** Submission to a service that accepts *)

Section Accepting.
Variable cfg : Config.
Variable env : Env.
Hypothesis accepts : always_accepts env.

Lemma create_indicator_accepted (indicator_data : list Indicator) (retry : Z) (w : World) :
  (0 <= retry)%Z ->
  exists response access_token,
    create_indicator cfg env indicator_data retry w =
      (Ok response, sent (sent w (auth_request cfg))
                         (ingest_request cfg access_token indicator_data)).
Proof.
  intros Hretry.
  destruct (accepts (post_calls w) (auth_request cfg)) as (r1 & d1 & E1 & Hok1 & Hb1).
  destruct (accepts (S (post_calls w))
              (ingest_request cfg (dict_get d1 "access_token") indicator_data))
    as (r2 & d2 & E2 & Hok2 & Hb2).
  exists r2, (dict_get d1 "access_token").
  unfold create_indicator, create_indicator_under. cbn [create_indicator_loop].
  destruct (Z.leb_spec 0 retry) as [_|]; [|lia].
  rewrite bind_run. unfold turn, try_except.
  rewrite bind_run, (attempt_accepted _ _ _ _ _ _ _ E1 Hok1 Hb1 E2 Hok2).
  reflexivity.
Qed.

(** What one accepted call adds to the observations of a trace. *)
Lemma accepted_call_observed (w : World) (access_token : PyVal) (b : list Indicator) :
  let w' := sent (sent w (auth_request cfg)) (ingest_request cfg access_token b) in
  batches_posted (events w') = batches_posted (events w) ++ [b] /\
  attempts (events w') = S (attempts (events w)) /\
  sleeps (events w') = sleeps (events w).
Proof.
  unfold batches_posted, attempts, sleeps, posts. cbn [sent events].
  rewrite !omap_app. cbn [omap]. split; [|split].
  - simpl. by rewrite app_nil_r.
  - simpl. rewrite !List.filter_app, !length_app. simpl. lia.
  - simpl. by rewrite !app_nil_r.
Qed.

(** The loop of [submit_indicator] over the start indices. *)
Lemma submit_loop_accepted (l : list Indicator) (step : Z) (starts : list Z) (w : World) :
  exists w',
    py_for starts
      (fun i => _ ← create_indicator cfg env (slice l i (i + step)) 3; mret tt) w
      = (Ok tt, w') /\
    batches_posted (events w')
      = batches_posted (events w) ++ map (fun i => slice l i (i + step)) starts /\
    attempts (events w') = attempts (events w) + length starts /\
    sleeps (events w') = sleeps (events w).
Proof.
  revert w. induction starts as [|i starts IH]; intros w.
  - exists w. simpl. rewrite app_nil_r. repeat split; lia.
  - destruct (create_indicator_accepted (slice l i (i + step)) 3 w) as (r & tok & E); [lia|].
    destruct (IH (sent (sent w (auth_request cfg))
                       (ingest_request cfg tok (slice l i (i + step)))))
      as (w' & Hrun & Hb & Ha & Hs).
    destruct (accepted_call_observed w tok (slice l i (i + step))) as (Hb1 & Ha1 & Hs1).
    exists w'. split; [|split; [|split]].
    + rewrite py_for_cons, bind_run, E. cbv beta iota zeta. rewrite ret_run. exact Hrun.
    + rewrite Hb, Hb1, <- app_assoc. reflexivity.
    + rewrite Ha, Ha1. simpl. lia.
    + rewrite Hs, Hs1. reflexivity.
Qed.

End Accepting.

(** C2. With a positive maximum [M] per request and a service that accepts
    every request, [submit_indicator] returns [True] after exactly
    [ceil(L/M)] calls of [create_indicator] (one attempt each, no sleep),
    and the batches it posts are the consecutive slices of its argument in
    the original order: they number [ceil(L/M)], the [k]-th one is
    [l[k*M : (k+1)*M]] of size [min(M, L - k*M)] (so [M, M, ..., remainder]),
    none is empty, and their concatenation is the argument: no indicator
    duplicated or dropped. *)
Theorem submit_indicator_batches
    (cfg : Config) (env : Env) (indicators_list : list Indicator) (w : World) :
  let m := Z.to_nat (MAX_TI_INDICATORS_PER_REQUEST cfg) in
  (0 < MAX_TI_INDICATORS_PER_REQUEST cfg)%Z ->
  always_accepts env ->
  exists w',
    submit_indicator cfg env indicators_list w = (Ok true, w') /\
    batches_posted (events w')
      = batches_posted (events w) ++ consecutive_slices m indicators_list /\
    attempts (events w') = attempts (events w) + div_ceil (length indicators_list) m /\
    sleeps (events w') = sleeps (events w) /\
    length (consecutive_slices m indicators_list) = div_ceil (length indicators_list) m /\
    concat (consecutive_slices m indicators_list) = indicators_list /\
    (forall k b, consecutive_slices m indicators_list !! k = Some b ->
       b = take m (drop (k * m) indicators_list) /\
       length b = Nat.min m (length indicators_list - k * m) /\ 0 < length b).
Proof.
  intros m HM Hacc.
  assert (Hm : 0 < m) by (unfold m; lia).
  pose proof (range_up_slices indicators_list m (length indicators_list) 0 Hm) as Hr.
  simpl in Hr. change (Z.of_nat 0) with 0%Z in Hr.
  rewrite !Nat.sub_0_r in Hr. specialize (Hr (Nat.le_refl _)).
  replace (Z.of_nat m) with (MAX_TI_INDICATORS_PER_REQUEST cfg) in Hr by (unfold m; lia).
  set (starts := range_up (length indicators_list) 0 (Z.of_nat (length indicators_list))
                          (MAX_TI_INDICATORS_PER_REQUEST cfg)) in *.
  destruct (submit_loop_accepted cfg env Hacc indicators_list
              (MAX_TI_INDICATORS_PER_REQUEST cfg) starts
              (with_events w [EvLog INFO (MsgLength (length indicators_list))]))
    as (w' & Hrun & Hb & Ha & Hs).
  exists w'. split; [|split; [|split; [|split; [|split; [|split]]]]].
  - unfold submit_indicator, submit_indicator_under, try_except.
    rewrite bind_run. unfold log. rewrite emit_run. cbv beta iota zeta.
    rewrite bind_run. unfold py_range.
    destruct (Z.eqb_spec (MAX_TI_INDICATORS_PER_REQUEST cfg) 0) as [|_]; [lia|].
    destruct (Z.ltb_spec 0 (MAX_TI_INDICATORS_PER_REQUEST cfg)) as [_|]; [|lia].
    rewrite ret_run. cbv beta iota zeta.
    rewrite Z.sub_0_r, Nat2Z.id. fold starts.
    rewrite bind_run. unfold create_indicator in Hrun. rewrite Hrun. reflexivity.
  - rewrite Hb, Hr. by rewrite (proj1 (log_not_observed w _ _)).
  - rewrite Ha. rewrite (proj1 (proj2 (log_not_observed w _ _))). f_equal.
    assert (length (map (fun i => slice indicators_list i
                                    (i + MAX_TI_INDICATORS_PER_REQUEST cfg)) starts)
            = length (consecutive_slices m indicators_list)) as E
      by (unfold consecutive_slices; rewrite Hr; reflexivity).
    rewrite length_map in E. rewrite E. apply consecutive_slices_length.
  - rewrite Hs. by rewrite (proj2 (proj2 (log_not_observed w _ _))).
  - apply consecutive_slices_length.
  - by apply consecutive_slices_concat.
  - intros k b Hk. destruct (consecutive_slices_lookup _ _ _ _ Hk) as [-> Hlen].
    repeat split; [done|].
    pose proof (consecutive_slices_sizes m indicators_list Hm) as Hall.
    rewrite Forall_forall in Hall.
    apply list_elem_of_lookup_2 in Hk. apply Hall in Hk. lia.
Qed.
Lemma submit_indicator_batches_witness :
  exists w',
    submit_indicator sample_cfg (sample_env 200) sample_indicators initial_world
      = (Ok true, w') /\
    map length (batches_posted (events w')) = [100; 100; 50] /\
    concat (batches_posted (events w')) = sample_indicators /\
    attempts (events w') = 3.
Proof.
  destruct (submit_indicator_batches sample_cfg (sample_env 200) sample_indicators
              initial_world) as (w' & Hrun & Hb & Ha & _ & _ & Hcat & _).
  - reflexivity.
  - intros n rq. eexists _, _. repeat split; reflexivity.
  - exists w'. split; [exact Hrun|]. rewrite Hb, Ha.
    split; [vm_compute; reflexivity|]. split; [exact Hcat | reflexivity].
Defined.

(** C9. With a maximum per request other than zero, [submit_indicator] on
    the empty list returns [True] having only logged the length: the loop
    has no start index, no call of [create_indicator] is made and no
    request is sent. *)
Theorem submit_indicator_empty (cfg : Config) (env : Env) (w : World) :
  MAX_TI_INDICATORS_PER_REQUEST cfg <> 0%Z ->
  submit_indicator cfg env [] w = (Ok true, with_events w [EvLog INFO (MsgLength 0)]) /\
  posts (events (with_events w [EvLog INFO (MsgLength 0)])) = posts (events w).
Proof.
  intros HM. split.
  - unfold submit_indicator, submit_indicator_under, try_except.
    rewrite bind_run. unfold log. rewrite emit_run. cbv beta iota zeta.
    rewrite bind_run. unfold py_range.
    destruct (Z.eqb_spec (MAX_TI_INDICATORS_PER_REQUEST cfg) 0) as [|_]; [done|].
    destruct (0 <? MAX_TI_INDICATORS_PER_REQUEST cfg)%Z; reflexivity.
  - unfold posts. cbn [with_events events]. rewrite omap_app. simpl. by rewrite app_nil_r.
Qed.

Lemma submit_indicator_empty_witness :
  submit_indicator sample_cfg (sample_env 500) [] initial_world
    = (Ok true, with_events initial_world [EvLog INFO (MsgLength 0)]) /\
  posts (events (with_events initial_world [EvLog INFO (MsgLength 0)])) = [].
Proof. apply (submit_indicator_empty sample_cfg (sample_env 500) initial_world). simpl. lia. Defined.

(** ** The retry loop *)

Section RetryLoop.
Variable cfg : Config.
Variable env : Env.
Variable response_bool : Response -> bool.
Variable indicator_data : list Indicator.

(** An attempt returns or raises: it has no loop. *)
Lemma attempt_not_out_of_fuel (w : World) :
  fst (attempt cfg env indicator_data w) <> OutOfFuel.
Proof.
  unfold attempt. rewrite bind_run. unfold post at 1.
  destruct (respond env (post_calls w) (auth_request cfg)) as [r1|e]; [|done].
  cbv beta iota zeta. rewrite bind_run. unfold raise_for_status at 1.
  destruct (ok r1); [|done]. rewrite ret_run. cbv beta iota zeta.
  rewrite bind_run. unfold json_get. destruct (body r1); try done.
  rewrite ret_run. cbv beta iota zeta. rewrite bind_run. unfold post.
  match goal with |- context [respond ?a ?b ?c] => destruct (respond a b c) as [r2|e] end;
    [|done].
  cbv beta iota zeta. rewrite bind_run. unfold raise_for_status.
  destruct (ok r2); done.
Qed.

(** The four ways a turn of the loop ends. *)
Lemma turn_cases (retry c rc : Z) (w : World) :
  match turn cfg env response_bool indicator_data retry c rc w with
  | (Ok (Return _), _) => True
  | (Ok (Continue c' rc'), _) =>
      (c' = (c + 1)%Z /\ rc' = rc) \/ (c' = c /\ rc' = (rc + 1)%Z /\ (rc < retry)%Z)
  | (Raise _, _) => True
  | (OutOfFuel, _) => False
  end.
Proof.
  unfold turn, try_except. rewrite bind_run.
  pose proof (attempt_not_out_of_fuel w) as Hfuel.
  destruct (attempt cfg env indicator_data w) as [[r|e|] w1]; [done| |done].
  destruct e as [| | | |[r|]| | | |]; try done.
  - destruct (response_bool r); [|done].
    destruct (existsb _ _); [|done]. left. done.
  - destruct (Z.ltb_spec rc retry); [|done]. right. done.
Qed.

(** The loop ends before its fuel does. *)
Lemma create_indicator_loop_terminates (retry : Z) (fuel : nat) :
  forall (c rc : Z) (w : World),
    Z.to_nat (retry + 1 - c) + Z.to_nat (retry - rc) < fuel ->
    fst (create_indicator_loop cfg env response_bool fuel indicator_data retry c rc w)
      <> OutOfFuel.
Proof.
  induction fuel as [|fuel IH]; intros c rc w Hfuel; [lia|].
  cbn [create_indicator_loop].
  destruct (Z.leb_spec c retry) as [Hc|]; [|done].
  rewrite bind_run. pose proof (turn_cases retry c rc w) as Hturn.
  destruct (turn cfg env response_bool indicator_data retry c rc w) as [[[r|c' rc']|e|] w1];
    try done.
  apply IH. destruct Hturn as [[-> ->]|(-> & -> & Hrc)]; lia.
Qed.

End RetryLoop.

(** [create_indicator] returns a response or raises an exception, whatever
    the service does: the fuel of the model is never the reason it stops. *)
Lemma create_indicator_terminates
    (cfg : Config) (env : Env) (indicator_data : list Indicator) (retry : Z) (w : World) :
  fst (create_indicator cfg env indicator_data retry w) <> OutOfFuel.
Proof.
  unfold create_indicator, create_indicator_under.
  apply create_indicator_loop_terminates. lia.
Qed.
(** ** HTTP errors *)

Section HttpErrors.
Variable cfg : Config.
Variable env : Env.
Variable indicator_data : list Indicator.

Lemma attempt_first_failure (w w1 : World) (r : Response) :
  first_failure cfg env indicator_data w r w1 ->
  attempt cfg env indicator_data w = (Raise (HTTPError (Some r)), w1).
Proof.
  intros [Hok [[E ->]|(r1 & d1 & E1 & Hok1 & Hb1 & E2 & ->)]]; unfold attempt.
  - rewrite bind_run, (post_responded _ _ _ _ E). cbv beta iota zeta.
    rewrite bind_run, (raise_for_status_error _ _ Hok). reflexivity.
  - rewrite bind_run, (post_responded _ _ _ _ E1). cbv beta iota zeta.
    rewrite bind_run, (raise_for_status_ok _ _ Hok1). cbv beta iota zeta.
    rewrite bind_run. unfold json_get. rewrite Hb1, ret_run. cbv beta iota zeta.
    rewrite bind_run, (post_responded _ _ (sent w _) _ E2). cbv beta iota zeta.
    rewrite bind_run, (raise_for_status_error _ _ Hok). reflexivity.
Qed.

(** What a failed attempt adds to the observations of a trace: one more
    attempt, no sleep. *)
Lemma first_failure_observed (w w1 : World) (r : Response) :
  first_failure cfg env indicator_data w r w1 ->
  attempts (events w1) = S (attempts (events w)) /\
  sleeps (events w1) = sleeps (events w) /\
  error_bodies (events w1) = error_bodies (events w).
Proof.
  intros [_ [[_ ->]|(r1 & d1 & _ & _ & _ & _ & ->)]];
    unfold attempts, sleeps, error_bodies, posts; cbn [sent events];
    rewrite !omap_app; simpl; rewrite ?List.filter_app, ?length_app, ?app_nil_r;
    simpl; repeat split; lia.
Qed.

(** With the truth value the library gives a response, the handler of
    [HTTPError] takes neither the branch that decodes the body nor the one
    that retries: the response of an error is false.  Whatever its status,
    the error is logged with an empty body and raised. *)
Lemma http_error_is_final (retry : Z) (w w1 : World) (r : Response) :
  (0 <= retry)%Z ->
  attempt cfg env indicator_data w = (Raise (HTTPError (Some r)), w1) ->
  ok r = false ->
  create_indicator cfg env indicator_data retry w =
    (Raise (ExceptionFrom (HTTPError (Some r))),
     with_events w1 [EvLog ERROR (MsgHttpError (HTTPError (Some r)));
                     EvLog ERROR (MsgErrorBody ErrEmpty)]).
Proof.
  intros Hretry Hattempt Hok.
  unfold create_indicator, create_indicator_under. cbn [create_indicator_loop].
  destruct (Z.leb_spec 0 retry) as [_|]; [|lia].
  rewrite bind_run. unfold turn, try_except. rewrite bind_run, Hattempt.
  cbv beta iota zeta. unfold Response_bool. rewrite Hok.
  unfold fail_http, log. rewrite bind_run, emit_run. cbv beta iota zeta.
  rewrite bind_run, emit_run. cbv beta iota zeta.
  rewrite with_events_app. reflexivity.
Qed.

(** Under the reading in which every response object is true, a service
    that keeps answering with a retryable status is asked once per value
    [0, ..., retry] of the counter, and each of these attempts is followed
    by a sleep, the last one included. *)
Lemma retry_loop_when_truthy (retry : Z) (r : Response) :
  always_answers env r -> ok r = false ->
  existsb (Z.eqb (status_code r)) (RETRY_STATUS_CODE cfg) = true ->
  forall (n fuel : nat) (c rc : Z) (w : World),
    (c + Z.of_nat n = retry + 1)%Z -> n < fuel ->
    exists w',
      create_indicator_loop cfg env (fun _ => true) fuel indicator_data retry c rc w
        = (Raise (ExceptionMsg "Failed to create indicator after multiple retries."), w') /\
      attempts (events w') = attempts (events w) + n /\
      sleeps (events w') = sleeps (events w) ++ repeat (SLEEP cfg) n.
Proof.
  intros Hans Hok Hretryable n.
  induction n as [|n IH]; intros fuel c rc w Hc Hfuel;
    (destruct fuel as [|fuel]; [lia|]); cbn [create_indicator_loop].
  - destruct (Z.leb_spec c retry); [lia|].
    exists w. simpl. rewrite app_nil_r. repeat split; lia.
  - destruct (Z.leb_spec c retry); [|lia].
    rewrite bind_run. unfold turn, try_except. rewrite bind_run.
    rewrite (attempt_first_failure w (sent w (auth_request cfg)) r)
      by (split; [done|]; left; split; [apply Hans | done]).
    cbv beta iota zeta. rewrite Hretryable.
    unfold log, sleep. rewrite bind_run, emit_run. cbv beta iota zeta.
    rewrite bind_run, emit_run. cbv beta iota zeta. rewrite ret_run, with_events_app.
    cbv beta iota zeta.
    destruct (IH fuel (c + 1)%Z rc
                (with_events (sent w (auth_request cfg))
                   [EvLog WARNING (MsgHttpRetry (c + 1) (status_code r) (SLEEP cfg));
                    EvSleep (SLEEP cfg)])) as (w' & Hrun & Ha & Hs); [lia|lia|].
    exists w'. split; [exact Hrun|]. rewrite Ha, Hs.
    unfold attempts, sleeps, posts. cbn [with_events sent events].
    rewrite !omap_app. simpl. rewrite !List.filter_app, !length_app, !app_nil_r. simpl.
    split; [lia|]. by rewrite <- app_assoc.
Qed.

End HttpErrors.

Lemma attempts_app (e1 e2 : list Event) : attempts (e1 ++ e2) = attempts e1 + attempts e2.
Proof. unfold attempts, posts. by rewrite omap_app, List.filter_app, length_app. Qed.

Lemma sleeps_app (e1 e2 : list Event) : sleeps (e1 ++ e2) = sleeps e1 ++ sleeps e2.
Proof. apply omap_app. Qed.

Lemma error_bodies_app (e1 e2 : list Event) :
  error_bodies (e1 ++ e2) = error_bodies e1 ++ error_bodies e2.
Proof. apply omap_app. Qed.

(** C1 (the code does not meet it).  Let the service answer every request
    with one response whose status is an HTTP error of the retryable set,
    and let [retry >= 0] be the retry limit [R].  [create_indicator] then
    raises after a single attempt and no sleep: the error response is
    false, so the handler never reaches its retry branch.  And under the
    reading in which a response object is always true, the loop makes
    [R + 1] attempts but sleeps [R + 1] times, once more than the [R]
    sleeps the specification states, before it raises. *)
Theorem retryable_status_exhaustion
    (cfg : Config) (env : Env) (indicator_data : list Indicator) (retry : Z)
    (r : Response) (w : World) :
  (0 <= retry)%Z ->
  always_answers env r ->
  ok r = false ->
  existsb (Z.eqb (status_code r)) (RETRY_STATUS_CODE cfg) = true ->
  (exists w',
     create_indicator cfg env indicator_data retry w
       = (Raise (ExceptionFrom (HTTPError (Some r))), w') /\
     attempts (events w') = attempts (events w) + 1 /\
     sleeps (events w') = sleeps (events w)) /\
  (exists w',
     create_indicator_under cfg env (fun _ => true) indicator_data retry w
       = (Raise (ExceptionMsg "Failed to create indicator after multiple retries."), w') /\
     attempts (events w') = attempts (events w) + (Z.to_nat retry + 1) /\
     sleeps (events w') = sleeps (events w) ++ repeat (SLEEP cfg) (Z.to_nat retry + 1)).
Proof.
  intros Hretry Hans Hok Hretryable. split.
  - assert (Hfail : first_failure cfg env indicator_data w r (sent w (auth_request cfg)))
      by (split; [done|]; left; split; [apply Hans | done]).
    eexists. split; [|split].
    + apply http_error_is_final; [done| |done]. by apply attempt_first_failure.
    + destruct (first_failure_observed _ _ _ _ _ _ Hfail) as (Ha & _ & _).
      cbn [with_events events]. rewrite attempts_app, Ha. cbn. lia.
    + destruct (first_failure_observed _ _ _ _ _ _ Hfail) as (_ & Hs & _).
      cbn [with_events events]. rewrite sleeps_app, Hs. cbn. by rewrite app_nil_r.
  - unfold create_indicator_under.
    apply (retry_loop_when_truthy cfg env indicator_data retry r Hans Hok Hretryable
             (Z.to_nat retry + 1)); lia.
Qed.

Lemma retryable_status_exhaustion_witness :
  (exists w',
     create_indicator sample_cfg (sample_env 429) [] 3 initial_world
       = (Raise (ExceptionFrom (HTTPError (Some (sample_response 429)))), w') /\
     attempts (events w') = 0 + 1 /\
     sleeps (events w') = []) /\
  (exists w',
     create_indicator_under sample_cfg (sample_env 429) (fun _ => true) [] 3 initial_world
       = (Raise (ExceptionMsg "Failed to create indicator after multiple retries."), w') /\
     attempts (events w') = 0 + 4 /\
     sleeps (events w') = [60; 60; 60; 60]%Z).
Proof.
  apply (retryable_status_exhaustion sample_cfg (sample_env 429) [] 3
           (sample_response 429) initial_world).
  - lia.
  - intros n rq. reflexivity.
  - reflexivity.
  - reflexivity.
Defined.

(** C8 (the code does not meet its last part).  When the first failing
    request of a call is answered by an HTTP error whose status is not in
    the retryable set, [create_indicator] raises on that first attempt,
    without sleeping or retrying, and the exception carries the error.  But
    the body of the error is not surfaced: the handler decodes it only for
    a response that is true, an error response is false, and the message
    logged is the empty dictionary whatever the body holds.  Under the
    reading in which a response object is always true the decoded body is
    logged. *)
Theorem non_retryable_error_fails_at_once
    (cfg : Config) (env : Env) (indicator_data : list Indicator) (retry : Z)
    (w w1 : World) (r : Response) :
  (0 <= retry)%Z ->
  first_failure cfg env indicator_data w r w1 ->
  existsb (Z.eqb (status_code r)) (RETRY_STATUS_CODE cfg) = false ->
  (let w' := with_events w1 [EvLog ERROR (MsgHttpError (HTTPError (Some r)));
                             EvLog ERROR (MsgErrorBody ErrEmpty)] in
   create_indicator cfg env indicator_data retry w
     = (Raise (ExceptionFrom (HTTPError (Some r))), w') /\
   attempts (events w') = S (attempts (events w)) /\
   sleeps (events w') = sleeps (events w) /\
   error_bodies (events w') = error_bodies (events w) ++ [ErrEmpty]) /\
  (let w' := with_events w1 [EvLog ERROR (MsgHttpError (HTTPError (Some r)));
                             EvLog ERROR (MsgErrorBody (parse_error_body r))] in
   create_indicator_under cfg env (fun _ => true) indicator_data retry w
     = (Raise (ExceptionFrom (HTTPError (Some r))), w')).
Proof.
  intros Hretry Hfail Hnot.
  pose proof (attempt_first_failure _ _ _ _ _ _ Hfail) as Hattempt.
  destruct (first_failure_observed _ _ _ _ _ _ Hfail) as (Ha & Hs & Hb).
  split.
  - intros w'. split; [|split; [|split]].
    + apply http_error_is_final; [done|done|apply Hfail].
    + unfold w'. cbn [with_events events]. rewrite attempts_app, Ha. cbn. lia.
    + unfold w'. cbn [with_events events]. rewrite sleeps_app, Hs. cbn.
      by rewrite app_nil_r.
    + unfold w'. cbn [with_events events]. rewrite error_bodies_app, Hb. reflexivity.
  - intros w'. unfold create_indicator_under. cbn [create_indicator_loop].
    destruct (Z.leb_spec 0 retry) as [_|]; [|lia].
    rewrite bind_run. unfold turn, try_except. rewrite bind_run, Hattempt.
    cbv beta iota zeta. rewrite Hnot.
    unfold fail_http, log. rewrite bind_run, emit_run. cbv beta iota zeta.
    rewrite bind_run, emit_run. cbv beta iota zeta.
    rewrite with_events_app. reflexivity.
Qed.

Lemma non_retryable_error_fails_at_once_witness :
  let r := sample_response 400 in
  let w1 := sent initial_world (auth_request sample_cfg) in
  body r = BodyObject {[ "message" := PyStr "details" ]} /\
  create_indicator sample_cfg (sample_env 400) [] 3 initial_world
    = (Raise (ExceptionFrom (HTTPError (Some r))),
       with_events w1 [EvLog ERROR (MsgHttpError (HTTPError (Some r)));
                       EvLog ERROR (MsgErrorBody ErrEmpty)]).
Proof.
  intros r w1. split; [reflexivity|].
  apply (non_retryable_error_fails_at_once sample_cfg (sample_env 400) [] 3
           initial_world w1 r).
  - lia.
  - split; [reflexivity|]. left. split; reflexivity.
  - reflexivity.
Defined.

(** ** Identifiers *)

(** The documented example of [uuid.uuid5]. *)
Example uuid5_python_org :
  Uuid.to_string (Uuid.uuid5 Uuid.NAMESPACE_DNS "python.org")
  = "886313e1-3b8a-5372-9b90-0c9aee199e5d".
Proof. vm_compute. reflexivity. Qed.

Example sha1_abc :
  Sha1.digest (Uuid.bytes_of_string "abc")
  = [169; 153; 62; 54; 71; 6; 129; 106; 186; 62; 37; 113; 120; 80; 194; 108;
     156; 208; 216; 157]%N.
Proof. vm_compute. reflexivity. Qed.

Example generate_unique_id_domain :
  generate_unique_id "domain" (PyStr "evil.example") default_threat_source
  = "indicator--23d52d07-82a7-5da6-9b26-8d420f9ed7a2".
Proof. vm_compute. reflexivity. Qed.

(** C3. [generate_unique_id] is a function of its three arguments alone
    (it has no access to the world: no clock, no randomness), so equal
    arguments give the same string; and that string is [indicator--]
    followed by the version-5 UUID of the name [<category>:<value>] in the
    namespace that is itself the version-5 UUID of the source in the DNS
    namespace. *)
Theorem generate_unique_id_deterministic
    (category category' : string) (value value' : PyVal) (source source' : string) :
  category = category' -> value = value' -> source = source' ->
  generate_unique_id category value source = generate_unique_id category' value' source' /\
  generate_unique_id category value source
  = "indicator--" +:+
    Uuid.to_string (Uuid.uuid5 (Uuid.uuid5 Uuid.NAMESPACE_DNS source)
                               (category +:+ ":" +:+ py_str value)).
Proof. intros -> -> ->. split; reflexivity. Qed.

Lemma generate_unique_id_deterministic_witness :
  generate_unique_id "ip" (PyStr "8.8.8.8") "JoeSandbox"
    = generate_unique_id "ip" (PyStr "8.8.8.8") "JoeSandbox" /\
  generate_unique_id "ip" (PyStr "8.8.8.8") "JoeSandbox"
  = "indicator--" +:+
    Uuid.to_string (Uuid.uuid5 (Uuid.uuid5 Uuid.NAMESPACE_DNS "JoeSandbox")
                               ("ip" +:+ ":" +:+ py_str (PyStr "8.8.8.8"))).
Proof. apply generate_unique_id_deterministic; reflexivity. Defined.
(** ** Building an indicator *)

Section Building.
Variable cfg : Config.
Variable env : Env.
Variable analysis_data : gmap string PyVal.

Lemma now_run (w : World) : now env w = (Ok (utcnow env (now_calls w)), clock_read 1 w).
Proof. reflexivity. Qed.

Lemma get_utc_time_run (w : World) :
  get_utc_time env w = (Ok (utc_time (utcnow env (now_calls w))), clock_read 1 w).
Proof. reflexivity. Qed.

Lemma clock_read_read (j k : nat) (w : World) :
  clock_read j (clock_read k w) = clock_read (j + k) w.
Proof. unfold clock_read. simpl. f_equal. lia. Qed.

(** The three ways [get_static_data] ends: the indicator after four
    readings of the clock, [OverflowError] after one, [TypeError] after
    three. *)
Lemma get_static_data_cases
    (unique_uuid pattern : string) (ioc_value : PyVal) (ioc_type : string) (w : World) :
  let result := get_static_data cfg env unique_uuid analysis_data pattern ioc_value ioc_type w in
  (exists expiry,
     DateTime.add_days (utcnow env (now_calls w)) (VALID_UNTIL cfg) = Some expiry /\
     result = (Ok (static_data_at cfg env (now_calls w) unique_uuid analysis_data pattern
                     ioc_value ioc_type expiry),
               clock_read 4 w))
  \/ (DateTime.add_days (utcnow env (now_calls w)) (VALID_UNTIL cfg) = None /\
      result = (Raise OverflowError, clock_read 1 w))
  \/ ((exists t s, dict_get_default analysis_data "detection" (PyStr EmptyString)
                   = PyOther t false s) /\
      result = (Raise TypeError, clock_read 3 w)).
Proof.
  intros result. unfold result, get_static_data. cbv zeta.
  rewrite bind_run, now_run. cbv beta iota zeta.
  destruct (DateTime.add_days (utcnow env (now_calls w)) (VALID_UNTIL cfg)) as [expiry|] eqn:E.
  - rewrite bind_run, ret_run. cbv beta iota zeta.
    rewrite bind_run, get_utc_time_run. cbv beta iota zeta.
    rewrite bind_run, get_utc_time_run. cbv beta iota zeta.
    rewrite bind_run. unfold confidence_get.
    destruct (dict_get_default analysis_data "detection" (PyStr EmptyString))
      as [|b|z|s|t [|] s] eqn:Ed;
      try (left; exists expiry; split; [reflexivity|];
           rewrite ret_run; cbv beta iota zeta;
           rewrite bind_run, get_utc_time_run; cbv beta iota zeta;
           rewrite ret_run, !clock_read_read; unfold static_data_at; rewrite ?Ed;
           reflexivity).
    right. right. split; [by eexists _, _|]. unfold raise.
    rewrite !clock_read_read. reflexivity.
  - right. left. split; [done|]. rewrite bind_run. reflexivity.
Qed.

(** When an indicator can be built, [get_static_data] builds it. *)
Lemma get_static_data_built
    (unique_uuid pattern : string) (ioc_value : PyVal) (ioc_type : string) (w : World) :
  can_build cfg env analysis_data ->
  exists expiry,
    DateTime.add_days (utcnow env (now_calls w)) (VALID_UNTIL cfg) = Some expiry /\
    get_static_data cfg env unique_uuid analysis_data pattern ioc_value ioc_type w
    = (Ok (static_data_at cfg env (now_calls w) unique_uuid analysis_data pattern
             ioc_value ioc_type expiry),
       clock_read 4 w).
Proof.
  intros [Hdays Hhash].
  destruct (get_static_data_cases unique_uuid pattern ioc_value ioc_type w)
    as [H|[[E _]|[(t & s & E) _]]].
  - exact H.
  - destruct (Hdays (now_calls w)) as [d Hd]. congruence.
  - rewrite E in Hhash. done.
Qed.

End Building.

(** The sample report can be turned into indicators at any time of the
    sample clock. *)
Lemma sample_can_build (status : Z) :
  can_build sample_cfg (sample_env status) sample_analysis.
Proof.
  split; [|exact I]. intros n.
  cbn [sample_env utcnow sample_cfg VALID_UNTIL]. unfold DateTime.add_days.
  change (999999999 <? Z.abs 30)%Z with false. cbv iota.
  match goal with |- is_Some (if ?c then _ else _) => assert (H : c = true) end.
  { apply andb_true_intro. split; [apply Z.ltb_lt | apply Z.leb_le];
      unfold DateTime.toordinal, sample_clock, DateTime.us_per_day, DateTime.MAXORDINAL;
      Z.div_mod_to_equations; lia. }
  rewrite H. eauto.
Qed.

(** ** Extraction: the entry loops *)

Lemma str_to_bool_pure (v : PyVal) (w : World) : snd (str_to_bool v w) = w.
Proof.
  destruct v as [|b|z|s|t h s]; try reflexivity.
  unfold str_to_bool. destruct (Json.loads _); reflexivity.
Qed.

(** [str_to_bool] does not look at the world. *)
Lemma str_to_bool_indep (v : PyVal) (w w0 : World) :
  str_to_bool v w0 = (fst (str_to_bool v w), w0).
Proof.
  destruct v as [|b|z|s|t h s]; try reflexivity.
  unfold str_to_bool. destruct (Json.loads _); reflexivity.
Qed.

Section Extraction.
Variable cfg : Config.
Variable env : Env.
Variable analysis_data : gmap string PyVal.

(** The body of the IP loop on a malicious dictionary entry, by what
    [check_ip] makes of its address. *)
Lemma add_ip_indicator_malicious (d : gmap string PyVal) (j : Json.Value) (w : World) :
  let ip_add := dict_get_default d "$" (PyStr EmptyString) in
  str_to_bool (dict_get d "@malicious") w = (Ok j, w) ->
  Json.truthy j = true ->
  add_ip_indicator cfg env analysis_data (EntryDict d) w
  = match check_ip ip_add with
    | None => (Ok tt, with_events w [EvLog WARNING (MsgUnrecognizedIP ip_add)])
    | Some ip_type =>
        try_except
          (indicator_data ←
             get_static_data cfg env (generate_unique_id "ip" ip_add default_threat_source)
               analysis_data ("[" +:+ ip_type +:+ ":value = '" +:+ py_str ip_add +:+ "']")
               ip_add ip_type;
           indicators_append indicator_data)
          (fun err => log ERROR (MsgProcessingError "IP" err)) w
    end.
Proof.
  intros ip_add Hv Ht. unfold add_ip_indicator.
  rewrite bind_run. cbn [entry_get]. rewrite ret_run. cbv beta iota zeta.
  rewrite bind_run, Hv. cbv beta iota zeta. rewrite Ht. cbn [negb].
  unfold try_except at 1. rewrite bind_run. cbn [entry_get_default].
  rewrite ret_run. cbv beta iota zeta. fold ip_add.
  destruct (check_ip ip_add) as [ip_type|]; reflexivity.
Qed.

(** What the [try] around the construction of one indicator does: the
    indicator is appended, or the exception is logged; the body ends
    normally either way. *)
Lemma build_and_append_cases
    (category unique_uuid pattern : string) (ioc_value : PyVal) (ioc_type : string)
    (w : World) :
  let run :=
    try_except
      (indicator_data ←
         get_static_data cfg env unique_uuid analysis_data pattern ioc_value ioc_type;
       indicators_append indicator_data)
      (fun err => log ERROR (MsgProcessingError category err)) w in
  (exists ind,
     get_static_data cfg env unique_uuid analysis_data pattern ioc_value ioc_type w
       = (Ok ind, clock_read 4 w) /\
     run = (Ok tt, appended (clock_read 4 w) ind))
  \/ (exists err k,
        run = (Ok tt, with_events (clock_read k w)
                        [EvLog ERROR (MsgProcessingError category err)])).
Proof.
  intros run. unfold run, try_except. rewrite bind_run.
  destruct (get_static_data_cases cfg env analysis_data unique_uuid pattern ioc_value
              ioc_type w) as [(e & Hd & E)|[[_ ->]|[_ ->]]].
  - left. eexists. split; [exact E|]. rewrite E. reflexivity.
  - right. by exists OverflowError, 1.
  - right. by exists TypeError, 3.
Qed.

(** Once the verdict of a dictionary entry is read, nothing escapes the
    body of the domain loop. *)
Lemma add_domain_indicator_contained (d : gmap string PyVal) (w : World) :
  exists w', add_domain_indicator cfg env analysis_data (EntryDict d) w = (Ok tt, w').
Proof.
  unfold add_domain_indicator. rewrite bind_run. cbn [entry_get]. rewrite ret_run.
  cbv beta iota zeta. destruct (py_bool (dict_get d "malicious")); cbn [negb];
    [|by eexists].
  unfold try_except. rewrite bind_run. cbn [entry_get]. rewrite ret_run.
  cbv beta iota zeta.
  destruct (build_and_append_cases "domain"
              (generate_unique_id "domain" (dict_get d "name") default_threat_source)
              ("[domain-name:value = '" +:+ py_str (dict_get d "name") +:+ "']")
              (dict_get d "name") "domain" w) as [(ind & _ & H)|(err & k & H)];
    unfold try_except in H; rewrite H; by eexists.
Qed.

(** An entry that is not a dictionary has no [get]: the verdict lookup,
    which precedes the [try], raises out of the loop body. *)
Lemma non_dict_entry_raises (v : PyVal) (w : World) :
  add_domain_indicator cfg env analysis_data (EntryOther v) w = (Raise AttributeError, w) /\
  add_url_indicator cfg env analysis_data (EntryOther v) w = (Raise AttributeError, w) /\
  add_file_indicator cfg env analysis_data (EntryOther v) w = (Raise AttributeError, w) /\
  add_ip_indicator cfg env analysis_data (EntryOther v) w = (Raise AttributeError, w).
Proof. repeat split. Qed.

End Extraction.

(** C4 (the code does not meet it).  An IP entry whose verdict is a string
    that [json.loads] rejects makes [str_to_bool] raise [ValueError]
    before the [try] of the loop body is entered: the exception leaves
    [add_ip_indicators], which returns no indicator at all, and the
    entries after the failing one are never visited. *)
Theorem unparseable_verdict_aborts
    (cfg : Config) (env : Env) (analysis_data : gmap string PyVal)
    (d : gmap string PyVal) (s : string) (rest : list Entry) (w : World) :
  dict_get d "@malicious" = PyStr s ->
  Json.loads (Json.lower (Json.strip s)) = None ->
  add_ip_indicator cfg env analysis_data (EntryDict d) w = (Raise ValueError, w) /\
  add_ip_indicators cfg env (EntryDict d :: rest) analysis_data w
  = (Raise ValueError, snd (indicators_reset w)).
Proof.
  intros Hd Hs.
  assert (Hbody : forall w0,
             add_ip_indicator cfg env analysis_data (EntryDict d) w0 = (Raise ValueError, w0)).
  { intros w0. unfold add_ip_indicator. rewrite bind_run. cbn [entry_get].
    rewrite ret_run. cbv beta iota zeta. rewrite bind_run, Hd.
    unfold str_to_bool. rewrite Hs. reflexivity. }
  split; [apply Hbody|].
  unfold add_ip_indicators. rewrite bind_run. cbn [indicators_reset].
  rewrite bind_run, (py_for_raise _ _ _ _ _ _ (Hbody _)). reflexivity.
Qed.

Lemma unparseable_verdict_aborts_witness :
  add_ip_indicator sample_cfg (sample_env 200) sample_analysis (EntryDict sample_bad_ip)
    initial_world = (Raise ValueError, initial_world) /\
  add_ip_indicators sample_cfg (sample_env 200)
    (EntryDict sample_bad_ip :: [EntryDict sample_good_ip]) sample_analysis initial_world
  = (Raise ValueError, snd (indicators_reset initial_world)).
Proof.
  apply (unparseable_verdict_aborts sample_cfg (sample_env 200) sample_analysis
           sample_bad_ip "maybe" [EntryDict sample_good_ip] initial_world).
  - vm_compute. reflexivity.
  - vm_compute. reflexivity.
Defined.

(** The entry after the failing one would have given an indicator. *)
Example good_ip_alone :
  exists ind w,
    add_ip_indicators sample_cfg (sample_env 200) [EntryDict sample_good_ip]
      sample_analysis initial_world = (Ok [ind], w) /\
    ind_pattern ind = "[ipv4-addr:value = '8.8.8.8']".
Proof. eexists _, _. split; vm_compute; reflexivity. Qed.

(** The three addresses of the specification. *)
Example check_ip_examples :
  check_ip (PyStr "8.8.8.8") = Some "ipv4-addr" /\
  check_ip (PyStr "2001:db8::1") = Some "ipv6-addr" /\
  check_ip (PyStr "not-an-ip") = None.
Proof. repeat split; vm_compute; reflexivity. Qed.

(** [check_ip] follows the class of the parsed address. *)
Lemma check_ip_spec (ip : PyVal) :
  check_ip ip = match IpAddress.ip_address ip with
                | Some (IpAddress.IPv4Address _) => Some "ipv4-addr"
                | Some (IpAddress.IPv6Address _ _) => Some "ipv6-addr"
                | None => None
                end.
Proof. reflexivity. Qed.

(** C6. For a malicious IP entry (a dictionary whose verdict
    [str_to_bool] decodes to a true value) with address [ip_add]: when
    [ip_address] parses it as IPv4 the one indicator emitted has
    [indicator_types = ["ipv4-addr"]] and the pattern
    [[ipv4-addr:value = '<ip_add>']]; when it parses as IPv6 the type and
    the pattern say [ipv6-addr] (both provided the indicator can be built);
    when it parses as neither, the loop body ends normally, no indicator is
    emitted, no exception is raised, the clock is not read, and the only
    trace is one logged warning.  This holds of the loop body from any
    state and of [add_ip_indicators] on the entry alone. *)
Theorem ip_type_dispatch
    (cfg : Config) (env : Env) (analysis_data : gmap string PyVal)
    (d : gmap string PyVal) (j : Json.Value) (w : World) :
  let ip_add := dict_get_default d "$" (PyStr EmptyString) in
  let emits (ip_type : string) :=
    exists ind w',
      add_ip_indicator cfg env analysis_data (EntryDict d) w
        = (Ok tt, appended (clock_read 4 w) ind) /\
      add_ip_indicators cfg env [EntryDict d] analysis_data w = (Ok [ind], w') /\
      events w' = events w /\
      ind_indicator_types ind = [ip_type] /\
      ind_pattern ind = "[" +:+ ip_type +:+ ":value = '" +:+ py_str ip_add +:+ "']" /\
      ind_name ind = ip_add /\
      ind_id ind = generate_unique_id "ip" ip_add "JoeSandbox" in
  str_to_bool (dict_get d "@malicious") w = (Ok j, w) ->
  Json.truthy j = true ->
  (forall ip, IpAddress.ip_address ip_add = Some (IpAddress.IPv4Address ip) ->
     can_build cfg env analysis_data -> emits "ipv4-addr") /\
  (forall ip scope_id,
     IpAddress.ip_address ip_add = Some (IpAddress.IPv6Address ip scope_id) ->
     can_build cfg env analysis_data -> emits "ipv6-addr") /\
  (IpAddress.ip_address ip_add = None ->
     add_ip_indicator cfg env analysis_data (EntryDict d) w
       = (Ok tt, with_events w [EvLog WARNING (MsgUnrecognizedIP ip_add)]) /\
     add_ip_indicators cfg env [EntryDict d] analysis_data w
       = (Ok [], with_events (snd (indicators_reset w))
                   [EvLog WARNING (MsgUnrecognizedIP ip_add)])).
Proof.
  intros ip_add emits Hv Ht.
  assert (Hbody : forall w0,
             add_ip_indicator cfg env analysis_data (EntryDict d) w0
             = match IpAddress.ip_address ip_add with
               | Some a =>
                   let ip_type := match a with
                                  | IpAddress.IPv4Address _ => "ipv4-addr"
                                  | IpAddress.IPv6Address _ _ => "ipv6-addr"
                                  end in
                   try_except
                     (indicator_data ←
                        get_static_data cfg env
                          (generate_unique_id "ip" ip_add default_threat_source)
                          analysis_data
                          ("[" +:+ ip_type +:+ ":value = '" +:+ py_str ip_add +:+ "']")
                          ip_add ip_type;
                      indicators_append indicator_data)
                     (fun err => log ERROR (MsgProcessingError "IP" err)) w0
               | None => (Ok tt, with_events w0 [EvLog WARNING (MsgUnrecognizedIP ip_add)])
               end).
  { intros w0.
    assert (Hv0 : str_to_bool (dict_get d "@malicious") w0 = (Ok j, w0))
      by (rewrite (str_to_bool_indep _ w w0), Hv; reflexivity).
    rewrite (add_ip_indicator_malicious cfg env analysis_data d j w0 Hv0 Ht).
    cbv zeta. fold ip_add. rewrite check_ip_spec.
    destruct (IpAddress.ip_address ip_add) as [[ip|ip sc]|]; reflexivity. }
  assert (Hlist : forall w1,
             add_ip_indicator cfg env analysis_data (EntryDict d) (snd (indicators_reset w))
               = (Ok tt, w1) ->
             add_ip_indicators cfg env [EntryDict d] analysis_data w
               = (Ok (indicators w1), w1)).
  { intros w1 E. unfold add_ip_indicators. rewrite bind_run.
    change (indicators_reset w) with (Ok tt, snd (indicators_reset w)).
    cbv beta iota zeta. rewrite bind_run, py_for_cons, E. reflexivity. }
  assert (Hemit : forall a ip_type,
             IpAddress.ip_address ip_add = Some a ->
             ip_type = match a with
                       | IpAddress.IPv4Address _ => "ipv4-addr"
                       | IpAddress.IPv6Address _ _ => "ipv6-addr"
                       end ->
             can_build cfg env analysis_data -> emits ip_type).
  { intros a ip_type Ea -> Hbuild.
    set (ty := match a with
               | IpAddress.IPv4Address _ => "ipv4-addr"
               | IpAddress.IPv6Address _ _ => "ipv6-addr"
               end).
    assert (Hrun : forall w0,
               exists e,
                 DateTime.add_days (utcnow env (now_calls w0)) (VALID_UNTIL cfg) = Some e /\
                 add_ip_indicator cfg env analysis_data (EntryDict d) w0
                 = (Ok tt, appended (clock_read 4 w0)
                             (static_data_at cfg env (now_calls w0)
                                (generate_unique_id "ip" ip_add default_threat_source)
                                analysis_data
                                ("[" +:+ ty +:+ ":value = '" +:+ py_str ip_add +:+ "']")
                                ip_add ty e))).
    { intros w0. rewrite Hbody, Ea. cbv zeta. fold ty.
      destruct (get_static_data_built cfg env analysis_data
                  (generate_unique_id "ip" ip_add default_threat_source)
                  ("[" +:+ ty +:+ ":value = '" +:+ py_str ip_add +:+ "']")
                  ip_add ty w0 Hbuild) as (e & He & Hb).
      exists e. split; [exact He|]. unfold try_except. rewrite bind_run, Hb. reflexivity. }
    destruct (Hrun w) as (e & He & E).
    destruct (Hrun (snd (indicators_reset w))) as (e0 & He0 & E0).
    cbn [indicators_reset snd now_calls] in He0. rewrite He in He0.
    inversion He0; subst e0.
    eexists _, _. split; [exact E|]. split; [exact (Hlist _ E0)|].
    repeat split. }
  split; [|split].
  - intros ip E. by apply (Hemit (IpAddress.IPv4Address ip)).
  - intros ip sc E. by apply (Hemit (IpAddress.IPv6Address ip sc)).
  - intros E. split.
    + rewrite Hbody, E. reflexivity.
    + rewrite (Hlist (with_events (snd (indicators_reset w))
                        [EvLog WARNING (MsgUnrecognizedIP ip_add)])); [reflexivity|].
      rewrite Hbody, E. reflexivity.
Qed.

Lemma ip_type_dispatch_witness :
  exists ind w',
    add_ip_indicators sample_cfg (sample_env 200) [EntryDict sample_good_ip]
      sample_analysis initial_world = (Ok [ind], w') /\
    ind_indicator_types ind = ["ipv4-addr"] /\
    ind_pattern ind = "[ipv4-addr:value = '8.8.8.8']".
Proof.
  destruct (ip_type_dispatch sample_cfg (sample_env 200) sample_analysis sample_good_ip
              (Json.Bool true) initial_world) as (H4 & _ & _).
  - vm_compute. reflexivity.
  - reflexivity.
  - destruct (H4 134744072%N) as (ind & w' & _ & Hrun & _ & Hty & Hpat & _).
    + vm_compute. reflexivity.
    + apply sample_can_build.
    + exists ind, w'. split; [exact Hrun|]. split; [exact Hty|]. rewrite Hpat.
      vm_compute. reflexivity.
Defined.

(** An address that is none: the entry leaves a warning and nothing else. *)
Example not_an_ip_is_skipped :
  add_ip_indicators sample_cfg (sample_env 200)
    [EntryDict {[ "@malicious" := PyStr "true"; "$" := PyStr "not-an-ip" ]}]
    sample_analysis initial_world
  = (Ok [], with_events initial_world
              [EvLog WARNING (MsgUnrecognizedIP (PyStr "not-an-ip"))]).
Proof. vm_compute. reflexivity. Qed.

(** ** Strings *)

Lemma append_cons (c : ascii) (p x : string) : String c p +:+ x = String c (p +:+ x).
Proof. reflexivity. Qed.

Lemma append_inv_head (p x y : string) : p +:+ x = p +:+ y -> x = y.
Proof.
  induction p as [|c p IH]; [done|].
  rewrite !append_cons. intros H. apply IH. congruence.
Qed.

Lemma append_prefix_free (a b x y : string) :
  prefix_free a b = true -> a +:+ x <> b +:+ y.
Proof.
  unfold prefix_free. revert b. induction a as [|c a IH]; intros [|c' b];
    cbn [String.prefix negb andb]; try done.
  rewrite !append_cons. destruct (ascii_dec c c') as [->|Hne].
  - destruct (ascii_dec c' c') as [_|]; [|done].
    intros Hp H. apply (IH b Hp). congruence.
  - intros _ H. congruence.
Qed.

Lemma string_length_append (a b : string) :
  String.length (a +:+ b) = String.length a + String.length b.
Proof.
  induction a as [|c a IH]; [done|]. rewrite append_cons. simpl. by rewrite IH.
Qed.

(** ** The text of a UUID determines it *)

Section UuidText.
Local Open Scope N_scope.

Lemma hex_digit_value (d : N) :
  d < 16 ->
  IpAddress.is_hex_digit (Uuid.hex_digit d) = true /\
  IpAddress.hex_value (Uuid.hex_digit d) = d.
Proof.
  intros H. rewrite <- (N2Nat.id d) in *.
  assert (Hn : (N.to_nat d < 16)%nat) by lia. revert Hn. generalize (N.to_nat d).
  intros n Hn. do 16 (destruct n as [|n]; [vm_compute; done|]). lia.
Qed.

Lemma unhex_from_append (s1 s2 : string) (acc : N) :
  unhex_from acc (s1 +:+ s2) = unhex_from (unhex_from acc s1) s2.
Proof. revert acc. induction s1 as [|c s1 IH]; intros acc; simpl; [done|]. apply IH. Qed.

Lemma unhex_from_hex (k : nat) (x acc : N) :
  unhex_from acc (Uuid.hex k x) = acc * 16 ^ N.of_nat k + x mod 16 ^ N.of_nat k.
Proof.
  revert acc. induction k as [|k IH]; intros acc.
  - simpl. rewrite N.mod_1_r. lia.
  - cbn [Uuid.hex unhex_from].
    assert (Hd : N.land (N.shiftr x (4 * N.of_nat k)) 15 = (x / 16 ^ N.of_nat k) mod 16).
    { change 15 with (N.ones 4). rewrite N.land_ones, N.shiftr_div_pow2.
      rewrite N.pow_mul_r. reflexivity. }
    rewrite Hd.
    destruct (hex_digit_value ((x / 16 ^ N.of_nat k) mod 16)) as [-> ->].
    { apply N.mod_lt. done. }
    rewrite IH. rewrite Nat2N.inj_succ, N.pow_succ_r'.
    replace (16 * 16 ^ N.of_nat k) with (16 ^ N.of_nat k * 16) by lia.
    rewrite (N.Div0.mod_mul_r x (16 ^ N.of_nat k) 16). lia.
Qed.

Lemma unhex_from_dash (acc : N) : unhex_from acc "-" = acc.
Proof. reflexivity. Qed.

(** Reading the text of a UUID gives back its 128 bits. *)
Lemma unhex_to_string (u : N) : unhex_from 0 (Uuid.to_string u) = u mod 2 ^ 128.
Proof.
  unfold Uuid.to_string.
  rewrite !unhex_from_append, !unhex_from_hex, !unhex_from_dash, !N.shiftr_div_pow2.
  change (16 ^ N.of_nat 8) with (2 ^ 32). change (16 ^ N.of_nat 4) with (2 ^ 16).
  change (16 ^ N.of_nat 12) with (2 ^ 48).
  replace (u / 2 ^ 64) with (u / 2 ^ 48 / 2 ^ 16) by (rewrite N.Div0.div_div; f_equal).
  replace (u / 2 ^ 80) with (u / 2 ^ 48 / 2 ^ 16 / 2 ^ 16)
    by (rewrite !N.Div0.div_div; f_equal).
  replace (u / 2 ^ 96) with (u / 2 ^ 48 / 2 ^ 16 / 2 ^ 16 / 2 ^ 16)
    by (rewrite !N.Div0.div_div; f_equal).
  change (2 ^ 128) with (2 ^ 48 * (2 ^ 16 * (2 ^ 16 * (2 ^ 16 * 2 ^ 32)))).
  rewrite !N.Div0.mod_mul_r.
  generalize (u / 2 ^ 48 / 2 ^ 16 / 2 ^ 16 / 2 ^ 16 mod 2 ^ 32).
  generalize (u / 2 ^ 48 / 2 ^ 16 / 2 ^ 16 mod 2 ^ 16).
  generalize (u / 2 ^ 48 / 2 ^ 16 mod 2 ^ 16).
  generalize (u / 2 ^ 48 mod 2 ^ 16).
  generalize (u mod 2 ^ 48).
  intros a b c d e.
  change (2 ^ 16) with 65536. change (2 ^ 32) with 4294967296.
  change (2 ^ 48) with 281474976710656.
  lia.
Qed.

Lemma to_string_inj (u v : N) :
  u < 2 ^ 128 -> v < 2 ^ 128 -> Uuid.to_string u = Uuid.to_string v -> u = v.
Proof.
  intros Hu Hv H. apply (f_equal (unhex_from 0)) in H.
  rewrite !unhex_to_string in H. by rewrite !N.mod_small in H.
Qed.

(** A number is below [2^n] when it has no bit from [n] on. *)
Lemma lt_pow2_bits (x n : N) :
  (forall m, n <= m -> N.testbit x m = false) -> x < 2 ^ n.
Proof.
  intros H. destruct (N.eq_dec x 0) as [->|Hx].
  - apply N.neq_0_lt_0, N.pow_nonzero. done.
  - apply N.log2_lt_pow2; [lia|].
    destruct (N.lt_ge_cases (N.log2 x) n) as [|Hge]; [done|].
    apply H in Hge. rewrite N.bit_log2 in Hge; done.
Qed.

Lemma bits_lt_pow2 (x n m : N) : x < 2 ^ n -> n <= m -> N.testbit x m = false.
Proof.
  intros Hx Hm. destruct (N.eq_dec x 0) as [->|Hne]; [apply N.bits_0|].
  apply N.bits_above_log2. apply N.log2_lt_pow2 in Hx; lia.
Qed.

Lemma be_word_bound (bs : list N) (acc n : N) :
  Forall (fun b => b < 256) bs -> acc < 2 ^ (8 * n) ->
  fold_left (fun acc b => N.lor (N.shiftl acc 8) b) bs acc
    < 2 ^ (8 * (n + N.of_nat (length bs))).
Proof.
  intros Hbs. revert acc n. induction Hbs as [|b bs Hb _ IH]; intros acc n Hacc.
  - simpl. by rewrite N.add_0_r.
  - cbn [fold_left length]. rewrite Nat2N.inj_succ.
    replace (n + N.succ (N.of_nat (length bs))) with (N.succ n + N.of_nat (length bs)) by lia.
    apply IH. apply lt_pow2_bits. intros m Hm.
    rewrite N.lor_spec, N.shiftl_spec_high' by lia.
    rewrite (bits_lt_pow2 acc (8 * n)) by (done || lia).
    rewrite (bits_lt_pow2 b 8) by (done || lia). done.
Qed.

Lemma be_bytes_bound (k : nat) (x : N) : Forall (fun b => b < 256) (Sha1.be_bytes k x).
Proof.
  induction k as [|k IH]; simpl; constructor; [|done].
  change 255 with (N.ones 8). rewrite N.land_ones. by apply N.mod_lt.
Qed.

Lemma digest_bound (msg : list N) : Forall (fun b => b < 256) (Sha1.digest msg).
Proof.
  unfold Sha1.digest.
  destruct (Sha1.blocks _ _ _) as [[[[h0 h1] h2] h3] h4].
  rewrite !Forall_app. repeat split; apply be_bytes_bound.
Qed.

Lemma set_version_bound (x : N) : x < 2 ^ 128 -> Uuid.set_version 5 x < 2 ^ 128.
Proof.
  intros Hx. apply lt_pow2_bits. intros m Hm. unfold Uuid.set_version.
  repeat rewrite ?N.lor_spec, ?N.ldiff_spec. rewrite (bits_lt_pow2 x 128 m Hx Hm).
  rewrite (bits_lt_pow2 (N.shiftl 32768 48) 128 m) by (done || vm_compute; done).
  rewrite (bits_lt_pow2 (N.shiftl 5 76) 128 m) by (done || vm_compute; done).
  done.
Qed.

(** A version-5 UUID has 128 bits. *)
Lemma uuid5_bound (namespace : Uuid.UUID) (name : string) :
  Uuid.uuid5 namespace name < 2 ^ 128.
Proof.
  unfold Uuid.uuid5. apply set_version_bound. unfold Sha1.be_word.
  pose proof (digest_bound (Sha1.be_bytes 16 namespace ++ Uuid.bytes_of_string name)) as Hd.
  pose proof (be_word_bound
                (take 16 (Sha1.digest (Sha1.be_bytes 16 namespace ++ Uuid.bytes_of_string name)))
                0 0 (Forall_take _ _ _ Hd)) as H.
  eapply N.lt_le_trans; [apply H; vm_compute; done|].
  apply N.pow_le_mono_r; [done|]. rewrite length_take. lia.
Qed.

(** Identifiers differ as soon as the UUIDs behind them do. *)
Lemma generate_unique_id_inj (category : string) (v1 v2 : PyVal) (source : string) :
  let ns := Uuid.uuid5 Uuid.NAMESPACE_DNS source in
  Uuid.uuid5 ns (category +:+ ":" +:+ py_str v1)
    <> Uuid.uuid5 ns (category +:+ ":" +:+ py_str v2) ->
  generate_unique_id category v1 source <> generate_unique_id category v2 source.
Proof.
  intros ns Hne H. apply Hne. unfold generate_unique_id in H.
  apply append_inv_head in H. apply to_string_inj in H; [done| |]; apply uuid5_bound.
Qed.

End UuidText.

(** ** The hashes of a file *)

Section FileHashes.
Variable cfg : Config.
Variable env : Env.
Variable analysis_data : gmap string PyVal.
Variable d : gmap string PyVal.
Hypothesis build : can_build cfg env analysis_data.

Let filename : PyVal := dict_get_default d "name" (PyStr EmptyString).

(** The inner loop appends one indicator per hash type whose key holds a
    true value, in the order of the list, and logs nothing. *)
Lemma file_hashes_built (hs : list (string * string)) (w : World) :
  exists inds w',
    py_for hs (add_file_hash_indicator cfg env analysis_data (EntryDict d) filename) w
      = (Ok tt, w') /\
    indicators w' = indicators w ++ inds /\
    events w' = events w /\
    Forall2 (hash_indicator_of d)
            (List.filter (fun h => py_bool (dict_get d (snd h))) hs) inds.
Proof.
  revert w. induction hs as [|[hash_type key] hs IH]; intros w.
  - exists [], w. simpl. rewrite app_nil_r. repeat split. constructor.
  - rewrite py_for_cons. unfold add_file_hash_indicator at 1.
    rewrite bind_run. cbn [entry_get]. rewrite ret_run. cbv beta iota zeta.
    cbn [List.filter snd].
    destruct (py_bool (dict_get d key)) eqn:Hpresent; cbn [negb].
    + destruct (get_static_data_built cfg env analysis_data
                  (generate_unique_id "file" (dict_get d key) default_threat_source)
                  ("[file:hashes.'" +:+ hash_type +:+ "' = '"
                   +:+ py_str (dict_get d key) +:+ "']")
                  (py_or filename (dict_get d key)) "file" w build)
        as (e & _ & Hb).
      rewrite bind_run, Hb. cbv beta iota zeta.
      change (indicators_append ?x ?w0) with (Ok tt, appended w0 x).
      cbv beta iota zeta.
      destruct (IH (appended (clock_read 4 w)
                      (static_data_at cfg env (now_calls w)
                         (generate_unique_id "file" (dict_get d key) default_threat_source)
                         analysis_data
                         ("[file:hashes.'" +:+ hash_type +:+ "' = '"
                          +:+ py_str (dict_get d key) +:+ "']")
                         (py_or filename (dict_get d key)) "file" e)))
        as (inds & w' & Hrun & Hi & He & Hall).
      eexists (_ :: inds), w'. split; [exact Hrun|]. split; [|split].
      * rewrite Hi. cbn [appended clock_read indicators]. by rewrite <- app_assoc.
      * rewrite He. reflexivity.
      * constructor; [|exact Hall]. repeat split.
    + rewrite ret_run. cbv beta iota zeta. apply IH.
Qed.

(** The body of the file loop on a malicious dictionary entry. *)
Lemma add_file_indicator_built (w : World) :
  py_bool (dict_get d "malicious") = true ->
  exists inds w',
    add_file_indicator cfg env analysis_data (EntryDict d) w = (Ok tt, w') /\
    indicators w' = indicators w ++ inds /\
    events w' = events w /\
    Forall2 (hash_indicator_of d)
            (List.filter (fun h => py_bool (dict_get d (snd h))) (HASH_TYPE_LIST cfg)) inds.
Proof.
  intros Hm. destruct (file_hashes_built (HASH_TYPE_LIST cfg) w)
    as (inds & w' & Hrun & Hi & He & Hall).
  exists inds, w'. split; [|done].
  unfold add_file_indicator. rewrite bind_run. cbn [entry_get]. rewrite ret_run.
  cbv beta iota zeta. rewrite Hm. cbn [negb]. unfold try_except.
  rewrite bind_run. cbn [entry_get_default]. rewrite ret_run. cbv beta iota zeta.
  fold filename. rewrite Hrun. reflexivity.
Qed.

End FileHashes.

(** C5 (amended).  Let [HASH_TYPE_LIST] name three algorithms, and let a
    malicious file entry carry a true value under each of their keys.
    Provided the indicators can be built, [add_file_indicators] returns
    exactly three indicators, one per hash in the order of the list, of
    type [file], the one of algorithm [t] and hash [h] with the pattern
    [[file:hashes.'t' = 'h']] and the identifier
    [generate_unique_id("file", h)].  The patterns are pairwise distinct
    when no algorithm name begins another, and the identifiers are pairwise
    distinct when the version-5 UUIDs of the three names [file:h] are.  The
    display label is the file name for all three when the entry has a name
    that is true; otherwise each indicator is labelled with its own hash
    value, so that the labels are not shared. *)
Theorem file_hash_fan_out
    (cfg : Config) (env : Env) (analysis_data : gmap string PyVal)
    (d : gmap string PyVal) (w : World) (t1 k1 t2 k2 t3 k3 : string) :
  let filename := dict_get_default d "name" (PyStr EmptyString) in
  let h1 := dict_get d k1 in
  let h2 := dict_get d k2 in
  let h3 := dict_get d k3 in
  HASH_TYPE_LIST cfg = [(t1, k1); (t2, k2); (t3, k3)] ->
  py_bool (dict_get d "malicious") = true ->
  py_bool h1 = true -> py_bool h2 = true -> py_bool h3 = true ->
  can_build cfg env analysis_data ->
  exists i1 i2 i3 w',
    add_file_indicators cfg env [EntryDict d] analysis_data w = (Ok [i1; i2; i3], w') /\
    events w' = events w /\
    hash_indicator_of d (t1, k1) i1 /\
    hash_indicator_of d (t2, k2) i2 /\
    hash_indicator_of d (t3, k3) i3 /\
    (prefix_free t1 t2 = true -> prefix_free t1 t3 = true -> prefix_free t2 t3 = true ->
     ind_pattern i1 <> ind_pattern i2 /\ ind_pattern i1 <> ind_pattern i3 /\
     ind_pattern i2 <> ind_pattern i3) /\
    (file_uuid h1 <> file_uuid h2 -> file_uuid h1 <> file_uuid h3 ->
     file_uuid h2 <> file_uuid h3 ->
     ind_id i1 <> ind_id i2 /\ ind_id i1 <> ind_id i3 /\ ind_id i2 <> ind_id i3) /\
    (py_bool filename = true ->
     ind_name i1 = filename /\ ind_name i2 = filename /\ ind_name i3 = filename) /\
    (py_bool filename = false ->
     ind_name i1 = h1 /\ ind_name i2 = h2 /\ ind_name i3 = h3).
Proof.
  intros filename h1 h2 h3 Hlist Hm H1 H2 H3 Hbuild.
  destruct (add_file_indicator_built cfg env analysis_data d Hbuild
              (snd (indicators_reset w)) Hm) as (inds & w' & Hrun & Hi & He & Hall).
  rewrite Hlist in Hall. cbn [List.filter snd] in Hall.
  fold h1 h2 h3 in Hall. rewrite H1, H2, H3 in Hall.
  inversion Hall as [|? i1 ? inds1 P1 Hall1]; subst.
  inversion Hall1 as [|? i2 ? inds2 P2 Hall2]; subst.
  inversion Hall2 as [|? i3 ? inds3 P3 Hall3]; subst.
  inversion Hall3; subst.
  exists i1, i2, i3, w'. split; [|split; [exact He|]].
  { unfold add_file_indicators. rewrite bind_run.
    change (indicators_reset w) with (Ok tt, snd (indicators_reset w)).
    cbv beta iota zeta. rewrite bind_run, py_for_cons, Hrun. cbn [py_for].
    rewrite ret_run. cbv beta iota zeta. unfold indicators_return. rewrite Hi.
    reflexivity. }
  split; [exact P1|]. split; [exact P2|]. split; [exact P3|].
  destruct P1 as (Hp1 & Hid1 & Hn1 & _), P2 as (Hp2 & Hid2 & Hn2 & _),
           P3 as (Hp3 & Hid3 & Hn3 & _).
  cbn [fst snd] in *. fold h1 in Hp1, Hid1, Hn1. fold h2 in Hp2, Hid2, Hn2.
  fold h3 in Hp3, Hid3, Hn3. fold filename in Hn1, Hn2, Hn3.
  split; [|split; [|split]].
  - intros F12 F13 F23. rewrite Hp1, Hp2, Hp3.
    split; [|split]; intros H; apply append_inv_head in H.
    + exact (append_prefix_free _ _ _ _ F12 H).
    + exact (append_prefix_free _ _ _ _ F13 H).
    + exact (append_prefix_free _ _ _ _ F23 H).
  - intros U12 U13 U23. rewrite Hid1, Hid2, Hid3.
    repeat split; apply generate_unique_id_inj; assumption.
  - intros Hf. rewrite Hn1, Hn2, Hn3. unfold py_or. rewrite Hf. done.
  - intros Hf. rewrite Hn1, Hn2, Hn3. unfold py_or. rewrite Hf. done.
Qed.

Lemma file_hash_fan_out_witness :
  exists i1 i2 i3 w',
    add_file_indicators sample_cfg (sample_env 200) [EntryDict sample_file]
      sample_analysis initial_world = (Ok [i1; i2; i3], w') /\
    map ind_pattern [i1; i2; i3]
    = [ "[file:hashes.'MD5' = 'd41d8cd98f00b204e9800998ecf8427e']";
        "[file:hashes.'SHA1' = 'da39a3ee5e6b4b0d3255bfef95601890afd80709']";
        "[file:hashes.'SHA256' = 'e3b0c44298fc1c149afbf4c8996fb92427ae41e4649b934ca495991b7852b855']" ] /\
    (ind_id i1 <> ind_id i2 /\ ind_id i1 <> ind_id i3 /\ ind_id i2 <> ind_id i3) /\
    map ind_name [i1; i2; i3] = repeat (PyStr "dropper.exe") 3.
Proof.
  destruct (file_hash_fan_out sample_cfg (sample_env 200) sample_analysis sample_file
              initial_world "MD5" "md5" "SHA1" "sha1" "SHA256" "sha256")
    as (i1 & i2 & i3 & w' & Hrun & _ & P1 & P2 & P3 & _ & Hids & Hname & _).
  - reflexivity.
  - vm_compute. reflexivity.
  - vm_compute. reflexivity.
  - vm_compute. reflexivity.
  - vm_compute. reflexivity.
  - apply sample_can_build.
  - exists i1, i2, i3, w'. split; [exact Hrun|].
    destruct P1 as (Hp1 & _), P2 as (Hp2 & _), P3 as (Hp3 & _).
    split; [|split].
    + cbn [map]. rewrite Hp1, Hp2, Hp3. vm_compute. reflexivity.
    + apply Hids; vm_compute; discriminate.
    + destruct Hname as (N1 & N2 & N3); [vm_compute; reflexivity|].
      cbn [map]. rewrite N1, N2, N3. vm_compute. reflexivity.
Defined.

(** C5 as stated fails: a malicious file with its three hashes and no name
    gives three indicators that do not share their display label. *)
Lemma shared_label_counterexample :
  exists i1 i2 i3 w',
    add_file_indicators sample_cfg (sample_env 200) [EntryDict sample_hashes]
      sample_analysis initial_world = (Ok [i1; i2; i3], w') /\
    ind_name i1 = PyStr "d41d8cd98f00b204e9800998ecf8427e" /\
    ind_name i2 = PyStr "da39a3ee5e6b4b0d3255bfef95601890afd80709" /\
    ind_name i1 <> ind_name i2.
Proof.
  eexists _, _, _, _. split; [vm_compute; reflexivity|].
  split; [reflexivity|]. split; [reflexivity|]. discriminate.
Qed.

(** ** Timestamps *)

Section Timestamps.
Local Open Scope Z_scope.
Import DateTime.

Lemma all_from_spec (P : Z -> bool) (n : nat) :
  forall lo, all_from P lo n = true ->
  forall z, lo <= z < lo + Z.of_nat n -> P z = true.
Proof.
  induction n as [|n IH]; intros lo H z Hz; [lia|].
  cbn [all_from] in H. destruct (P lo) eqn:Hlo; [|done].
  destruct (Z.eq_dec z lo) as [->|Hne]; [done|].
  apply (IH (lo + 1) H). lia.
Qed.

(** Every day of a year, leap or not, has a plain month and day. *)
Lemma month_day_plain (n : Z) (leapyear : bool) :
  0 <= n < 365 -> plain_month_day (month_day n leapyear) = true.
Proof.
  intros Hn.
  assert (H : all_from (fun z => plain_month_day (month_day z true)
                                 && plain_month_day (month_day z false)) 0 365 = true)
    by (vm_compute; reflexivity).
  pose proof (all_from_spec _ _ _ H n) as Hz. cbv beta in Hz.
  destruct leapyear; [apply (proj1 (andb_prop _ _ (Hz ltac:(lia))))
                     |apply (proj2 (andb_prop _ _ (Hz ltac:(lia))))].
Qed.
(** The year of a day, from the quotients that [_ord2ymd] forms. *)
Lemma year_bounds (a n400 r n100 r1 n4 r2 n1 r3 : Z) :
  364877 <= a <= 3652058 ->
  a = 146097 * n400 + r -> 0 <= r < 146097 ->
  r = 36524 * n100 + r1 -> 0 <= r1 < 36524 ->
  r1 = 1461 * n4 + r2 -> 0 <= r2 < 1461 ->
  r2 = 365 * n1 + r3 -> 0 <= r3 < 365 ->
  (n1 = 4 \/ n100 = 4 -> 1000 <= n400 * 400 + 1 + n100 * 100 + n4 * 4 + n1 - 1 <= 9999) /\
  (n1 <> 4 -> n100 <> 4 -> 1000 <= n400 * 400 + 1 + n100 * 100 + n4 * 4 + n1 <= 9999).
Proof.
  intros. 
  assert (2 <= n400 <= 24) by lia.
  assert (0 <= n100 <= 4) by lia.
  assert (0 <= n4 <= 24) by lia.
  assert (0 <= n1 <= 4) by lia.
  split; intros; lia.
Qed.
(** The date of a day from 1000-01-01 to 9999-12-31. *)
Lemma ord2ymd_plain (n : Z) :
  364878 <= n <= 3652059 ->
  let '(y, m, d) := ord2ymd n in
  1000 <= y <= 9999 /\ 1 <= m <= 12 /\ 1 <= d <= 31.
Proof.
  intros Hn. unfold ord2ymd. cbv zeta.
  set (a := n - 1).
  set (n400 := a / 146097). set (r := a mod 146097).
  set (n100 := r / 36524). set (r1 := r mod 36524).
  set (n4 := r1 / 1461). set (r2 := r1 mod 1461).
  set (n1 := r2 / 365). set (r3 := r2 mod 365).
  assert (Hr3 : 0 <= r3 < 365) by (apply Z.mod_pos_bound; lia).
  destruct (year_bounds a n400 r n100 r1 n4 r2 n1 r3) as [Hy1 Hy0];
    try (apply Z.mod_pos_bound; lia); try (apply Z.div_mod; lia); [unfold a; lia|].
  destruct (Z.eqb_spec n1 4) as [E1|E1]; cbn [orb].
  - repeat split; lia.
  - destruct (Z.eqb_spec n100 4) as [E2|E2].
    + repeat split; lia.
    + pose proof (month_day_plain r3 ((n1 =? 3) && (negb (n4 =? 24) || (n100 =? 3))) Hr3)
        as Hmd.
      destruct (month_day r3 _) as [m d]. unfold plain_month_day in Hmd.
      cbn [fst snd] in Hmd. repeat split; lia.
Qed.
Lemma matches_append (p1 p2 s1 s2 : string) :
  matches p1 s1 = true -> matches p2 s2 = true -> matches (p1 +:+ p2) (s1 +:+ s2) = true.
Proof.
  revert s1. induction p1 as [|c p1 IH]; intros [|x s1]; simpl; try done.
  intros H1 H2. apply andb_prop in H1 as [Hc H1]. rewrite Hc. simpl. by apply IH.
Qed.

Lemma matches_length (p s : string) : matches p s = true -> String.length p = String.length s.
Proof.
  revert s. induction p as [|c p IH]; intros [|x s]; simpl; try done.
  intros H. apply andb_prop in H as [_ H]. f_equal. by apply IH.
Qed.

Lemma two_digits (z : Z) : 0 <= z < 100 -> matches "dd" (zero_pad 2 z) = true.
Proof.
  assert (H : all_from (fun z => matches "dd" (zero_pad 2 z)) 0 100 = true)
    by (vm_compute; reflexivity).
  intros Hz. apply (all_from_spec _ _ _ H z). lia.
Qed.

Lemma three_digits (z : Z) : 0 <= z < 1000 -> matches "ddd" (zero_pad 3 z) = true.
Proof.
  assert (H : all_from (fun z => matches "ddd" (zero_pad 3 z)) 0 1000 = true)
    by (vm_compute; reflexivity).
  intros Hz. apply (all_from_spec _ _ _ H z). lia.
Qed.

Lemma four_digits (z : Z) : 1000 <= z <= 9999 -> matches "dddd" (str_of_Z z) = true.
Proof.
  assert (H : all_from (fun z => matches "dddd" (str_of_Z z)) 1000 (Z.to_nat 9000) = true)
    by (vm_compute; reflexivity).
  intros Hz. apply (all_from_spec _ _ _ H z). lia.
Qed.

(** The date and time of day of a time with a year of four digits. *)
Lemma strftime_shape (t : datetime) :
  four_digit_year t -> matches "dddd-dd-ddTdd:dd:dd" (strftime_utc_date_format t) = true.
Proof.
  unfold four_digit_year, us_per_day. intros Ht.
  pose proof (ord2ymd_plain (toordinal t)) as Hd.
  unfold strftime_utc_date_format, year, month, day.
  destruct (ord2ymd (toordinal t)) as [[y m] d]. cbn [fst snd].
  destruct Hd as (Hy & Hm & Hdd).
  { unfold toordinal, us_per_day. Z.div_mod_to_equations. lia. }
  change "dddd-dd-ddTdd:dd:dd"%string
    with ("dddd" +:+ "-" +:+ "dd" +:+ "-" +:+ "dd" +:+ "T" +:+ "dd" +:+ ":" +:+ "dd"
          +:+ ":" +:+ "dd")%string.
  repeat (apply matches_append; [first [apply four_digits | apply two_digits | reflexivity]|]);
    try apply two_digits; try lia.
  all: unfold hour, minute, second, us_per_day; Z.div_mod_to_equations; lia.
Qed.

Lemma utc_time_shape (t : datetime) :
  four_digit_year t -> is_iso8601_ms_z (utc_time t) = true.
Proof.
  intros Ht. unfold is_iso8601_ms_z, utc_time.
  change "dddd-dd-ddTdd:dd:dd.dddZ"%string
    with ("dddd-dd-ddTdd:dd:dd" +:+ "." +:+ "ddd" +:+ "Z")%string.
  apply matches_append; [by apply strftime_shape|].
  apply (matches_append "." _ "."); [reflexivity|].
  apply matches_append; [|reflexivity].
  apply three_digits. unfold microsecond. Z.div_mod_to_equations. lia.
Qed.

Lemma expiry_shape (t : datetime) :
  four_digit_year t ->
  is_iso8601_s_z (strftime_utc_date_format t +:+ "Z") = true /\
  is_iso8601_ms_z (strftime_utc_date_format t +:+ "Z") = false.
Proof.
  intros Ht. pose proof (strftime_shape t Ht) as Hs. split.
  - unfold is_iso8601_s_z.
    change "dddd-dd-ddTdd:dd:ddZ"%string with ("dddd-dd-ddTdd:dd:dd" +:+ "Z")%string.
    by apply matches_append.
  - unfold is_iso8601_ms_z.
    destruct (matches _ (_ +:+ "Z")) eqn:E; [|done].
    apply matches_length in E. apply matches_length in Hs.
    rewrite string_length_append in E. rewrite <- Hs in E. simpl in E. lia.
Qed.


End Timestamps.

(** ** Every indicator a function returns was built by [get_static_data] *)

Section Emitted.
Variable cfg : Config.
Variable env : Env.
Variable analysis_data : gmap string PyVal.
Variable P : Indicator -> Prop.
Hypothesis built_P :
  forall unique_uuid pattern ioc_value ioc_type w ind w',
    get_static_data cfg env unique_uuid analysis_data pattern ioc_value ioc_type w
      = (Ok ind, w') -> P ind.

(** The invariant of the loops: [P] holds of the list under construction. *)
Let inv (w : World) : Prop := Forall P (indicators w).

Lemma py_for_inv {A} (body : A -> M unit) (xs : list A) :
  (forall x w r w', body x w = (r, w') -> inv w -> inv w') ->
  forall w r w', py_for xs body w = (r, w') -> inv w -> inv w'.
Proof.
  intros Hbody. induction xs as [|x xs IH]; intros w r w' Hrun Hinv.
  - inversion Hrun. by subst.
  - rewrite py_for_cons in Hrun.
    destruct (body x w) as [[[]|e|] w1] eqn:E.
    + eapply IH; [exact Hrun|]. eapply Hbody; eauto.
    + inversion Hrun; subst. eapply Hbody; eauto.
    + inversion Hrun; subst. eapply Hbody; eauto.
Qed.

Lemma build_and_append_inv
    (category unique_uuid pattern : string) (ioc_value : PyVal) (ioc_type : string)
    (w : World) (r : Result unit) (w' : World) :
  try_except
    (indicator_data ←
       get_static_data cfg env unique_uuid analysis_data pattern ioc_value ioc_type;
     indicators_append indicator_data)
    (fun err => log ERROR (MsgProcessingError category err)) w = (r, w') ->
  inv w -> inv w'.
Proof.
  intros Hrun Hinv.
  destruct (build_and_append_cases cfg env analysis_data category unique_uuid pattern
              ioc_value ioc_type w) as [(ind & Hb & E)|(err & k & E)];
    cbv zeta in E; rewrite E in Hrun; inversion Hrun; subst; unfold inv.
  - cbn [appended indicators clock_read]. apply Forall_app. split; [exact Hinv|].
    constructor; [|constructor]. eapply built_P; eauto.
  - exact Hinv.
Qed.

Lemma add_domain_indicator_inv (entry : Entry) (w : World) (r : Result unit) (w' : World) :
  add_domain_indicator cfg env analysis_data entry w = (r, w') -> inv w -> inv w'.
Proof.
  destruct entry as [d|v]; [|by inversion 1; subst].
  unfold add_domain_indicator. rewrite bind_run. cbn [entry_get]. rewrite ret_run.
  cbv beta iota zeta. destruct (py_bool (dict_get d "malicious")); cbn [negb];
    [|by inversion 1; subst].
  unfold try_except at 1. rewrite bind_run. cbn [entry_get]. rewrite ret_run.
  cbv beta iota zeta. apply build_and_append_inv.
Qed.

Lemma add_url_indicator_inv (entry : Entry) (w : World) (r : Result unit) (w' : World) :
  add_url_indicator cfg env analysis_data entry w = (r, w') -> inv w -> inv w'.
Proof.
  destruct entry as [d|v]; [|by inversion 1; subst].
  unfold add_url_indicator. rewrite bind_run. cbn [entry_get]. rewrite ret_run.
  cbv beta iota zeta. destruct (py_bool (dict_get d "malicious")); cbn [negb];
    [|by inversion 1; subst].
  unfold try_except at 1. rewrite bind_run. cbn [entry_get_default]. rewrite ret_run.
  cbv beta iota zeta. apply build_and_append_inv.
Qed.

Lemma add_ip_indicator_inv (entry : Entry) (w : World) (r : Result unit) (w' : World) :
  add_ip_indicator cfg env analysis_data entry w = (r, w') -> inv w -> inv w'.
Proof.
  destruct entry as [d|v]; [|by inversion 1; subst].
  unfold add_ip_indicator. rewrite bind_run. cbn [entry_get]. rewrite ret_run.
  cbv beta iota zeta. rewrite bind_run.
  pose proof (str_to_bool_pure (dict_get d "@malicious") w) as Hpure.
  destruct (str_to_bool (dict_get d "@malicious") w) as [[j|e|] w1]; cbn [snd] in Hpure;
    subst w1; try (by inversion 1; subst).
  cbv beta iota zeta. destruct (Json.truthy j); cbn [negb]; [|by inversion 1; subst].
  unfold try_except at 1. rewrite bind_run. cbn [entry_get_default]. rewrite ret_run.
  cbv beta iota zeta.
  destruct (check_ip (dict_get_default d "$" (PyStr EmptyString))) as [ip_type|].
  - apply build_and_append_inv.
  - inversion 1; subst. done.
Qed.

Lemma add_file_hash_indicator_inv (file : Entry) (filename : PyVal) (hash : string * string)
    (w : World) (r : Result unit) (w' : World) :
  add_file_hash_indicator cfg env analysis_data file filename hash w = (r, w') ->
  inv w -> inv w'.
Proof.
  destruct hash as [hash_type key]. destruct file as [d|v]; [|by inversion 1; subst].
  unfold add_file_hash_indicator. rewrite bind_run. cbn [entry_get]. rewrite ret_run.
  cbv beta iota zeta. destruct (py_bool (dict_get d key)); cbn [negb];
    [|by inversion 1; subst].
  rewrite bind_run. intros Hrun Hinv.
  match type of Hrun with
  | context [get_static_data ?c ?e ?u ?a ?p ?v ?t ?w0] =>
      destruct (get_static_data_cases c e a u p v t w0)
        as [(ex & _ & E)|[[_ E]|[_ E]]]; cbv zeta in E; rewrite E in Hrun
  end; inversion Hrun; subst; unfold inv; [|exact Hinv|exact Hinv].
  cbn [appended indicators clock_read]. apply Forall_app. split; [exact Hinv|].
  constructor; [|constructor]. eapply built_P; eauto.
Qed.

Lemma add_file_indicator_inv (entry : Entry) (w : World) (r : Result unit) (w' : World) :
  add_file_indicator cfg env analysis_data entry w = (r, w') -> inv w -> inv w'.
Proof.
  destruct entry as [d|v]; [|by inversion 1; subst].
  unfold add_file_indicator. rewrite bind_run. cbn [entry_get]. rewrite ret_run.
  cbv beta iota zeta. destruct (py_bool (dict_get d "malicious")); cbn [negb];
    [|by inversion 1; subst].
  unfold try_except. rewrite bind_run. cbn [entry_get_default]. rewrite ret_run.
  cbv beta iota zeta. intros Hrun Hinv.
  destruct (py_for (HASH_TYPE_LIST cfg) _ w) as [[[]|e|] w1] eqn:E;
    pose proof (py_for_inv _ _ (add_file_hash_indicator_inv _ _) _ _ _ E Hinv) as H1;
    inversion Hrun; subst; exact H1.
Qed.

(** The four functions return lists of indicators that came out of
    [get_static_data]. *)
Lemma indicators_are_built (entries : list Entry) (w : World)
    (inds : list Indicator) (w' : World) :
  (add_domain_indicators cfg env entries analysis_data w = (Ok inds, w') \/
   add_url_indicators cfg env entries analysis_data w = (Ok inds, w') \/
   add_file_indicators cfg env entries analysis_data w = (Ok inds, w') \/
   add_ip_indicators cfg env entries analysis_data w = (Ok inds, w')) ->
  Forall P inds.
Proof.
  assert (Hgen : forall body,
             (forall x w r w', body x w = (r, w') -> inv w -> inv w') ->
             (_ ← indicators_reset; _ ← py_for entries body; indicators_return) w
               = (Ok inds, w') -> Forall P inds).
  { intros body Hbody Hrun. rewrite bind_run in Hrun. cbn [indicators_reset] in Hrun.
    rewrite bind_run in Hrun.
    destruct (py_for entries body _) as [[[]|e|] w1] eqn:E; [|done|done].
    apply (py_for_inv _ _ Hbody) in E; [|constructor].
    inversion Hrun; subst. exact E. }
  intros [H|[H|[H|H]]]; eapply Hgen; try exact H.
  - apply add_domain_indicator_inv.
  - apply add_url_indicator_inv.
  - apply add_file_indicator_inv.
  - apply add_ip_indicator_inv.
Qed.

End Emitted.

(** ** The timestamps of an indicator *)

Lemma add_days_four_digit_year (t expiry : DateTime.datetime) (days : Z) :
  four_digit_year t -> (0 <= days)%Z ->
  DateTime.add_days t days = Some expiry -> four_digit_year expiry.
Proof.
  unfold DateTime.add_days, four_digit_year, DateTime.toordinal, DateTime.MAXORDINAL,
    DateTime.us_per_day.
  intros Ht Hdays H.
  destruct (999999999 <? Z.abs days)%Z; [done|].
  destruct (Z.ltb_spec 0 ((t + days * 86400000000) / 86400000000 + 1)); [|done].
  destruct (Z.leb_spec ((t + days * 86400000000) / 86400000000 + 1) 3652059); [|done].
  cbn [andb] in H. inversion H; subst. Z.div_mod_to_equations. lia.
Qed.

(** What [get_static_data] builds is well stamped, as long as the clock
    shows a year of four digits and the validity window is not negative. *)
Lemma get_static_data_well_stamped (cfg : Config) (env : Env)
    (unique_uuid : string) (analysis_data : gmap string PyVal) (pattern : string)
    (ioc_value : PyVal) (ioc_type : string) (w : World) (ind : Indicator) (w' : World) :
  (forall n, four_digit_year (utcnow env n)) ->
  (0 <= VALID_UNTIL cfg)%Z ->
  get_static_data cfg env unique_uuid analysis_data pattern ioc_value ioc_type w
    = (Ok ind, w') ->
  well_stamped ind.
Proof.
  intros Hclock Hdays Hrun.
  destruct (get_static_data_cases cfg env analysis_data unique_uuid pattern ioc_value
              ioc_type w) as [(e & Hd & E)|[[_ E]|[_ E]]];
    cbv zeta in E; rewrite E in Hrun; inversion Hrun; subst.
  pose proof (add_days_four_digit_year _ _ _ (Hclock _) Hdays Hd) as He.
  unfold well_stamped, static_data_at.
  cbn [ind_created ind_modified ind_valid_from ind_valid_until].
  split; [apply utc_time_shape, Hclock|].
  split; [apply utc_time_shape, Hclock|].
  split; [apply utc_time_shape, Hclock|].
  by apply expiry_shape.
Qed.

(** C7 (amended).  While the clock shows a year of four digits and the
    validity window is not negative, every indicator that
    [get_static_data] builds, hence every indicator that one of the four
    [add_*_indicators] functions returns, has [created], [modified] and
    [valid_from] of the form [YYYY-MM-DDThh:mm:ss.mmmZ] (ISO-8601, UTC,
    milliseconds, trailing Z), and [valid_until] of the form
    [YYYY-MM-DDThh:mm:ssZ]: ISO-8601, UTC, trailing Z, but with a precision
    of seconds, not of milliseconds. *)
Theorem timestamp_formats
    (cfg : Config) (env : Env) (analysis_data : gmap string PyVal) :
  (forall n, four_digit_year (utcnow env n)) ->
  (0 <= VALID_UNTIL cfg)%Z ->
  (forall unique_uuid pattern ioc_value ioc_type w ind w',
     get_static_data cfg env unique_uuid analysis_data pattern ioc_value ioc_type w
       = (Ok ind, w') -> well_stamped ind) /\
  (forall entries w inds w',
     add_domain_indicators cfg env entries analysis_data w = (Ok inds, w') \/
     add_url_indicators cfg env entries analysis_data w = (Ok inds, w') \/
     add_file_indicators cfg env entries analysis_data w = (Ok inds, w') \/
     add_ip_indicators cfg env entries analysis_data w = (Ok inds, w') ->
     Forall well_stamped inds).
Proof.
  intros Hclock Hdays.
  assert (Hbuilt : forall unique_uuid pattern ioc_value ioc_type w ind w',
             get_static_data cfg env unique_uuid analysis_data pattern ioc_value
               ioc_type w = (Ok ind, w') -> well_stamped ind).
  { intros. eapply get_static_data_well_stamped; eauto. }
  split; [exact Hbuilt|].
  intros entries w inds w'. by apply indicators_are_built.
Qed.

Lemma sample_clock_four_digit_year (n : nat) : four_digit_year (sample_clock n).
Proof. unfold four_digit_year, sample_clock, DateTime.us_per_day. lia. Qed.

Lemma timestamp_formats_witness :
  exists ind w',
    add_domain_indicators sample_cfg (sample_env 200) [EntryDict sample_domain]
      sample_analysis initial_world = (Ok [ind], w') /\
    well_stamped ind /\
    ind_created ind = "2025-06-26T14:03:12.124Z" /\
    ind_valid_until ind = "2025-07-26T14:03:12Z".
Proof.
  destruct (timestamp_formats sample_cfg (sample_env 200) sample_analysis) as [_ Hall].
  - apply sample_clock_four_digit_year.
  - vm_compute. discriminate.
  - assert (E : exists ind w',
               add_domain_indicators sample_cfg (sample_env 200) [EntryDict sample_domain]
                 sample_analysis initial_world = (Ok [ind], w') /\
               ind_created ind = "2025-06-26T14:03:12.124Z" /\
               ind_valid_until ind = "2025-07-26T14:03:12Z").
    { eexists _, _. split; [vm_compute; reflexivity|]. split; reflexivity. }
    destruct E as (ind & w' & E & Hc & Hv). exists ind, w'.
    split; [exact E|]. split; [|split; assumption].
    apply (Forall_inv (l := [])).
    apply (Hall [EntryDict sample_domain] initial_world [ind] w'). left. exact E.
Defined.

(** C7 as stated fails: the [valid_until] of an emitted indicator has no
    milliseconds. *)
Lemma valid_until_counterexample :
  exists ind w',
    add_domain_indicators sample_cfg (sample_env 200) [EntryDict sample_domain]
      sample_analysis initial_world = (Ok [ind], w') /\
    ind_valid_until ind = "2025-07-26T14:03:12Z" /\
    DateTime.is_iso8601_ms_z (ind_valid_until ind) = false /\
    DateTime.is_iso8601_ms_z (ind_valid_from ind) = true.
Proof.
  eexists _, _. split; [vm_compute; reflexivity|].
  split; [reflexivity|]. split; vm_compute; reflexivity.
Qed.

(* ===================================================================== *)
(** * Further properties                                                 *)
(* ===================================================================== *)

(** ** Traces *)

Lemma posts_app (e1 e2 : list Event) : posts (e1 ++ e2) = posts e1 ++ posts e2.
Proof. apply omap_app. Qed.

Lemma batches_posted_app (e1 e2 : list Event) :
  batches_posted (e1 ++ e2) = batches_posted e1 ++ batches_posted e2.
Proof. apply omap_app. Qed.

Lemma played_nil (w : World) : played w [] = w.
Proof. destruct w. unfold played. simpl. by rewrite app_nil_r. Qed.

Lemma played_played (w : World) (e1 e2 : list Event) :
  played (played w e1) e2 = played w (e1 ++ e2).
Proof.
  unfold played. cbn [now_calls post_calls events indicators].
  rewrite posts_app, length_app, app_assoc. f_equal. lia.
Qed.

Lemma sent_played (w : World) (rq : Request) : sent w rq = played w [EvPost rq].
Proof. reflexivity. Qed.

Lemma sent_sent_played (w : World) (rq1 rq2 : Request) :
  sent (sent w rq1) rq2 = played w [EvPost rq1; EvPost rq2].
Proof. rewrite !sent_played, played_played. reflexivity. Qed.

Lemma logged_played (w : World) (level : Level) (msg : Message) :
  with_events w [EvLog level msg] = played w [EvLog level msg].
Proof. reflexivity. Qed.

Lemma with_events_played (w : World) (evs : list Event) :
  posts evs = [] -> with_events w evs = played w evs.
Proof. intros H. unfold played. rewrite H. reflexivity. Qed.

Lemma log_run (level : Level) (msg : Message) (w : World) :
  log level msg w = (Ok tt, played w [EvLog level msg]).
Proof. reflexivity. Qed.

Lemma sleep_run (seconds : Z) (w : World) :
  sleep seconds w = (Ok tt, played w [EvSleep seconds]).
Proof. reflexivity. Qed.

Section Budget.
Variable cfg : Config.
Variable env : Env.
Variable response_bool : Response -> bool.
Variable indicator_data : list Indicator.

(** An attempt sends the request for a token and at most the submission. *)
Lemma attempt_trace (w : World) :
  exists evs,
    snd (attempt cfg env indicator_data w) = played w evs /\
    (evs = [EvPost (auth_request cfg)] \/
     exists access_token,
       evs = [EvPost (auth_request cfg);
              EvPost (ingest_request cfg access_token indicator_data)]).
Proof.
  unfold attempt. rewrite bind_run. unfold post at 1.
  destruct (respond env (post_calls w) (auth_request cfg)) as [r1|e];
    [|exists [EvPost (auth_request cfg)]; split; [reflexivity | by left]].
  cbv beta iota zeta. rewrite bind_run. unfold raise_for_status at 1.
  destruct (ok r1); [|exists [EvPost (auth_request cfg)]; split; [reflexivity | by left]]. rewrite ret_run. cbv beta iota zeta.
  rewrite bind_run. unfold json_get.
  destruct (body r1) as [d1| |]; try (exists [EvPost (auth_request cfg)]; split; [reflexivity | by left]).
  rewrite ret_run. cbv beta iota zeta.
  exists [EvPost (auth_request cfg);
          EvPost (ingest_request cfg (dict_get d1 "access_token") indicator_data)].
  split; [|right; by exists (dict_get d1 "access_token")].
  rewrite bind_run. unfold post.
  match goal with |- context [respond ?a ?b ?c] => destruct (respond a b c) as [r2|e] end;
    [|exact (sent_sent_played w _ _)].
  cbv beta iota zeta. rewrite bind_run. unfold raise_for_status.
  destruct (ok r2); exact (sent_sent_played w _ _).
Qed.

(** What a turn of the loop adds to the trace: one attempt, and one sleep
    exactly when the loop goes on. *)
Lemma turn_trace (retry c rc : Z) (w : World) :
  exists evs,
    snd (turn cfg env response_bool indicator_data retry c rc w) = played w evs /\
    attempts evs = 1 /\ length (posts evs) <= 2 /\
    match fst (turn cfg env response_bool indicator_data retry c rc w) with
    | Ok (Continue c' rc') =>
        sleeps evs = [SLEEP cfg] /\
        ((c' = (c + 1)%Z /\ rc' = rc) \/ (c' = c /\ rc' = (rc + 1)%Z /\ (rc < retry)%Z))
    | OutOfFuel => False
    | _ => sleeps evs = []
    end.
Proof.
  unfold turn, try_except. rewrite bind_run.
  pose proof (attempt_not_out_of_fuel cfg env indicator_data w) as Hfuel.
  destruct (attempt_trace w) as (e0 & E0 & Htrace).
  assert (Hobs : attempts e0 = 1 /\ length (posts e0) <= 2 /\ sleeps e0 = []).
  { destruct Htrace as [->|[tok ->]]; cbn; repeat split; lia. }
  destruct Hobs as (Ha & Hp & Hs).
  assert (Hmore : forall e1 : list Event,
             posts e1 = [] ->
             attempts (e0 ++ e1) = 1 /\ length (posts (e0 ++ e1)) <= 2 /\
             sleeps (e0 ++ e1) = sleeps e1).
  { intros e1 H1. rewrite attempts_app, posts_app, sleeps_app, Hs, H1, app_nil_r.
    unfold attempts at 2. rewrite H1. cbn. repeat split; lia. }
  destruct (attempt cfg env indicator_data w) as [[r|e|] w1]; cbn [fst snd] in *;
    [| |done]; subst w1.
  - exists e0. rewrite ret_run. cbn [fst snd]. done.
  - destruct e as [| | | |[r|]| | | |];
      try (match goal with
           | |- context [MsgUnexpected ?err] =>
               exists (e0 ++ [EvLog ERROR (MsgUnexpected err)]);
               rewrite bind_run, log_run; cbv beta iota zeta; cbn [fst snd raise];
               rewrite played_played;
               destruct (Hmore [EvLog ERROR (MsgUnexpected err)] eq_refl) as (? & ? & ?);
               by repeat split
           end).
    + destruct (response_bool r).
      * destruct (existsb _ _).
        -- eexists (e0 ++ [EvLog WARNING _; EvSleep (SLEEP cfg)]).
           rewrite bind_run, log_run. cbv beta iota zeta.
           rewrite bind_run, sleep_run. cbv beta iota zeta. rewrite ret_run.
           cbn [fst snd]. rewrite !played_played, <- ?app_assoc.
           destruct (Hmore [EvLog WARNING
                              (MsgHttpRetry (c + 1) (status_code r) (SLEEP cfg));
                            EvSleep (SLEEP cfg)] eq_refl) as (? & ? & ?).
           repeat split; try done. by left.
        -- eexists (e0 ++ [EvLog ERROR _; EvLog ERROR _]).
           unfold fail_http. rewrite bind_run, log_run. cbv beta iota zeta.
           rewrite bind_run, log_run. cbv beta iota zeta. cbn [fst snd raise].
           rewrite !played_played, <- ?app_assoc.
           destruct (Hmore [EvLog ERROR (MsgHttpError (HTTPError (Some r)));
                            EvLog ERROR (MsgErrorBody (parse_error_body r))] eq_refl)
             as (? & ? & ?).
           by repeat split.
      * eexists (e0 ++ [EvLog ERROR _; EvLog ERROR _]).
        unfold fail_http. rewrite bind_run, log_run. cbv beta iota zeta.
        rewrite bind_run, log_run. cbv beta iota zeta. cbn [fst snd raise].
        rewrite !played_played, <- ?app_assoc.
        destruct (Hmore [EvLog ERROR (MsgHttpError (HTTPError (Some r)));
                         EvLog ERROR (MsgErrorBody ErrEmpty)] eq_refl) as (? & ? & ?).
        by repeat split.
    + eexists (e0 ++ [EvLog ERROR _; EvLog ERROR _]).
      unfold fail_http. rewrite bind_run, log_run. cbv beta iota zeta.
      rewrite bind_run, log_run. cbv beta iota zeta. cbn [fst snd raise].
      rewrite !played_played, <- ?app_assoc.
      destruct (Hmore [EvLog ERROR (MsgHttpError (HTTPError None));
                       EvLog ERROR (MsgErrorBody ErrEmpty)] eq_refl) as (? & ? & ?).
      by repeat split.
    + destruct (Z.ltb_spec rc retry).
      * eexists (e0 ++ [EvLog WARNING _; EvSleep (SLEEP cfg)]).
        rewrite bind_run, log_run. cbv beta iota zeta.
        rewrite bind_run, sleep_run. cbv beta iota zeta. rewrite ret_run.
        cbn [fst snd]. rewrite !played_played, <- ?app_assoc.
        destruct (Hmore [EvLog WARNING (MsgConnRetry (rc + 1) (SLEEP cfg));
                         EvSleep (SLEEP cfg)] eq_refl) as (? & ? & ?).
        repeat split; try done. by right.
      * eexists (e0 ++ [EvLog ERROR _]).
        rewrite bind_run, log_run. cbv beta iota zeta. cbn [fst snd raise].
        rewrite !played_played.
        destruct (Hmore [EvLog ERROR (MsgConnFailed RequestException)] eq_refl)
          as (? & ? & ?).
        by repeat split.
Qed.

(** The loop from any state of its counters: every turn is one attempt, and
    every turn but the last increments a counter and sleeps. *)
Lemma create_indicator_loop_budget (retry : Z) (fuel : nat) :
  forall (c rc : Z) (w : World),
  exists evs,
    snd (create_indicator_loop cfg env response_bool fuel indicator_data retry c rc w)
      = played w evs /\
    attempts evs <= Z.to_nat (retry + 1 - c) + Z.to_nat (retry - rc) /\
    length (posts evs) <= 2 * attempts evs /\
    length (sleeps evs) <= attempts evs /\
    sleeps evs = repeat (SLEEP cfg) (length (sleeps evs)).
Proof.
  induction fuel as [|fuel IH]; intros c rc w; cbn [create_indicator_loop].
  - exists []. rewrite played_nil. cbn. repeat split; lia.
  - destruct (Z.leb_spec c retry) as [Hc|Hc];
      [|exists []; cbn [raise snd]; rewrite played_nil; cbn; repeat split; lia].
    rewrite bind_run.
    destruct (turn_trace retry c rc w) as (e1 & E1 & Ha1 & Hp1 & Hcase).
    destruct (turn cfg env response_bool indicator_data retry c rc w)
      as [[[r|c' rc']|e|] w1]; cbn [fst snd] in *; subst w1; [| | |done].
    + exists e1. rewrite ret_run, Hcase. cbn. repeat split; lia.
    + destruct Hcase as [Hs1 Hcount].
      destruct (IH c' rc' (played w e1)) as (e2 & E2 & Ha2 & Hp2 & Hs2 & Hrep).
      exists (e1 ++ e2). rewrite E2, played_played.
      rewrite attempts_app, posts_app, sleeps_app, Hs1, Ha1, !length_app.
      cbn [length app]. split; [done|]. split; [|split; [|split]]; try lia.
      cbn [repeat Nat.add]. f_equal. exact Hrep.
    + exists e1. rewrite Hcase. cbn. repeat split; lia.
Qed.

(** An [HTTPError] that an attempt raises carries an error response, unless
    the request itself raised it. *)
Lemma attempt_http_error (w w1 : World) (r : Response) :
  (forall n rq r, respond env n rq = Raised (HTTPError (Some r)) -> ok r = false) ->
  attempt cfg env indicator_data w = (Raise (HTTPError (Some r)), w1) -> ok r = false.
Proof.
  intros Henv. unfold attempt. rewrite bind_run. unfold post at 1.
  destruct (respond env (post_calls w) (auth_request cfg)) as [r1|e] eqn:E1;
    [|intros H; inversion H; subst; eauto].
  cbv beta iota zeta. rewrite bind_run. unfold raise_for_status at 1.
  destruct (ok r1) eqn:Hok1; [|intros H; inversion H; by subst].
  rewrite ret_run. cbv beta iota zeta.
  rewrite bind_run. unfold json_get. destruct (body r1) as [d1| |]; try done.
  rewrite ret_run. cbv beta iota zeta. rewrite bind_run. unfold post.
  match goal with
  | |- context [respond ?a ?b ?c] => destruct (respond a b c) as [r2|e] eqn:E2
  end; [|intros H; inversion H; subst; eauto].
  cbv beta iota zeta. rewrite bind_run. unfold raise_for_status.
  destruct (ok r2) eqn:Hok2; [done|]. intros H. inversion H. by subst.
Qed.

End Budget.

Section ActualBudget.
Variable cfg : Config.
Variable env : Env.
Variable indicator_data : list Indicator.
Hypothesis post_raises_no_http_success :
  forall n rq r, respond env n rq = Raised (HTTPError (Some r)) -> ok r = false.

(** With the truth value the library gives a response, a turn goes on only
    after a connection error. *)
Lemma turn_continues_on_connection_error (retry c rc c' rc' : Z) (w w1 : World) :
  turn cfg env Response_bool indicator_data retry c rc w = (Ok (Continue c' rc'), w1) ->
  c' = c /\ rc' = (rc + 1)%Z /\ (rc < retry)%Z.
Proof.
  unfold turn, try_except. rewrite bind_run.
  destruct (attempt cfg env indicator_data w) as [[r|e|] w0] eqn:E; try done.
  destruct e as [| | | |[r|]| | | |]; try done.
  - pose proof (attempt_http_error cfg env indicator_data w w0 r
                  post_raises_no_http_success E) as Hok.
    unfold Response_bool. rewrite Hok. done.
  - destruct (Z.ltb_spec rc retry) as [Hrc|]; [|done].
    rewrite bind_run, log_run. cbv beta iota zeta.
    rewrite bind_run, sleep_run. cbv beta iota zeta. rewrite ret_run.
    intros H. inversion H. done.
Qed.

Lemma create_indicator_loop_actual_budget (retry : Z) (fuel : nat) :
  forall (rc : Z) (w : World),
  exists evs,
    snd (create_indicator_loop cfg env Response_bool fuel indicator_data retry 0 rc w)
      = played w evs /\
    attempts evs <= S (Z.to_nat (retry - rc)) /\
    length (sleeps evs) <= Z.to_nat (retry - rc).
Proof.
  induction fuel as [|fuel IH]; intros rc w; cbn [create_indicator_loop].
  - exists []. rewrite played_nil. cbn. repeat split; lia.
  - destruct (Z.leb_spec 0 retry) as [Hc|Hc];
      [|exists []; cbn [raise snd]; rewrite played_nil; cbn; repeat split; lia].
    rewrite bind_run.
    destruct (turn_trace cfg env Response_bool indicator_data retry 0 rc w)
      as (e1 & E1 & Ha1 & Hp1 & Hcase).
    destruct (turn cfg env Response_bool indicator_data retry 0 rc w)
      as [[[r|c' rc']|e|] w1] eqn:Eturn; cbn [fst snd] in *; subst w1; [| | |done].
    + exists e1. rewrite ret_run, Hcase. cbn. repeat split; lia.
    + destruct Hcase as [Hs1 _].
      destruct (turn_continues_on_connection_error retry 0 rc c' rc' w _ Eturn)
        as (-> & -> & Hrc).
      destruct (IH (rc + 1)%Z (played w e1)) as (e2 & E2 & Ha2 & Hs2).
      exists (e1 ++ e2). rewrite E2, played_played.
      rewrite attempts_app, sleeps_app, length_app, Hs1, Ha1.
      cbn [length]. repeat split; lia.
    + exists e1. rewrite Hcase. cbn. repeat split; lia.
Qed.

End ActualBudget.

(** X1. Whatever the service does and however a response object is read,
    [create_indicator] ends (it returns or raises) after at most
    [2 * retry + 1] attempts, of at most two requests each; it sleeps at
    most once per attempt, each time for [SLEEP] seconds; and it touches
    neither the clock nor anything else.  With a negative [retry] it
    sends nothing at all. *)
Theorem create_indicator_request_budget
    (cfg : Config) (env : Env) (response_bool : Response -> bool)
    (indicator_data : list Indicator) (retry : Z) (w : World) :
  exists evs,
    snd (create_indicator_under cfg env response_bool indicator_data retry w)
      = played w evs /\
    fst (create_indicator_under cfg env response_bool indicator_data retry w)
      <> OutOfFuel /\
    attempts evs <= Z.to_nat (2 * retry + 1) /\
    length (posts evs) <= 2 * attempts evs /\
    length (sleeps evs) <= attempts evs /\
    sleeps evs = repeat (SLEEP cfg) (length (sleeps evs)).
Proof.
  unfold create_indicator_under.
  destruct (create_indicator_loop_budget cfg env response_bool indicator_data retry
              (S (Z.to_nat (2 * retry + 2))) 0 0 w) as (evs & E & Ha & Hp & Hs & Hrep).
  exists evs. split; [exact E|]. split.
  - apply create_indicator_loop_terminates. lia.
  - repeat split; try done. lia.
Qed.

(** X2. As the program runs, and as long as a request itself never raises an
    [HTTPError] that carries a successful response, [create_indicator]
    makes at most [retry + 1] attempts and sleeps at most [retry] times:
    only connection errors are retried. *)
Theorem create_indicator_attempts_bound
    (cfg : Config) (env : Env) (indicator_data : list Indicator) (retry : Z) (w : World) :
  (forall n rq r, respond env n rq = Raised (HTTPError (Some r)) -> ok r = false) ->
  (0 <= retry)%Z ->
  exists evs,
    snd (create_indicator cfg env indicator_data retry w) = played w evs /\
    attempts evs <= Z.to_nat retry + 1 /\
    length (sleeps evs) <= Z.to_nat retry.
Proof.
  intros Henv Hretry. unfold create_indicator, create_indicator_under.
  destruct (create_indicator_loop_actual_budget cfg env indicator_data Henv retry
              (S (Z.to_nat (2 * retry + 2))) 0 w) as (evs & E & Ha & Hs).
  exists evs. split; [exact E|]. rewrite Z.sub_0_r in Ha, Hs. lia.
Qed.

Lemma create_indicator_attempts_bound_witness :
  exists evs,
    snd (create_indicator sample_cfg (sample_env 503) [] 3 initial_world)
      = played initial_world evs /\
    attempts evs <= 4 /\ length (sleeps evs) <= 3.
Proof.
  apply (create_indicator_attempts_bound sample_cfg (sample_env 503) [] 3 initial_world).
  - intros n rq r H. discriminate H.
  - lia.
Defined.

(** ** Connection errors *)

Section ConnectionErrors.
Variable cfg : Config.
Variable env : Env.
Variable response_bool : Response -> bool.
Variable indicator_data : list Indicator.

Lemma attempt_connection_error (w : World) :
  connection_fails cfg env (post_calls w) ->
  attempt cfg env indicator_data w = (Raise RequestException, played w [EvPost (auth_request cfg)]).
Proof. intros H. unfold attempt. rewrite bind_run, (post_raised _ _ _ _ H). reflexivity. Qed.

(** A connection error below the limit: a warning, a sleep, and the loop
    goes on with one more connection retry counted. *)
Lemma turn_connection_retry (retry c rc : Z) (w : World) :
  connection_fails cfg env (post_calls w) -> (rc < retry)%Z ->
  turn cfg env response_bool indicator_data retry c rc w
  = (Ok (Continue c (rc + 1)), played w (connection_retries cfg rc 1)).
Proof.
  intros Hfail Hrc. unfold turn, try_except.
  rewrite bind_run, (attempt_connection_error w Hfail).
  destruct (Z.ltb_spec rc retry) as [_|]; [|lia].
  rewrite bind_run, log_run. cbv beta iota zeta.
  rewrite bind_run, sleep_run. cbv beta iota zeta.
  rewrite ret_run, !played_played. reflexivity.
Qed.

(** A connection error at the limit is the end. *)
Lemma turn_connection_failed (retry c rc : Z) (w : World) :
  connection_fails cfg env (post_calls w) -> (retry <= rc)%Z ->
  turn cfg env response_bool indicator_data retry c rc w
  = (Raise (ExceptionFrom RequestException),
     played w [EvPost (auth_request cfg); EvLog ERROR (MsgConnFailed RequestException)]).
Proof.
  intros Hfail Hrc. unfold turn, try_except.
  rewrite bind_run, (attempt_connection_error w Hfail).
  destruct (Z.ltb_spec rc retry) as [|_]; [lia|].
  rewrite bind_run, log_run. cbv beta iota zeta. cbn [raise].
  rewrite played_played. reflexivity.
Qed.

Lemma connection_retries_observed (rc : Z) (k : nat) :
  attempts (connection_retries cfg rc k) = k /\
  sleeps (connection_retries cfg rc k) = repeat (SLEEP cfg) k /\
  batches_posted (connection_retries cfg rc k) = [] /\
  length (posts (connection_retries cfg rc k)) = k.
Proof.
  revert rc. induction k as [|k IH]; intros rc; [done|].
  cbn [connection_retries]. destruct (IH (rc + 1)%Z) as (Ha & Hs & Hb & Hp).
  rewrite attempts_app, sleeps_app, batches_posted_app, posts_app, length_app, Ha, Hs, Hb, Hp.
  done.
Qed.

(** [k] connection errors in a row, below the limit, are [k] turns of the
    loop. *)
Lemma connection_errors_retried (retry c : Z) (k : nat) :
  forall (fuel : nat) (rc : Z) (w : World),
    (c <= retry)%Z -> (rc + Z.of_nat k <= retry)%Z ->
    (forall j, j < k -> connection_fails cfg env (j + post_calls w)) ->
    create_indicator_loop cfg env response_bool (k + fuel) indicator_data retry c rc w
    = create_indicator_loop cfg env response_bool fuel indicator_data retry c
        (rc + Z.of_nat k) (played w (connection_retries cfg rc k)).
Proof.
  induction k as [|k IH]; intros fuel rc w Hc Hrc Hfail.
  - cbn [connection_retries Nat.add]. rewrite played_nil. f_equal. lia.
  - cbn [Nat.add create_indicator_loop].
    destruct (Z.leb_spec c retry) as [_|]; [|lia].
    rewrite bind_run, turn_connection_retry by (try apply (Hfail 0); lia).
    cbv beta iota zeta. rewrite IH; [|done|lia|].
    + rewrite played_played. cbn [connection_retries]. f_equal. lia.
    + intros j Hj. destruct (connection_retries_observed rc 1) as (_ & _ & _ & Hp).
      cbn [played post_calls]. rewrite Hp.
      replace (j + (1 + post_calls w)) with (S j + post_calls w) by lia.
      apply Hfail. lia.
Qed.

(** The trace of a call extends that of its first attempt. *)
Lemma turn_extends_attempt (retry c rc : Z) (w : World) :
  exists evs,
    snd (turn cfg env response_bool indicator_data retry c rc w)
    = played (snd (attempt cfg env indicator_data w)) evs.
Proof.
  unfold turn, try_except. rewrite bind_run.
  destruct (attempt cfg env indicator_data w) as [[r|e|] w1]; cbn [snd].
  - exists []. by rewrite played_nil.
  - destruct e as [| | | |[r|]| | | |];
      try (eexists; rewrite bind_run, log_run; reflexivity).
    + destruct (response_bool r).
      * destruct (existsb _ _).
        -- eexists. rewrite bind_run, log_run. cbv beta iota zeta.
           rewrite bind_run, sleep_run. cbv beta iota zeta.
           rewrite ret_run, played_played. reflexivity.
        -- eexists. unfold fail_http. rewrite bind_run, log_run. cbv beta iota zeta.
           rewrite bind_run, log_run. cbv beta iota zeta. cbn [raise snd].
           rewrite played_played. reflexivity.
      * eexists. unfold fail_http. rewrite bind_run, log_run. cbv beta iota zeta.
        rewrite bind_run, log_run. cbv beta iota zeta. cbn [raise snd].
        rewrite played_played. reflexivity.
    + eexists. unfold fail_http. rewrite bind_run, log_run. cbv beta iota zeta.
      rewrite bind_run, log_run. cbv beta iota zeta. cbn [raise snd].
      rewrite played_played. reflexivity.
    + destruct (rc <? retry)%Z.
      * eexists. rewrite bind_run, log_run. cbv beta iota zeta.
        rewrite bind_run, sleep_run. cbv beta iota zeta.
        rewrite ret_run, played_played. reflexivity.
      * eexists. rewrite bind_run, log_run. reflexivity.
  - exists []. by rewrite played_nil.
Qed.

Lemma create_indicator_extends_attempt (retry : Z) (w : World) :
  (0 <= retry)%Z ->
  exists evs,
    snd (create_indicator_under cfg env response_bool indicator_data retry w)
    = played (snd (attempt cfg env indicator_data w)) evs.
Proof.
  intros Hretry. unfold create_indicator_under. cbn [create_indicator_loop].
  destruct (Z.leb_spec 0 retry) as [_|]; [|lia].
  rewrite bind_run.
  destruct (turn_extends_attempt retry 0 0 w) as (e1 & E1).
  destruct (turn cfg env response_bool indicator_data retry 0 0 w)
    as [[[r|c' rc']|e|] w1]; cbn [snd] in E1; subst w1; try by exists e1.
  destruct (create_indicator_loop_budget cfg env response_bool indicator_data retry
              (Z.to_nat (2 * retry + 2)) c' rc'
              (played (snd (attempt cfg env indicator_data w)) e1)) as (e2 & E2 & _).
  exists (e1 ++ e2). rewrite E2, played_played. reflexivity.
Qed.

End ConnectionErrors.

(** X3. When the request for a token raises a connection error at every
    attempt, [create_indicator] with the limit [retry >= 0] makes
    [retry + 1] attempts, sleeps [SLEEP] seconds after each but the last
    (so [retry] times), never sends a submission, logs the failure and
    raises an exception that wraps the connection error. *)
Theorem connection_errors_exhaust_retries
    (cfg : Config) (env : Env) (indicator_data : list Indicator) (retry : Z) (w : World) :
  let evs := connection_retries cfg 0 (Z.to_nat retry)
             ++ [EvPost (auth_request cfg); EvLog ERROR (MsgConnFailed RequestException)] in
  (0 <= retry)%Z ->
  (forall j, j <= Z.to_nat retry -> connection_fails cfg env (j + post_calls w)) ->
  create_indicator cfg env indicator_data retry w
    = (Raise (ExceptionFrom RequestException), played w evs) /\
  attempts evs = Z.to_nat retry + 1 /\
  sleeps evs = repeat (SLEEP cfg) (Z.to_nat retry) /\
  batches_posted evs = [].
Proof.
  intros evs Hretry Hfail. split.
  - unfold create_indicator, create_indicator_under.
    replace (S (Z.to_nat (2 * retry + 2)))
      with (Z.to_nat retry + S (Z.to_nat retry + 2)) by lia.
    rewrite (connection_errors_retried cfg env Response_bool indicator_data retry 0
               (Z.to_nat retry)); [|lia|lia|intros j Hj; apply Hfail; lia].
    cbn [create_indicator_loop]. destruct (Z.leb_spec 0 retry) as [_|]; [|lia].
    rewrite bind_run, turn_connection_failed; [|..|lia].
    + cbv beta iota zeta. rewrite played_played. reflexivity.
    + destruct (connection_retries_observed cfg 0 (Z.to_nat retry)) as (_ & _ & _ & Hp).
      cbn [played post_calls]. rewrite Hp. apply Hfail. lia.
  - destruct (connection_retries_observed cfg 0 (Z.to_nat retry)) as (Ha & Hs & Hb & _).
    unfold evs. rewrite attempts_app, sleeps_app, batches_posted_app, Ha, Hs, Hb.
    cbn. by rewrite app_nil_r.
Qed.

Lemma connection_errors_exhaust_retries_witness :
  let env := {| utcnow := sample_clock; respond := fun _ _ => Raised RequestException |} in
  exists w',
    create_indicator sample_cfg env [] 3 initial_world
      = (Raise (ExceptionFrom RequestException), w') /\
    attempts (events w') = 4 /\ sleeps (events w') = [60; 60; 60]%Z.
Proof.
  intros env.
  destruct (connection_errors_exhaust_retries sample_cfg env [] 3 initial_world)
    as (Hrun & Ha & Hs & _).
  - lia.
  - intros j _. reflexivity.
  - eexists. split; [exact Hrun|]. cbn [played events initial_world app].
    split; [exact Ha | exact Hs].
Defined.

(** X4. When the request for a token raises a connection error [k] times in
    a row, [k] being at most the limit [retry], and the service then
    accepts, [create_indicator] returns the response of the submission
    after [k + 1] attempts and [k] sleeps of [SLEEP] seconds, and the
    indicators were submitted once. *)
Theorem recovers_after_connection_errors
    (cfg : Config) (env : Env) (indicator_data : list Indicator) (retry : Z)
    (k : nat) (access_token : PyVal) (r : Response) (w : World) :
  let evs := connection_retries cfg 0 k
             ++ [EvPost (auth_request cfg);
                 EvPost (ingest_request cfg access_token indicator_data)] in
  (Z.of_nat k <= retry)%Z ->
  (forall j, j < k -> connection_fails cfg env (j + post_calls w)) ->
  accepted_at cfg env indicator_data (k + post_calls w) access_token r ->
  create_indicator cfg env indicator_data retry w = (Ok r, played w evs) /\
  attempts evs = k + 1 /\
  sleeps evs = repeat (SLEEP cfg) k /\
  batches_posted evs = [indicator_data].
Proof.
  intros evs Hk Hfail (r1 & d1 & E1 & Hok1 & Hb1 & -> & E2 & Hok2). split.
  - unfold create_indicator, create_indicator_under.
    replace (S (Z.to_nat (2 * retry + 2)))
      with (k + S (Z.to_nat (2 * retry + 2) - k)) by lia.
    rewrite (connection_errors_retried cfg env Response_bool indicator_data retry 0 k);
      [|lia|lia|done].
    cbn [create_indicator_loop]. destruct (Z.leb_spec 0 retry) as [_|]; [|lia].
    destruct (connection_retries_observed cfg 0 k) as (_ & _ & _ & Hp).
    rewrite bind_run. unfold turn, try_except. rewrite bind_run.
    rewrite (attempt_accepted cfg env indicator_data _ r1 r d1);
      try done; cbn [played post_calls]; rewrite ?Hp; try done.
    cbv beta iota zeta. rewrite ?ret_run. cbv beta iota zeta. rewrite ?ret_run.
    rewrite sent_sent_played, played_played. reflexivity.
  - destruct (connection_retries_observed cfg 0 k) as (Ha & Hs & Hb & _).
    unfold evs. rewrite attempts_app, sleeps_app, batches_posted_app, Ha, Hs, Hb.
    cbn. by rewrite app_nil_r.
Qed.

Lemma recovers_after_connection_errors_witness :
  let env := {| utcnow := sample_clock;
                respond := fun n _ => if (n <? 2)%nat then Raised RequestException
                                      else Responded (sample_response 200) |} in
  exists w',
    create_indicator sample_cfg env sample_indicators 3 initial_world
      = (Ok (sample_response 200), w') /\
    attempts (events w') = 3 /\ sleeps (events w') = [60; 60]%Z /\
    batches_posted (events w') = [sample_indicators].
Proof.
  intros env.
  destruct (recovers_after_connection_errors sample_cfg env sample_indicators 3 2
              PyNone (sample_response 200) initial_world) as (Hrun & Ha & Hs & Hb).
  - lia.
  - intros j Hj. destruct j as [|[|j]]; [reflexivity|reflexivity|lia].
  - eexists _, _. repeat split; reflexivity.
  - eexists. split; [exact Hrun|]. cbn [played events initial_world app].
    split; [exact Ha|]. split; [exact Hs | exact Hb].
Defined.

(** ** The answer to the request for a token *)

Section TokenResponse.
Variable cfg : Config.
Variable env : Env.
Variable indicator_data : list Indicator.

Lemma attempt_token_not_an_object (w : World) (r : Response) :
  respond env (post_calls w) (auth_request cfg) = Responded r ->
  ok r = true -> body r = BodyOtherJson ->
  attempt cfg env indicator_data w
  = (Raise AttributeError, played w [EvPost (auth_request cfg)]).
Proof.
  intros E Hok Hb. unfold attempt.
  rewrite bind_run, (post_responded _ _ _ _ E). cbv beta iota zeta.
  rewrite bind_run, (raise_for_status_ok _ _ Hok). cbv beta iota zeta.
  rewrite bind_run. unfold json_get. rewrite Hb. reflexivity.
Qed.

Lemma attempt_token_not_json (w : World) (r : Response) :
  respond env (post_calls w) (auth_request cfg) = Responded r ->
  ok r = true -> body r = BodyNotJson ->
  attempt cfg env indicator_data w
  = (Raise RequestException, played w [EvPost (auth_request cfg)]).
Proof.
  intros E Hok Hb. unfold attempt.
  rewrite bind_run, (post_responded _ _ _ _ E). cbv beta iota zeta.
  rewrite bind_run, (raise_for_status_ok _ _ Hok). cbv beta iota zeta.
  rewrite bind_run. unfold json_get. rewrite Hb. reflexivity.
Qed.

Lemma attempt_token_forwarded (w : World) (r : Response) (d : gmap string PyVal) :
  respond env (post_calls w) (auth_request cfg) = Responded r ->
  ok r = true -> body r = BodyObject d ->
  snd (attempt cfg env indicator_data w)
  = played w [EvPost (auth_request cfg);
              EvPost (ingest_request cfg (dict_get d "access_token") indicator_data)].
Proof.
  intros E Hok Hb. unfold attempt.
  rewrite bind_run, (post_responded _ _ _ _ E). cbv beta iota zeta.
  rewrite bind_run, (raise_for_status_ok _ _ Hok). cbv beta iota zeta.
  rewrite bind_run. unfold json_get. rewrite Hb, ret_run. cbv beta iota zeta.
  rewrite bind_run. unfold post.
  match goal with |- context [respond ?a ?b ?c] => destruct (respond a b c) as [r2|e] end;
    [|exact (sent_sent_played w _ _)].
  cbv beta iota zeta. rewrite bind_run. unfold raise_for_status.
  destruct (ok r2); exact (sent_sent_played w _ _).
Qed.

(** A call that the service accepts at once. *)
Lemma create_indicator_accepted_at (retry : Z) (w : World) (access_token : PyVal)
    (r : Response) :
  (0 <= retry)%Z ->
  accepted_at cfg env indicator_data (post_calls w) access_token r ->
  create_indicator cfg env indicator_data retry w
  = (Ok r, played w [EvPost (auth_request cfg);
                     EvPost (ingest_request cfg access_token indicator_data)]).
Proof.
  intros Hretry (r1 & d1 & E1 & Hok1 & Hb1 & -> & E2 & Hok2).
  unfold create_indicator, create_indicator_under. cbn [create_indicator_loop].
  destruct (Z.leb_spec 0 retry) as [_|]; [|lia].
  rewrite bind_run. unfold turn, try_except.
  rewrite bind_run, (attempt_accepted _ _ _ _ _ _ _ E1 Hok1 Hb1 E2 Hok2).
  cbv beta iota zeta. rewrite ?ret_run. cbv beta iota zeta. rewrite ?ret_run.
  rewrite sent_sent_played. reflexivity.
Qed.

End TokenResponse.

(** X5. When the request for a token is answered by a success whose body is
    JSON but not an object, [create_indicator] fails at once: the lookup of
    the token raises [AttributeError], which is logged as an unexpected
    error and raised wrapped; nothing is submitted, and there is neither a
    retry nor a sleep. *)
Theorem token_response_not_an_object
    (cfg : Config) (env : Env) (indicator_data : list Indicator) (retry : Z)
    (r : Response) (w : World) :
  let evs := [EvPost (auth_request cfg); EvLog ERROR (MsgUnexpected AttributeError)] in
  (0 <= retry)%Z ->
  respond env (post_calls w) (auth_request cfg) = Responded r ->
  ok r = true -> body r = BodyOtherJson ->
  create_indicator cfg env indicator_data retry w
    = (Raise (ExceptionFrom AttributeError), played w evs) /\
  attempts evs = 1 /\ sleeps evs = [] /\ batches_posted evs = [].
Proof.
  intros evs Hretry E Hok Hb. split; [|done].
  unfold create_indicator, create_indicator_under. cbn [create_indicator_loop].
  destruct (Z.leb_spec 0 retry) as [_|]; [|lia].
  rewrite bind_run. unfold turn, try_except.
  rewrite bind_run, (attempt_token_not_an_object cfg env indicator_data w r E Hok Hb).
  rewrite bind_run, log_run. cbv beta iota zeta. cbn [raise].
  rewrite played_played. reflexivity.
Qed.

Lemma token_response_not_an_object_witness :
  let env := {| utcnow := sample_clock;
                respond := fun _ _ =>
                  Responded {| status_code := 200; body := BodyOtherJson |} |} in
  exists w',
    create_indicator sample_cfg env sample_indicators 3 initial_world
      = (Raise (ExceptionFrom AttributeError), w') /\
    posts (events w') = [auth_request sample_cfg].
Proof.
  intros env.
  destruct (token_response_not_an_object sample_cfg env sample_indicators 3
              {| status_code := 200; body := BodyOtherJson |} initial_world)
    as (Hrun & _); [lia|reflexivity|reflexivity|reflexivity|].
  eexists. split; [exact Hrun | reflexivity].
Defined.

(** X6. When the request for a token is answered by a success whose body is
    not JSON, the decoding error is an exception of the HTTP library, and
    [create_indicator] takes it for a connection error: with a limit of
    zero it logs that the connection failed and raises; with a positive
    limit it logs a connection retry, sleeps and tries again. *)
Theorem token_response_not_json
    (cfg : Config) (env : Env) (indicator_data : list Indicator) (retry : Z)
    (r : Response) (w : World) :
  (0 <= retry)%Z ->
  respond env (post_calls w) (auth_request cfg) = Responded r ->
  ok r = true -> body r = BodyNotJson ->
  if (retry =? 0)%Z then
    create_indicator cfg env indicator_data retry w
    = (Raise (ExceptionFrom RequestException),
       played w [EvPost (auth_request cfg); EvLog ERROR (MsgConnFailed RequestException)])
  else
    exists evs,
      snd (create_indicator cfg env indicator_data retry w)
      = played w ([EvPost (auth_request cfg);
                   EvLog WARNING (MsgConnRetry 1 (SLEEP cfg));
                   EvSleep (SLEEP cfg)] ++ evs).
Proof.
  intros Hretry E Hok Hb.
  pose proof (attempt_token_not_json cfg env indicator_data w r E Hok Hb) as Hattempt.
  unfold create_indicator, create_indicator_under. cbn [create_indicator_loop].
  destruct (Z.leb_spec 0 retry) as [_|]; [|lia].
  rewrite bind_run. unfold turn, try_except. rewrite bind_run, Hattempt.
  destruct (Z.eqb_spec retry 0) as [->|Hne].
  - cbn [Z.ltb Z.compare]. rewrite bind_run, log_run. cbv beta iota zeta. cbn [raise].
    rewrite played_played. reflexivity.
  - destruct (Z.ltb_spec 0 retry) as [_|]; [|lia].
    rewrite bind_run, log_run. cbv beta iota zeta.
    rewrite bind_run, sleep_run. cbv beta iota zeta. rewrite ret_run.
    cbv beta iota zeta. rewrite !played_played.
    match goal with
    | |- context [create_indicator_loop ?c ?e ?b ?f ?d ?rt ?x ?y ?w0] =>
        destruct (create_indicator_loop_budget c e b d rt f x y w0) as (evs & Eloop & _)
    end.
    exists evs. rewrite Eloop, played_played, <- ?app_assoc. reflexivity.
Qed.

Lemma token_response_not_json_witness :
  let env := {| utcnow := sample_clock;
                respond := fun _ _ =>
                  Responded {| status_code := 200; body := BodyNotJson |} |} in
  create_indicator sample_cfg env sample_indicators 0 initial_world
  = (Raise (ExceptionFrom RequestException),
     played initial_world [EvPost (auth_request sample_cfg);
                           EvLog ERROR (MsgConnFailed RequestException)]).
Proof.
  intros env.
  apply (token_response_not_json sample_cfg env sample_indicators 0
           {| status_code := 200; body := BodyNotJson |} initial_world);
    [lia|reflexivity|reflexivity|reflexivity].
Defined.

(** X7. When the request for a token is answered by a success whose body is
    a JSON object, the second request of [create_indicator] is the
    submission of the indicators, and its [Authorization] header is
    [Bearer] followed by the text of the entry [access_token] of that
    object; an object without that entry is not an error: the submission
    is sent with [Bearer None]. *)
Theorem access_token_is_forwarded
    (cfg : Config) (env : Env) (indicator_data : list Indicator) (retry : Z)
    (r : Response) (d : gmap string PyVal) (w : World) :
  (0 <= retry)%Z ->
  respond env (post_calls w) (auth_request cfg) = Responded r ->
  ok r = true -> body r = BodyObject d ->
  exists rq evs,
    snd (create_indicator cfg env indicator_data retry w)
      = played w (EvPost (auth_request cfg) :: EvPost rq :: evs) /\
    rq_payload rq = JsonEnvelope "JoeSandboxThreatIntelligence" indicator_data /\
    rq_url rq = URL cfg /\
    rq_headers rq
      = [ ("Authorization", "Bearer " +:+ py_str (dict_get d "access_token"));
          ("User-Agent", USER_AGENT cfg);
          ("Content-Type", "application/json") ] /\
    (d !! "access_token" = None ->
     rq_headers rq !! 0 = Some ("Authorization", "Bearer None")).
Proof.
  intros Hretry E Hok Hb.
  destruct (create_indicator_extends_attempt cfg env Response_bool indicator_data retry w
              Hretry) as (evs & Hrun).
  rewrite (attempt_token_forwarded cfg env indicator_data w r d E Hok Hb) in Hrun.
  rewrite played_played in Hrun.
  exists (ingest_request cfg (dict_get d "access_token") indicator_data), evs.
  split; [exact Hrun|]. repeat split.
  intros Hnone. unfold dict_get. rewrite Hnone. reflexivity.
Qed.

Lemma access_token_is_forwarded_witness :
  exists rq evs,
    snd (create_indicator sample_cfg (sample_env 200) sample_indicators 3 initial_world)
      = played initial_world (EvPost (auth_request sample_cfg) :: EvPost rq :: evs) /\
    rq_headers rq !! 0 = Some ("Authorization", "Bearer None").
Proof.
  destruct (access_token_is_forwarded sample_cfg (sample_env 200) sample_indicators 3
              (sample_response 200) {[ "message" := PyStr "details" ]} initial_world)
    as (rq & evs & Hrun & _ & _ & _ & Hnone);
    [lia|reflexivity|reflexivity|reflexivity|].
  exists rq, evs. split; [exact Hrun|]. apply Hnone. reflexivity.
Defined.

(** ** Submission that fails on the way *)

Lemma map_take {A B} (f : A -> B) (n : nat) (l : list A) :
  map f (take n l) = take n (map f l).
Proof. revert l. induction n as [|n IH]; intros [|x l]; simpl; f_equal; auto. Qed.

Lemma py_for_ok {A} (x : A) (xs : list A) (body : A -> M unit) (w w' : World) :
  body x w = (Ok tt, w') -> py_for (x :: xs) body w = py_for xs body w'.
Proof. intros H. rewrite py_for_cons, H. reflexivity. Qed.

Section PartialSubmission.
Variable cfg : Config.
Variable env : Env.
Variable l : list Indicator.
Variable step : Z.

(** The loop of [submit_indicator] when the service accepts [k] calls and
    answers the request for a token of the next one with an error. *)
Lemma submit_loop_stops (k : nat) :
  forall (starts : list Z) (w : World) (r : Response),
    k < length starts ->
    accepts_between env (post_calls w) (2 * k + post_calls w) ->
    respond env (2 * k + post_calls w) (auth_request cfg) = Responded r ->
    ok r = false ->
    exists evs,
      py_for starts
        (fun i => _ ← create_indicator cfg env (slice l i (i + step)) 3; mret tt) w
        = (Raise (ExceptionFrom (HTTPError (Some r))), played w evs) /\
      batches_posted evs = map (fun i => slice l i (i + step)) (take k starts) /\
      attempts evs = k + 1 /\
      sleeps evs = [].
Proof.
  induction k as [|k IH]; intros starts w r Hlen Hacc E Hok;
    destruct starts as [|i starts]; cbn [length] in Hlen; try lia.
  - cbn [Nat.mul Nat.add] in E.
    exists [EvPost (auth_request cfg);
            EvLog ERROR (MsgHttpError (HTTPError (Some r)));
            EvLog ERROR (MsgErrorBody ErrEmpty)].
    split; [|done].
    apply py_for_raise. rewrite bind_run.
    rewrite (http_error_is_final cfg env (slice l i (i + step)) 3 w
               (sent w (auth_request cfg)) r); [|lia| |done].
    + rewrite with_events_played, sent_played, played_played by done. reflexivity.
    + apply attempt_first_failure. split; [done|]. left. done.
  - destruct (Hacc (post_calls w) (auth_request cfg)) as (r1 & d1 & E1 & Hok1 & Hb1); [lia|].
    destruct (Hacc (S (post_calls w))
                (ingest_request cfg (dict_get d1 "access_token") (slice l i (i + step))))
      as (r2 & d2 & E2 & Hok2 & _); [lia|].
    set (e1 := [EvPost (auth_request cfg);
                EvPost (ingest_request cfg (dict_get d1 "access_token")
                          (slice l i (i + step)))]).
    destruct (IH starts (played w e1) r) as (evs & Hrun & Hb & Ha & Hs).
    + lia.
    + intros n rq Hn. apply Hacc. cbn [played post_calls e1] in Hn. cbn in Hn. lia.
    + cbn [played post_calls]. cbn. replace (k + (k + 0) + S (S (post_calls w)))
        with (S k + (S k + 0) + post_calls w) by lia. exact E.
    + done.
    + exists (e1 ++ evs). split; [|split; [|split]].
      * rewrite (py_for_ok _ _ _ w (played w e1)); [by rewrite Hrun, played_played|].
        rewrite bind_run.
        rewrite (create_indicator_accepted_at cfg env _ 3 w (dict_get d1 "access_token") r2);
          [reflexivity|lia|]. by exists r1, d1.
      * rewrite batches_posted_app, Hb. reflexivity.
      * rewrite attempts_app, Ha. cbn. lia.
      * rewrite sleeps_app, Hs. reflexivity.
Qed.

End PartialSubmission.

(** X8. Submission is not all or nothing.  With a positive maximum [M] per
    request, a list of more than [k * M] indicators, a service that
    accepts the first [k] calls and answers the request for a token of the
    next call with an HTTP error: [submit_indicator] raises the exception
    of that call after logging it, the first [k] batches have been
    submitted, and no later batch is ever sent. *)
Theorem submission_stops_at_first_failure
    (cfg : Config) (env : Env) (indicators_list : list Indicator) (k : nat)
    (r : Response) (w : World) :
  let m := Z.to_nat (MAX_TI_INDICATORS_PER_REQUEST cfg) in
  let err := ExceptionFrom (HTTPError (Some r)) in
  (0 < MAX_TI_INDICATORS_PER_REQUEST cfg)%Z ->
  k * m < length indicators_list ->
  accepts_between env (post_calls w) (2 * k + post_calls w) ->
  respond env (2 * k + post_calls w) (auth_request cfg) = Responded r ->
  ok r = false ->
  exists w',
    submit_indicator cfg env indicators_list w = (Raise err, w') /\
    batches_posted (events w')
      = batches_posted (events w) ++ take k (consecutive_slices m indicators_list) /\
    attempts (events w') = attempts (events w) + k + 1 /\
    sleeps (events w') = sleeps (events w) /\
    List.last (events w') (EvSleep 0) = EvLog INFO (MsgSubmitError err).
Proof.
  intros m err HM Hk Hacc E Hok.
  assert (Hm : 0 < m) by (unfold m; lia).
  pose proof (range_up_slices indicators_list m (length indicators_list) 0 Hm) as Hr.
  simpl in Hr. change (Z.of_nat 0) with 0%Z in Hr.
  rewrite !Nat.sub_0_r in Hr. specialize (Hr (Nat.le_refl _)).
  replace (Z.of_nat m) with (MAX_TI_INDICATORS_PER_REQUEST cfg) in Hr by (unfold m; lia).
  set (starts := range_up (length indicators_list) 0 (Z.of_nat (length indicators_list))
                          (MAX_TI_INDICATORS_PER_REQUEST cfg)) in *.
  assert (Hlen : k < length starts).
  { apply (f_equal length) in Hr. rewrite !length_map, length_seq in Hr. rewrite Hr.
    by apply div_ceil_gt. }
  set (w0 := played w [EvLog INFO (MsgLength (length indicators_list))]).
  destruct (submit_loop_stops cfg env indicators_list (MAX_TI_INDICATORS_PER_REQUEST cfg)
              k starts w0 r Hlen Hacc E Hok) as (evs & Hrun & Hb & Ha & Hs).
  exists (played w ([EvLog INFO (MsgLength (length indicators_list))] ++ evs
                    ++ [EvLog INFO (MsgSubmitError err)])).
  split; [|split; [|split; [|split]]].
  - unfold submit_indicator, submit_indicator_under, try_except.
    rewrite bind_run, log_run. cbv beta iota zeta.
    rewrite bind_run. unfold py_range.
    destruct (Z.eqb_spec (MAX_TI_INDICATORS_PER_REQUEST cfg) 0) as [|_]; [lia|].
    destruct (Z.ltb_spec 0 (MAX_TI_INDICATORS_PER_REQUEST cfg)) as [_|]; [|lia].
    rewrite ret_run. cbv beta iota zeta.
    rewrite Z.sub_0_r, Nat2Z.id. fold starts. fold w0.
    rewrite bind_run. unfold create_indicator in Hrun. rewrite Hrun.
    rewrite bind_run, log_run. cbv beta iota zeta. cbn [raise]. unfold w0.
    rewrite !played_played. reflexivity.
  - cbn [played events]. rewrite !batches_posted_app, Hb, map_take, Hr.
    change (batches_posted [EvLog INFO (MsgLength (length indicators_list))]) with
      (@nil (list Indicator)).
    change (batches_posted [EvLog INFO (MsgSubmitError err)]) with (@nil (list Indicator)).
    rewrite app_nil_r. reflexivity.
  - cbn [played events]. rewrite !attempts_app, Ha. cbn. lia.
  - cbn [played events]. rewrite !sleeps_app, Hs. cbn. by rewrite app_nil_r.
  - cbn [played events]. rewrite !app_assoc. apply last_last.
Qed.

Lemma submission_stops_at_first_failure_witness :
  let env := {| utcnow := sample_clock;
                respond := fun n _ => Responded (sample_response (if (n <? 2)%nat
                                                                  then 200 else 500)) |} in
  exists w',
    submit_indicator sample_cfg env sample_indicators initial_world
      = (Raise (ExceptionFrom (HTTPError (Some (sample_response 500)))), w') /\
    map length (batches_posted (events w')) = [100] /\
    attempts (events w') = 2.
Proof.
  intros env.
  destruct (submission_stops_at_first_failure sample_cfg env sample_indicators 1
              (sample_response 500) initial_world) as (w' & Hrun & Hb & Ha & _).
  - reflexivity.
  - vm_compute. lia.
  - intros n rq Hn. cbn [initial_world post_calls] in Hn.
    assert (Hlt : (n <? 2)%nat = true) by (apply Nat.ltb_lt; lia).
    eexists _, _. cbn [env respond]. rewrite Hlt. repeat split; reflexivity.
  - reflexivity.
  - reflexivity.
  - exists w'. split; [exact Hrun|]. rewrite Hb, Ha. split; [vm_compute|]; reflexivity.
Defined.

(** X9. A maximum per request that is not positive sends nothing.  With a
    maximum of zero [range] raises [ValueError], which
    [submit_indicator] logs and raises again, even for the empty list; with
    a negative maximum the range is empty and [submit_indicator] returns
    [True] although none of the indicators was submitted. *)
Theorem non_positive_batch_size
    (cfg : Config) (env : Env) (indicators_list : list Indicator) (w : World) :
  let count := EvLog INFO (MsgLength (length indicators_list)) in
  (MAX_TI_INDICATORS_PER_REQUEST cfg <= 0)%Z ->
  exists w',
    submit_indicator cfg env indicators_list w
    = (if (MAX_TI_INDICATORS_PER_REQUEST cfg =? 0)%Z then Raise ValueError else Ok true, w') /\
    events w'
    = events w ++ count :: (if (MAX_TI_INDICATORS_PER_REQUEST cfg =? 0)%Z
                            then [EvLog INFO (MsgSubmitError ValueError)] else []) /\
    posts (events w') = posts (events w).
Proof.
  intros count HM.
  unfold submit_indicator, submit_indicator_under, try_except.
  rewrite bind_run, log_run. cbv beta iota zeta.
  rewrite bind_run. unfold py_range.
  destruct (Z.eqb_spec (MAX_TI_INDICATORS_PER_REQUEST cfg) 0) as [E0|Hne].
  - cbn [raise]. rewrite bind_run, log_run. cbv beta iota zeta.
    rewrite played_played. eexists. split; [reflexivity|].
    cbn [played events]. split; [reflexivity|]. rewrite posts_app. cbn.
    by rewrite app_nil_r.
  - destruct (Z.ltb_spec 0 (MAX_TI_INDICATORS_PER_REQUEST cfg)) as [|_]; [lia|].
    rewrite ret_run. cbv beta iota zeta.
    replace (Z.to_nat (0 - Z.of_nat (length indicators_list))) with 0 by lia.
    cbn [range_down]. rewrite bind_run. cbn [py_for]. rewrite ret_run.
    cbv beta iota zeta. rewrite ret_run. eexists. split; [reflexivity|].
    cbn [played events]. split; [reflexivity|]. rewrite posts_app. cbn.
    by rewrite app_nil_r.
Qed.

Lemma non_positive_batch_size_witness :
  exists w',
    submit_indicator (sample_cfg_with_max (-100)) (sample_env 200) sample_indicators
      initial_world = (Ok true, w') /\
    events w' = [EvLog INFO (MsgLength 250)] /\
    posts (events w') = [].
Proof.
  apply (non_positive_batch_size (sample_cfg_with_max (-100)) (sample_env 200)
           sample_indicators initial_world). cbn. lia.
Defined.

(** ** The report of an analysis *)

Lemma rstrip_char_esses (c : ascii) (n : nat) :
  rstrip_char c (string_of_list_ascii (repeat c n)) = EmptyString.
Proof.
  induction n as [|n IH]; [done|]. cbn [repeat string_of_list_ascii rstrip_char].
  rewrite IH, Ascii.eqb_refl. reflexivity.
Qed.

Lemma rstrip_char_append (base : string) (n : nat) :
  no_final_s base = true -> rstrip_char "s" (base +:+ esses n) = base.
Proof.
  unfold esses. induction base as [|a base IH]; intros Hbase.
  - apply rstrip_char_esses.
  - rewrite append_cons. cbn [rstrip_char].
    destruct base as [|b base].
    + cbn [no_final_s] in Hbase. change (EmptyString +:+ ?x) with x.
      rewrite rstrip_char_esses. by destruct (Ascii.eqb a "s").
    + rewrite IH by exact Hbase. reflexivity.
Qed.

(** The loop over the contacted categories, key by key. *)
Lemma contacted_fold_lookup (init c : gmap string Data) (key : string) :
  map_fold parse_contacted_item init c !! key
  = match c !! key with
    | Some (DDict v) => Some (default (DList []) (v !! rstrip_char "s" key))
    | Some (DList items) => Some (DList items)
    | _ => init !! key
    end.
Proof.
  revert key.
  apply (map_fold_weak_ind
           (fun r m => forall key,
              r !! key = match m !! key with
                         | Some (DDict v) =>
                             Some (default (DList []) (v !! rstrip_char "s" key))
                         | Some (DList items) => Some (DList items)
                         | _ => init !! key
                         end)).
  - intros key. by rewrite lookup_empty.
  - intros i x m r Hi IH key. destruct (decide (key = i)) as [->|Hne].
    + rewrite lookup_insert_eq. specialize (IH i). rewrite Hi in IH.
      destruct x; cbn [parse_contacted_item]; rewrite ?lookup_insert_eq; done.
    + rewrite lookup_insert_ne by done. rewrite <- IH.
      destruct x; cbn [parse_contacted_item]; rewrite ?lookup_insert_ne; done.
Qed.

(** X10. For a report whose [analysis] is a dictionary (or is absent),
    [parse_analysis_data] returns a dictionary that holds, for every key:
    the entry of [contacted] under that key when it is a list; the list
    under the singular of the key when that entry is a dictionary (the
    empty list when it has none); and otherwise, for the key [files] only,
    the list of dropped files.  An entry [files] of [contacted] that is a
    list or a dictionary thus replaces the dropped files, entries of any
    other type are passed over, and a [contacted] or [dropped] that is not
    a dictionary counts as none. *)
Theorem parse_analysis_data_lookup (analysis_data a : gmap string Data) :
  default (DDict ∅) (analysis_data !! "analysis") = DDict a ->
  exists ioc_dict,
    parse_analysis_data analysis_data = inr ioc_dict /\
    forall key,
      ioc_dict !! key
      = ioc_of_report (default (DDict ∅) (a !! "contacted"))
                      (default (DDict ∅) (a !! "dropped")) key.
Proof.
  intros Ha. unfold parse_analysis_data. rewrite Ha. cbn [data_get].
  eexists. split; [reflexivity|]. intros key. unfold ioc_of_report.
  destruct (default (DDict ∅) (a !! "contacted")) as [| | | | |c].
  6: { rewrite contacted_fold_lookup.
       destruct (c !! key) as [[| | | | |v]|]; try reflexivity;
         destruct (default (DDict ∅) (a !! "dropped")) as [| | | | |d];
         try apply lookup_empty;
         (destruct (String.eqb_spec key "files") as [->|Hne];
          [apply lookup_insert_eq | rewrite lookup_insert_ne by done; apply lookup_empty]). }
  all: destruct (default (DDict ∅) (a !! "dropped")) as [| | | | |d];
    try apply lookup_empty;
    (destruct (String.eqb_spec key "files") as [->|Hne];
     [apply lookup_insert_eq | rewrite lookup_insert_ne by done; apply lookup_empty]).
Qed.


Lemma parse_analysis_data_lookup_witness :
  exists ioc_dict,
    parse_analysis_data sample_report = inr ioc_dict /\
    ioc_dict !! "ips" = Some (DList [DStr "8.8.8.8"; DStr "1.1.1.1"]) /\
    ioc_dict !! "domains" = Some (DList [DStr "evil.example"]) /\
    ioc_dict !! "files" = Some (DList [DStr "dropper.exe"]) /\
    ioc_dict !! "note" = None.
Proof.
  destruct (parse_analysis_data_lookup sample_report
              {[ "contacted" := DDict
                   {[ "ips" := DDict {[ "ip" := DList [DStr "8.8.8.8"; DStr "1.1.1.1"] ]};
                      "domains" := DDict {[ "domain" := DList [DStr "evil.example"] ]};
                      "note" := DStr "n/a" ]};
                 "dropped" := DDict {[ "file" := DList [DStr "dropper.exe"] ]} ]})
    as (ioc_dict & Hrun & Hkey); [reflexivity|].
  exists ioc_dict. split; [exact Hrun|]. rewrite !Hkey.
  repeat split; vm_compute; reflexivity.
Defined.

(** X11. The key under which [parse_analysis_data] looks into a category
    that is a dictionary is the category's key without all of its final
    letters [s], not only the last one: for a key [base] followed by [n]
    letters [s], where [base] does not end in [s], the result holds the
    entry [base] of the category, or the empty list when there is none.
    So [ips] reads [ip] and [domains] reads [domain], while [address]
    reads [addre]. *)
Theorem singular_key_drops_every_final_s
    (analysis_data a c v : gmap string Data) (base : string) (n : nat) :
  default (DDict ∅) (analysis_data !! "analysis") = DDict a ->
  a !! "contacted" = Some (DDict c) ->
  c !! (base +:+ esses n) = Some (DDict v) ->
  no_final_s base = true ->
  exists ioc_dict,
    parse_analysis_data analysis_data = inr ioc_dict /\
    ioc_dict !! (base +:+ esses n) = Some (default (DList []) (v !! base)).
Proof.
  intros Ha Hc Hv Hbase. unfold parse_analysis_data. rewrite Ha. cbn [data_get].
  rewrite Hc. change (default (DDict ∅) (Some (DDict c))) with (DDict c).
  eexists. split; [reflexivity|].
  rewrite contacted_fold_lookup, Hv. by rewrite rstrip_char_append.
Qed.

Lemma singular_key_drops_every_final_s_witness :
  let report : gmap string Data :=
    {[ "analysis" := DDict {[ "contacted" := DDict
         {[ "address" := DDict {[ "addres" := DList [DStr "a"];
                                  "addre" := DList [DStr "b"] ]} ]} ]} ]} in
  exists ioc_dict,
    parse_analysis_data report = inr ioc_dict /\
    ioc_dict !! "address" = Some (DList [DStr "b"]).
Proof.
  intros report.
  destruct (singular_key_drops_every_final_s report
           {[ "contacted" := DDict
                {[ "address" := DDict {[ "addres" := DList [DStr "a"];
                                         "addre" := DList [DStr "b"] ]} ]} ]}
           {[ "address" := DDict {[ "addres" := DList [DStr "a"];
                                    "addre" := DList [DStr "b"] ]} ]}
           {[ "addres" := DList [DStr "a"]; "addre" := DList [DStr "b"] ]}
           "addre" 2) as (ioc_dict & Hrun & Hkey); try reflexivity.
  exists ioc_dict. split; [exact Hrun | exact Hkey].
Defined.

(** X12. The edges of [parse_analysis_data]: a report without [analysis]
    gives the dictionary that holds the empty list under [files] and
    nothing else; a report whose [analysis] is anything but a dictionary
    makes the function raise [AttributeError]. *)
Theorem parse_analysis_data_edges (analysis_data : gmap string Data) :
  match analysis_data !! "analysis" with
  | None => parse_analysis_data analysis_data = inr {[ "files" := DList [] ]}
  | Some (DDict _) => exists ioc_dict, parse_analysis_data analysis_data = inr ioc_dict
  | Some _ => parse_analysis_data analysis_data = inl AttributeError
  end.
Proof.
  unfold parse_analysis_data.
  destruct (analysis_data !! "analysis") as [[| | | | |a]|]; cbn [from_option data_get];
    try reflexivity.
  by eexists.
Qed.

(** ** Extraction from a list of entries *)

Lemma built_nil (w : World) : built w [] = w.
Proof. destruct w. unfold built. simpl. by rewrite app_nil_r. Qed.

Lemma built_built (w : World) (a b : list Indicator) :
  built (built w a) b = built w (a ++ b).
Proof.
  unfold built. cbn [now_calls post_calls events indicators].
  rewrite length_app, app_assoc. f_equal. lia.
Qed.

Lemma appended_built (w : World) (ind : Indicator) :
  appended (clock_read 4 w) ind = built w [ind].
Proof. reflexivity. Qed.

Lemma built_with_events (w : World) (inds : list Indicator) (evs : list Event) :
  built (with_events w evs) inds = with_events (built w inds) evs.
Proof. reflexivity. Qed.

Section Lists.
Variable cfg : Config.
Variable env : Env.
Variable analysis_data : gmap string PyVal.

(** The body of the domain loop on a dictionary. *)
Lemma add_domain_indicator_dict (d : gmap string PyVal) (w : World) :
  add_domain_indicator cfg env analysis_data (EntryDict d) w
  = if is_malicious d then
      try_except
        (indicator_data ←
           get_static_data cfg env
             (generate_unique_id "domain" (dict_get d "name") default_threat_source)
             analysis_data
             ("[domain-name:value = '" +:+ py_str (dict_get d "name") +:+ "']")
             (dict_get d "name") "domain";
         indicators_append indicator_data)
        (fun err => log ERROR (MsgProcessingError "domain" err)) w
    else (Ok tt, w).
Proof.
  unfold add_domain_indicator, is_malicious. rewrite bind_run. cbn [entry_get].
  rewrite ret_run. cbv beta iota zeta.
  destruct (py_bool (dict_get d "malicious")); cbn [negb]; [|reflexivity].
  unfold try_except. rewrite bind_run. cbn [entry_get]. rewrite ret_run. reflexivity.
Qed.

(** The body of the URL loop on a dictionary. *)
Lemma add_url_indicator_dict (d : gmap string PyVal) (w : World) :
  let url_value := dict_get_default d "name" (PyStr EmptyString) in
  add_url_indicator cfg env analysis_data (EntryDict d) w
  = if is_malicious d then
      try_except
        (indicator_data ←
           get_static_data cfg env
             (generate_unique_id "url" url_value default_threat_source)
             analysis_data ("[url:value = '" +:+ py_str url_value +:+ "']")
             url_value "url";
         indicators_append indicator_data)
        (fun err => log ERROR (MsgProcessingError "URL" err)) w
    else (Ok tt, w).
Proof.
  intros url_value. unfold add_url_indicator, is_malicious. rewrite bind_run.
  cbn [entry_get]. rewrite ret_run. cbv beta iota zeta.
  destruct (py_bool (dict_get d "malicious")); cbn [negb]; [|reflexivity].
  unfold try_except. rewrite bind_run. cbn [entry_get_default]. rewrite ret_run.
  reflexivity.
Qed.

(** The construction of one indicator under its [try], when it can be
    built. *)
Lemma build_and_append_built
    (category unique_uuid pattern : string) (ioc_value : PyVal) (ioc_type : string)
    (w : World) :
  can_build cfg env analysis_data ->
  exists ind,
    try_except
      (indicator_data ←
         get_static_data cfg env unique_uuid analysis_data pattern ioc_value ioc_type;
       indicators_append indicator_data)
      (fun err => log ERROR (MsgProcessingError category err)) w
    = (Ok tt, built w [ind]) /\
    ind_pattern ind = pattern /\ ind_id ind = unique_uuid /\
    ind_name ind = ioc_value /\ ind_indicator_types ind = [ioc_type].
Proof.
  intros Hbuild.
  destruct (get_static_data_built cfg env analysis_data unique_uuid pattern ioc_value
              ioc_type w Hbuild) as (e & _ & Hb).
  eexists. split.
  - unfold try_except. rewrite bind_run, Hb. reflexivity.
  - repeat split.
Qed.

(** A loop whose body, on each entry, either appends one indicator that
    stands in the relation [R] to the entry or leaves the world alone,
    according to the test [keep]. *)
Lemma filter_loop_built (body : Entry -> M unit) (keep : gmap string PyVal -> bool)
    (R : gmap string PyVal -> Indicator -> Prop) :
  (forall d w, keep d = true ->
     exists ind, body (EntryDict d) w = (Ok tt, built w [ind]) /\ R d ind) ->
  (forall d w, keep d = false -> body (EntryDict d) w = (Ok tt, w)) ->
  forall (ds : list (gmap string PyVal)) (w : World),
  exists inds,
    py_for (map EntryDict ds) body w = (Ok tt, built w inds) /\
    Forall2 R (List.filter keep ds) inds.
Proof.
  intros Hkeep Hskip ds. induction ds as [|d ds IH]; intros w.
  - exists []. rewrite built_nil. split; [reflexivity | constructor].
  - cbn [map List.filter]. destruct (keep d) eqn:Hd.
    + destruct (Hkeep d w Hd) as (ind & Hrun & HR).
      destruct (IH (built w [ind])) as (inds & Hrest & Hall).
      exists (ind :: inds). split; [|by constructor].
      rewrite py_for_cons, Hrun, Hrest, built_built. reflexivity.
    + destruct (IH w) as (inds & Hrest & Hall).
      exists inds. split; [|done]. by rewrite py_for_cons, (Hskip d w Hd).
Qed.

(** From the loop to the function: the list is reset, filled and
    returned. *)
Lemma extraction_returns (body : Entry -> M unit) (entries : list Entry)
    (inds : list Indicator) (evs : list Event) (w : World) :
  py_for entries body (snd (indicators_reset w))
    = (Ok tt, with_events (built (snd (indicators_reset w)) inds) evs) ->
  (_ ← indicators_reset; _ ← py_for entries body; indicators_return) w
  = (Ok inds, with_events (built (snd (indicators_reset w)) inds) evs).
Proof.
  intros Hrun. rewrite bind_run.
  change (indicators_reset w) with (Ok tt, snd (indicators_reset w)).
  cbv beta iota zeta. rewrite bind_run, Hrun. reflexivity.
Qed.

End Lists.

(** X13. On a list of dictionaries, and when indicators can be built,
    [add_domain_indicators] and [add_url_indicators] return one indicator
    for each entry whose [malicious] is true, in the order of the list,
    and nothing for the others; they log nothing and send nothing.  The
    indicator of an entry carries the entry's [name] (for a URL the empty
    string when there is none; for a domain [None], whose text is then in
    the pattern), the pattern and the identifier made of it, and the type
    [domain] or [url]. *)
Theorem domain_and_url_indicators_follow_the_entries
    (cfg : Config) (env : Env) (analysis_data : gmap string PyVal)
    (entries : list (gmap string PyVal)) (w : World) :
  can_build cfg env analysis_data ->
  (exists inds,
     add_domain_indicators cfg env (map EntryDict entries) analysis_data w
       = (Ok inds, built (snd (indicators_reset w)) inds) /\
     Forall2 domain_indicator_of (List.filter is_malicious entries) inds) /\
  (exists inds,
     add_url_indicators cfg env (map EntryDict entries) analysis_data w
       = (Ok inds, built (snd (indicators_reset w)) inds) /\
     Forall2 url_indicator_of (List.filter is_malicious entries) inds).
Proof.
  intros Hbuild. split.
  - destruct (filter_loop_built (add_domain_indicator cfg env analysis_data)
                is_malicious domain_indicator_of) with (ds := entries)
      (w := snd (indicators_reset w)) as (inds & Hrun & Hall).
    + intros d w0 Hd. rewrite add_domain_indicator_dict, Hd.
      destruct (build_and_append_built cfg env analysis_data "domain"
                  (generate_unique_id "domain" (dict_get d "name") default_threat_source)
                  ("[domain-name:value = '" +:+ py_str (dict_get d "name") +:+ "']")
                  (dict_get d "name") "domain" w0 Hbuild) as (ind & Hrun & HR).
      by exists ind.
    + intros d w0 Hd. by rewrite add_domain_indicator_dict, Hd.
    + exists inds. split; [|done]. unfold add_domain_indicators.
      rewrite (extraction_returns _ _ inds [] w); by rewrite with_events_nil.
  - destruct (filter_loop_built (add_url_indicator cfg env analysis_data)
                is_malicious url_indicator_of) with (ds := entries)
      (w := snd (indicators_reset w)) as (inds & Hrun & Hall).
    + intros d w0 Hd. rewrite add_url_indicator_dict, Hd.
      destruct (build_and_append_built cfg env analysis_data "URL"
                  (generate_unique_id "url" (dict_get_default d "name" (PyStr EmptyString))
                     default_threat_source)
                  ("[url:value = '"
                   +:+ py_str (dict_get_default d "name" (PyStr EmptyString)) +:+ "']")
                  (dict_get_default d "name" (PyStr EmptyString)) "url" w0 Hbuild)
        as (ind & Hrun & HR).
      by exists ind.
    + intros d w0 Hd. by rewrite add_url_indicator_dict, Hd.
    + exists inds. split; [|done]. unfold add_url_indicators.
      rewrite (extraction_returns _ _ inds [] w); by rewrite with_events_nil.
Qed.

Lemma domain_and_url_indicators_follow_the_entries_witness :
  let benign : gmap string PyVal :=
    {[ "malicious" := PyBool false; "name" := PyStr "good.example" ]} in
  let nameless : gmap string PyVal := {[ "malicious" := PyBool true ]} in
  exists i1 i2 w',
    add_domain_indicators sample_cfg (sample_env 200)
      [EntryDict sample_domain; EntryDict benign; EntryDict nameless]
      sample_analysis initial_world = (Ok [i1; i2], w') /\
    ind_pattern i1 = "[domain-name:value = 'evil.example']" /\
    ind_pattern i2 = "[domain-name:value = 'None']" /\
    ind_name i2 = PyNone /\
    events w' = [].
Proof.
  intros benign nameless.
  destruct (domain_and_url_indicators_follow_the_entries sample_cfg (sample_env 200)
              sample_analysis [sample_domain; benign; nameless] initial_world)
    as [(inds & Hrun & Hall) _]; [apply sample_can_build|].
  cbn [List.filter] in Hall.
  replace (is_malicious sample_domain) with true in Hall by (vm_compute; reflexivity).
  replace (is_malicious benign) with false in Hall by (vm_compute; reflexivity).
  replace (is_malicious nameless) with true in Hall by (vm_compute; reflexivity).
  inversion Hall as [|? i1 ? inds1 P1 Hall1]; subst.
  inversion Hall1 as [|? i2 ? inds2 P2 Hall2]; subst.
  inversion Hall2; subst.
  eexists i1, i2, _. split; [exact Hrun|].
  destruct P1 as (Hp1 & _), P2 as (Hp2 & _ & Hn2 & _).
  split; [rewrite Hp1; vm_compute; reflexivity|].
  split; [rewrite Hp2; vm_compute; reflexivity|].
  split; [rewrite Hn2; vm_compute; reflexivity | reflexivity].
Defined.

Section IpLists.
Variable cfg : Config.
Variable env : Env.
Variable analysis_data : gmap string PyVal.

(** [str_to_bool] by the truth value of what it returns. *)
Lemma str_to_bool_verdict (v : PyVal) (w : World) :
  match verdict_of v with
  | Some b => exists j, str_to_bool v w = (Ok j, w) /\ Json.truthy j = b
  | None => str_to_bool v w = (Raise ValueError, w)
  end.
Proof.
  destruct v as [|b|z|s|t h s]; cbn [verdict_of str_to_bool];
    try (eexists; split; reflexivity).
  destruct (Json.loads (Json.lower (Json.strip s))) as [j|]; cbn [fmap option_fmap option_map].
  - by exists j.
  - reflexivity.
Qed.

(** The body of the IP loop on a dictionary whose verdict is false. *)
Lemma add_ip_indicator_benign (d : gmap string PyVal) (j : Json.Value) (w : World) :
  str_to_bool (dict_get d "@malicious") w = (Ok j, w) ->
  Json.truthy j = false ->
  add_ip_indicator cfg env analysis_data (EntryDict d) w = (Ok tt, w).
Proof.
  intros Hv Ht. unfold add_ip_indicator.
  rewrite bind_run. cbn [entry_get]. rewrite ret_run. cbv beta iota zeta.
  rewrite bind_run, Hv. cbv beta iota zeta. rewrite Ht. reflexivity.
Qed.

(** The body of the IP loop on a dictionary whose verdict cannot be
    decoded. *)
Lemma add_ip_indicator_undecoded (d : gmap string PyVal) (w : World) :
  verdict_of (dict_get d "@malicious") = None ->
  add_ip_indicator cfg env analysis_data (EntryDict d) w = (Raise ValueError, w).
Proof.
  intros Hv. pose proof (str_to_bool_verdict (dict_get d "@malicious") w) as H.
  rewrite Hv in H. unfold add_ip_indicator.
  rewrite bind_run. cbn [entry_get]. rewrite ret_run. cbv beta iota zeta.
  rewrite bind_run, H. reflexivity.
Qed.

(** The loop of [add_ip_indicators] over dictionaries whose verdicts can
    all be decoded. *)
Lemma ip_loop_built (ds : list (gmap string PyVal)) :
  can_build cfg env analysis_data ->
  Forall (fun d => is_Some (verdict_of (dict_get d "@malicious"))) ds ->
  forall w,
  exists inds,
    py_for (map EntryDict ds) (add_ip_indicator cfg env analysis_data) w
    = (Ok tt,
       with_events (built w inds)
         (map address_warning
            (List.filter (fun d => is_malicious_ip d && negb (has_address d)) ds))) /\
    Forall2 ip_indicator_of
      (List.filter (fun d => is_malicious_ip d && has_address d) ds) inds.
Proof.
  intros Hbuild Hall. induction Hall as [|d ds [b Hd] _ IH]; intros w.
  - exists []. cbn [map List.filter py_for]. rewrite built_nil, with_events_nil.
    split; [reflexivity | constructor].
  - cbn [map List.filter]. rewrite py_for_cons.
    pose proof (str_to_bool_verdict (dict_get d "@malicious") w) as Hv.
    rewrite Hd in Hv. destruct Hv as (j & Hv & Ht).
    assert (Hm : is_malicious_ip d = b)
      by (unfold is_malicious_ip; rewrite Hd; by destruct b).
    rewrite Hm. destruct b.
    + rewrite (add_ip_indicator_malicious cfg env analysis_data d j w Hv Ht).
      cbv zeta. fold (address_of d).
      destruct (check_ip (address_of d)) as [ip_type|] eqn:Hip.
      * assert (Ha : has_address d = true) by (unfold has_address; by rewrite Hip).
        rewrite Ha. cbn [andb negb].
        destruct (build_and_append_built cfg env analysis_data "IP"
                    (generate_unique_id "ip" (address_of d) default_threat_source)
                    ("[" +:+ ip_type +:+ ":value = '" +:+ py_str (address_of d) +:+ "']")
                    (address_of d) ip_type w Hbuild) as (ind & Hrun & Hp & Hid & Hn & Hty).
        rewrite Hrun. destruct (IH (built w [ind])) as (inds & Hrest & HR).
        exists (ind :: inds). rewrite Hrest, built_built. split; [reflexivity|].
        constructor; [|exact HR]. exists ip_type. by rewrite Hip.
      * assert (Ha : has_address d = false) by (unfold has_address; by rewrite Hip).
        rewrite Ha. cbn [andb negb map].
        destruct (IH (with_events w [address_warning d])) as (inds & Hrest & HR).
        exists inds. unfold address_warning at 1 in Hrest. rewrite Hrest.
        rewrite built_with_events, with_events_app. split; [reflexivity | exact HR].
    + rewrite (add_ip_indicator_benign d j w Hv Ht). cbn [andb]. apply IH.
Qed.

(** The body of the IP loop on a dictionary lets only the error of the
    verdict out. *)
Lemma add_ip_indicator_dict_cases (d : gmap string PyVal) (w : World) :
  exists w', add_ip_indicator cfg env analysis_data (EntryDict d) w = (Ok tt, w') \/
             add_ip_indicator cfg env analysis_data (EntryDict d) w = (Raise ValueError, w').
Proof.
  pose proof (str_to_bool_verdict (dict_get d "@malicious") w) as Hv.
  destruct (verdict_of (dict_get d "@malicious")) as [b|] eqn:Hd.
  - destruct Hv as (j & Hv & Ht). destruct b.
    + rewrite (add_ip_indicator_malicious cfg env analysis_data d j w Hv Ht). cbv zeta.
      destruct (check_ip _) as [ip_type|]; [|eexists; by left].
      match goal with
      | |- context [get_static_data ?c ?e ?u ?a ?p ?v ?t] =>
          destruct (build_and_append_cases c e a "IP" u p v t w)
            as [(ind & _ & H)|(err & k & H)]
      end; cbv zeta in H; rewrite H; eexists; by left.
    + rewrite (add_ip_indicator_benign d j w Hv Ht). eexists; by left.
  - rewrite (add_ip_indicator_undecoded d w Hd). eexists; by right.
Qed.

End IpLists.

(** X14. On a list of dictionaries whose verdicts [@malicious] can all be
    decoded, and when indicators can be built, [add_ip_indicators]
    returns one indicator for each entry whose verdict is true and whose
    address [ip_address] accepts, in the order of the list, typed
    [ipv4-addr] or [ipv6-addr] as [check_ip] says; and it logs one warning
    for each entry whose verdict is true and whose address is none, in the
    order of the list, and nothing else.  An entry without the key [$] has
    the empty string for address, which is none. *)
Theorem ip_indicators_follow_the_entries
    (cfg : Config) (env : Env) (analysis_data : gmap string PyVal)
    (entries : list (gmap string PyVal)) (w : World) :
  can_build cfg env analysis_data ->
  Forall (fun d => is_Some (verdict_of (dict_get d "@malicious"))) entries ->
  exists inds,
    add_ip_indicators cfg env (map EntryDict entries) analysis_data w
    = (Ok inds,
       with_events (built (snd (indicators_reset w)) inds)
         (map address_warning
            (List.filter (fun d => is_malicious_ip d && negb (has_address d)) entries))) /\
    Forall2 ip_indicator_of
      (List.filter (fun d => is_malicious_ip d && has_address d) entries) inds /\
    (forall d, d !! "$" = None -> has_address d = false).
Proof.
  intros Hbuild Hall.
  destruct (ip_loop_built cfg env analysis_data entries Hbuild Hall
              (snd (indicators_reset w))) as (inds & Hrun & HR).
  exists inds. split; [|split; [exact HR|]].
  - unfold add_ip_indicators. by apply extraction_returns.
  - intros d Hd. unfold has_address, address_of, dict_get_default. rewrite Hd.
    reflexivity.
Qed.

Lemma ip_indicators_follow_the_entries_witness :
  let benign : gmap string PyVal :=
    {[ "@malicious" := PyStr " False "; "$" := PyStr "9.9.9.9" ]} in
  let bare : gmap string PyVal := {[ "@malicious" := PyBool true ]} in
  let v6 : gmap string PyVal :=
    {[ "@malicious" := PyStr "TRUE"; "$" := PyStr "2001:db8::1" ]} in
  exists i1 i2 w',
    add_ip_indicators sample_cfg (sample_env 200)
      [EntryDict sample_good_ip; EntryDict benign; EntryDict bare; EntryDict v6]
      sample_analysis initial_world = (Ok [i1; i2], w') /\
    ind_pattern i1 = "[ipv4-addr:value = '8.8.8.8']" /\
    ind_pattern i2 = "[ipv6-addr:value = '2001:db8::1']" /\
    events w' = [EvLog WARNING (MsgUnrecognizedIP (PyStr EmptyString))].
Proof.
  intros benign bare v6.
  destruct (ip_indicators_follow_the_entries sample_cfg (sample_env 200) sample_analysis
              [sample_good_ip; benign; bare; v6] initial_world)
    as (inds & Hrun & Hall & _).
  - apply sample_can_build.
  - repeat constructor; vm_compute; eauto.
  - cbn [List.filter] in Hall, Hrun.
    replace (is_malicious_ip sample_good_ip) with true in Hall, Hrun
      by (vm_compute; reflexivity).
    replace (is_malicious_ip benign) with false in Hall, Hrun by (vm_compute; reflexivity).
    replace (is_malicious_ip bare) with true in Hall, Hrun by (vm_compute; reflexivity).
    replace (is_malicious_ip v6) with true in Hall, Hrun by (vm_compute; reflexivity).
    replace (has_address sample_good_ip) with true in Hall, Hrun by (vm_compute; reflexivity).
    replace (has_address bare) with false in Hall, Hrun by (vm_compute; reflexivity).
    replace (has_address v6) with true in Hall, Hrun by (vm_compute; reflexivity).
    cbn [andb negb map] in Hall, Hrun.
    inversion Hall as [|? i1 ? inds1 P1 Hall1]; subst.
    inversion Hall1 as [|? i2 ? inds2 P2 Hall2]; subst.
    inversion Hall2; subst.
    eexists i1, i2, _. split; [exact Hrun|].
    destruct P1 as (t1 & Ht1 & Hp1 & _), P2 as (t2 & Ht2 & Hp2 & _).
    assert (t1 = "ipv4-addr") as -> by (vm_compute in Ht1; congruence).
    assert (t2 = "ipv6-addr") as -> by (vm_compute in Ht2; congruence).
    split; [rewrite Hp1; vm_compute; reflexivity|].
    split; [rewrite Hp2; vm_compute; reflexivity | reflexivity].
Defined.

Section FileLists.
Variable cfg : Config.
Variable env : Env.
Variable analysis_data : gmap string PyVal.

Lemma flat_map_filter {A B} (keep : A -> bool) (f : A -> list B) (xs : list A) :
  flat_map f (List.filter keep xs) = flat_map (fun x => if keep x then f x else []) xs.
Proof.
  induction xs as [|x xs IH]; [done|]. cbn [List.filter flat_map].
  destruct (keep x); cbn [flat_map app]; by rewrite IH.
Qed.

Lemma flat_map_single {A B} (f : A -> B) (xs : list A) :
  flat_map (fun x => [f x]) xs = map f xs.
Proof. induction xs as [|x xs IH]; [done|]. cbn [flat_map map app]. by rewrite IH. Qed.

(** A loop whose body appends, for each entry, indicators that stand in
    the relation [R] to the items [out] makes of the entry. *)
Lemma flat_loop_built {A B X} (g : A -> B) (body : B -> M unit) (out : A -> list X)
    (R : X -> Indicator -> Prop) :
  (forall x w, exists inds,
     body (g x) w = (Ok tt, built w inds) /\ Forall2 R (out x) inds) ->
  forall (xs : list A) (w : World),
  exists inds,
    py_for (map g xs) body w = (Ok tt, built w inds) /\ Forall2 R (flat_map out xs) inds.
Proof.
  intros Hbody xs. induction xs as [|x xs IH]; intros w.
  - exists []. rewrite built_nil. split; [reflexivity | constructor].
  - destruct (Hbody x w) as (i1 & Hrun & H1).
    destruct (IH (built w i1)) as (i2 & Hrest & H2).
    exists (i1 ++ i2). split.
    + cbn [map]. rewrite py_for_cons, Hrun, Hrest, built_built. reflexivity.
    + cbn [flat_map]. by apply Forall2_app.
Qed.

(** The body of the inner loop, for one hash type of a file. *)
Lemma add_file_hash_indicator_built (d : gmap string PyVal) (hash : string * string)
    (w : World) :
  can_build cfg env analysis_data ->
  exists inds,
    add_file_hash_indicator cfg env analysis_data (EntryDict d)
      (dict_get_default d "name" (PyStr EmptyString)) hash w
    = (Ok tt, built w inds) /\
    Forall2 (fun dh ind => hash_indicator_of (fst dh) (snd dh) ind)
            (if py_bool (dict_get d (snd hash)) then [(d, hash)] else []) inds.
Proof.
  intros Hbuild. destruct hash as [hash_type key]. unfold add_file_hash_indicator.
  rewrite bind_run. cbn [entry_get snd]. rewrite ret_run. cbv beta iota zeta.
  destruct (py_bool (dict_get d key)); cbn [negb].
  - destruct (get_static_data_built cfg env analysis_data
                (generate_unique_id "file" (dict_get d key) default_threat_source)
                ("[file:hashes.'" +:+ hash_type +:+ "' = '"
                 +:+ py_str (dict_get d key) +:+ "']")
                (py_or (dict_get_default d "name" (PyStr EmptyString)) (dict_get d key))
                "file" w Hbuild) as (e & _ & Hb).
    rewrite bind_run, Hb. eexists [_]. split; [reflexivity|].
    constructor; [|constructor]. repeat split.
  - exists []. rewrite ret_run, built_nil. split; [reflexivity | constructor].
Qed.

(** The body of the file loop on a dictionary. *)
Lemma add_file_indicator_dict_built (d : gmap string PyVal) (w : World) :
  can_build cfg env analysis_data ->
  exists inds,
    add_file_indicator cfg env analysis_data (EntryDict d) w = (Ok tt, built w inds) /\
    Forall2 (fun dh ind => hash_indicator_of (fst dh) (snd dh) ind)
            (if is_malicious d
             then map (pair d) (List.filter (fun h => py_bool (dict_get d (snd h)))
                                            (HASH_TYPE_LIST cfg))
             else []) inds.
Proof.
  intros Hbuild. unfold add_file_indicator, is_malicious.
  rewrite bind_run. cbn [entry_get]. rewrite ret_run. cbv beta iota zeta.
  destruct (py_bool (dict_get d "malicious")); cbn [negb].
  - destruct (flat_loop_built id
                (add_file_hash_indicator cfg env analysis_data (EntryDict d)
                   (dict_get_default d "name" (PyStr EmptyString)))
                (fun h => if py_bool (dict_get d (snd h)) then [(d, h)] else [])
                (fun dh ind => hash_indicator_of (fst dh) (snd dh) ind)
                (fun h w0 => add_file_hash_indicator_built d h w0 Hbuild)
                (HASH_TYPE_LIST cfg) w) as (inds & Hrun & Hall).
    rewrite List.map_id in Hrun. exists inds. split.
    + unfold try_except. rewrite bind_run. cbn [entry_get_default]. rewrite ret_run.
      cbv beta iota zeta. rewrite Hrun. reflexivity.
    + rewrite <- (flat_map_filter _ (fun h => [(d, h)])) in Hall.
      rewrite flat_map_single in Hall. exact Hall.
  - exists []. rewrite ret_run, built_nil. split; [reflexivity | constructor].
Qed.

End FileLists.

(** X15. On a list of dictionaries, and when indicators can be built,
    [add_file_indicators] returns, file by file in the order of the list
    and for the files whose [malicious] is true only, one indicator for
    each hash type of [HASH_TYPE_LIST], in the order of that list, whose
    key holds a true value in the entry; a file without any hash gives
    nothing.  Nothing is logged.  Each indicator carries the pattern and
    the identifier of its hash, and the name of the file or else the
    hash for label. *)
Theorem file_indicators_follow_the_entries
    (cfg : Config) (env : Env) (analysis_data : gmap string PyVal)
    (files : list (gmap string PyVal)) (w : World) :
  can_build cfg env analysis_data ->
  exists inds,
    add_file_indicators cfg env (map EntryDict files) analysis_data w
    = (Ok inds, built (snd (indicators_reset w)) inds) /\
    Forall2 (fun dh ind => hash_indicator_of (fst dh) (snd dh) ind)
            (file_hashes cfg files) inds.
Proof.
  intros Hbuild.
  destruct (flat_loop_built EntryDict (add_file_indicator cfg env analysis_data)
              (fun d => if is_malicious d
                        then map (pair d)
                               (List.filter (fun h => py_bool (dict_get d (snd h)))
                                            (HASH_TYPE_LIST cfg))
                        else [])
              (fun dh ind => hash_indicator_of (fst dh) (snd dh) ind)
              (fun d w0 => add_file_indicator_dict_built cfg env analysis_data d w0 Hbuild)
              files (snd (indicators_reset w))) as (inds & Hrun & Hall).
  exists inds. split.
  - unfold add_file_indicators.
    rewrite (extraction_returns _ _ inds [] w); by rewrite with_events_nil.
  - unfold file_hashes. by rewrite flat_map_filter.
Qed.

Lemma file_indicators_follow_the_entries_witness :
  let benign : gmap string PyVal := <[ "malicious" := PyBool false ]> sample_file in
  let partial : gmap string PyVal :=
    {[ "malicious" := PyInt 1; "sha256" := PyStr "abc"; "md5" := PyStr EmptyString ]} in
  exists inds w',
    add_file_indicators sample_cfg (sample_env 200)
      [EntryDict benign; EntryDict partial; EntryDict sample_file]
      sample_analysis initial_world = (Ok inds, w') /\
    map ind_pattern inds
    = [ "[file:hashes.'SHA256' = 'abc']";
        "[file:hashes.'MD5' = 'd41d8cd98f00b204e9800998ecf8427e']";
        "[file:hashes.'SHA1' = 'da39a3ee5e6b4b0d3255bfef95601890afd80709']";
        "[file:hashes.'SHA256' = 'e3b0c44298fc1c149afbf4c8996fb92427ae41e4649b934ca495991b7852b855']" ] /\
    events w' = [].
Proof.
  intros benign partial.
  destruct (file_indicators_follow_the_entries sample_cfg (sample_env 200) sample_analysis
              [benign; partial; sample_file] initial_world)
    as (inds & Hrun & Hall); [apply sample_can_build|].
  exists inds. eexists. split; [exact Hrun|]. split; [|reflexivity].
  unfold file_hashes in Hall. cbn [List.filter sample_cfg HASH_TYPE_LIST snd] in Hall.
  replace (is_malicious benign) with false in Hall by (vm_compute; reflexivity).
  replace (is_malicious partial) with true in Hall by (vm_compute; reflexivity).
  replace (is_malicious sample_file) with true in Hall by (vm_compute; reflexivity).
  cbn [flat_map List.filter snd] in Hall.
  replace (py_bool (dict_get partial "md5")) with false in Hall by (vm_compute; reflexivity).
  replace (py_bool (dict_get partial "sha1")) with false in Hall by (vm_compute; reflexivity).
  replace (py_bool (dict_get partial "sha256")) with true in Hall by (vm_compute; reflexivity).
  replace (py_bool (dict_get sample_file "md5")) with true in Hall by (vm_compute; reflexivity).
  replace (py_bool (dict_get sample_file "sha1")) with true in Hall by (vm_compute; reflexivity).
  replace (py_bool (dict_get sample_file "sha256")) with true in Hall
    by (vm_compute; reflexivity).
  cbn [map app] in Hall.
  inversion Hall as [|? i1 ? inds1 P1 Hall1]; subst.
  inversion Hall1 as [|? i2 ? inds2 P2 Hall2]; subst.
  inversion Hall2 as [|? i3 ? inds3 P3 Hall3]; subst.
  inversion Hall3 as [|? i4 ? inds4 P4 Hall4]; subst.
  inversion Hall4; subst.
  destruct P1 as (Hp1 & _), P2 as (Hp2 & _), P3 as (Hp3 & _), P4 as (Hp4 & _).
  cbn [map]. rewrite Hp1, Hp2, Hp3, Hp4. vm_compute. reflexivity.
Defined.

(** ** What goes wrong in an entry *)

Lemma py_for_app {A} (xs ys : list A) (body : A -> M unit) (w : World) :
  py_for (xs ++ ys) body w
  = match py_for xs body w with
    | (Ok _, w') => py_for ys body w'
    | (Raise e, w') => (Raise e, w')
    | (OutOfFuel, w') => (OutOfFuel, w')
    end.
Proof.
  revert w. induction xs as [|x xs IH]; intros w; [reflexivity|].
  cbn [app]. rewrite !py_for_cons. destruct (body x w) as [[[]|e|] w1]; [apply IH|done|done].
Qed.

Section Contained.
Variable cfg : Config.
Variable env : Env.
Variable analysis_data : gmap string PyVal.

(** The [try] around the construction of one indicator ends normally, with
    either the indicator or a record of the error. *)
Lemma build_and_append_accounted
    (category unique_uuid pattern : string) (ioc_value : PyVal) (ioc_type : string)
    (w : World) :
  exists w' inds evs,
    try_except
      (indicator_data ←
         get_static_data cfg env unique_uuid analysis_data pattern ioc_value ioc_type;
       indicators_append indicator_data)
      (fun err => log ERROR (MsgProcessingError category err)) w = (Ok tt, w') /\
    indicators w' = indicators w ++ inds /\ events w' = events w ++ evs /\
    Forall (is_processing_error category) evs /\ length inds + length evs = 1.
Proof.
  destruct (build_and_append_cases cfg env analysis_data category unique_uuid pattern
              ioc_value ioc_type w) as [(ind & _ & H)|(err & k & H)]; cbv zeta in H;
    rewrite H.
  - exists (appended (clock_read 4 w) ind), [ind], []. cbn. rewrite app_nil_r.
    repeat split. constructor.
  - eexists _, [], [_]. cbn. rewrite app_nil_r. repeat split.
    constructor; [by exists err | constructor].
Qed.

(** A loop whose body, on each entry that passes the test [keep], ends
    normally with one indicator or one record of an error. *)
Lemma accounted_loop (body : Entry -> M unit) (keep : gmap string PyVal -> bool)
    (category : string) :
  (forall d w, keep d = true ->
     exists w' inds evs,
       body (EntryDict d) w = (Ok tt, w') /\
       indicators w' = indicators w ++ inds /\ events w' = events w ++ evs /\
       Forall (is_processing_error category) evs /\ length inds + length evs = 1) ->
  (forall d w, keep d = false -> body (EntryDict d) w = (Ok tt, w)) ->
  forall (ds : list (gmap string PyVal)) (w : World),
  exists w' inds evs,
    py_for (map EntryDict ds) body w = (Ok tt, w') /\
    indicators w' = indicators w ++ inds /\ events w' = events w ++ evs /\
    Forall (is_processing_error category) evs /\
    length inds + length evs = length (List.filter keep ds).
Proof.
  intros Hkeep Hskip ds. induction ds as [|d ds IH]; intros w.
  - exists w, [], []. rewrite !app_nil_r. repeat split. constructor.
  - cbn [map List.filter]. rewrite py_for_cons. destruct (keep d) eqn:Hd.
    + destruct (Hkeep d w Hd) as (w1 & i1 & e1 & Hrun & Hi1 & He1 & Hf1 & Hn1).
      destruct (IH w1) as (w' & i2 & e2 & Hrest & Hi2 & He2 & Hf2 & Hn2).
      exists w', (i1 ++ i2), (e1 ++ e2). rewrite Hrun, Hrest, Hi2, He2, Hi1, He1.
      rewrite <- !app_assoc, !length_app. cbn [length]. repeat split; try lia.
      by apply Forall_app.
    + rewrite (Hskip d w Hd). apply IH.
Qed.

(** The inner loop of the file body logs nothing and does not run out. *)
Lemma file_hashes_quiet (d : gmap string PyVal) (filename : PyVal)
    (hs : list (string * string)) :
  forall w, exists r w',
    py_for hs (add_file_hash_indicator cfg env analysis_data (EntryDict d) filename) w
      = (r, w') /\
    r <> OutOfFuel /\ events w' = events w.
Proof.
  induction hs as [|[hash_type key] hs IH]; intros w.
  - by exists (Ok tt), w.
  - rewrite py_for_cons. unfold add_file_hash_indicator at 1.
    rewrite bind_run. cbn [entry_get]. rewrite ret_run. cbv beta iota zeta.
    destruct (py_bool (dict_get d key)); cbn [negb].
    + rewrite bind_run.
      match goal with
      | |- context [get_static_data ?c ?e ?u ?a ?p ?v ?t ?w0] =>
          destruct (get_static_data_cases c e a u p v t w0)
            as [(ex & _ & E)|[[_ E]|[_ E]]]; cbv zeta in E; rewrite E
      end.
      * cbv beta iota zeta.
        change (indicators_append ?x ?w0) with (Ok tt, appended w0 x).
        cbv beta iota zeta.
        match goal with
        | |- context [py_for hs _ ?w0] => destruct (IH w0) as (r & w' & Hrun & Hr & He)
        end.
        exists r, w'. rewrite Hrun. by repeat split.
      * by eexists _, _.
      * by eexists _, _.
    + rewrite ret_run. cbv beta iota zeta. apply IH.
Qed.

(** The body of the file loop on a dictionary ends normally, with at most
    one record of an error. *)
Lemma add_file_indicator_contained (d : gmap string PyVal) (w : World) :
  exists w' evs,
    add_file_indicator cfg env analysis_data (EntryDict d) w = (Ok tt, w') /\
    events w' = events w ++ evs /\
    Forall (is_processing_error "file") evs /\
    length evs <= (if is_malicious d then 1 else 0).
Proof.
  unfold add_file_indicator, is_malicious.
  rewrite bind_run. cbn [entry_get]. rewrite ret_run. cbv beta iota zeta.
  destruct (py_bool (dict_get d "malicious")); cbn [negb].
  - unfold try_except. rewrite bind_run. cbn [entry_get_default]. rewrite ret_run.
    cbv beta iota zeta.
    destruct (file_hashes_quiet d (dict_get_default d "name" (PyStr EmptyString))
                (HASH_TYPE_LIST cfg) w) as (r & w1 & Hrun & Hr & He).
    rewrite Hrun. destruct r as [[]|e|]; [| |done].
    + exists w1, []. rewrite app_nil_r. repeat split; [done|constructor|cbn; lia].
    + eexists _, [_]. rewrite log_run. split; [reflexivity|].
      cbn [played events]. rewrite He. repeat split; [|cbn; lia].
      constructor; [by exists e | constructor].
  - exists w, []. rewrite app_nil_r. repeat split; [constructor|cbn; lia].
Qed.

Lemma file_loop_contained (ds : list (gmap string PyVal)) :
  forall w, exists w' evs,
    py_for (map EntryDict ds) (add_file_indicator cfg env analysis_data) w = (Ok tt, w') /\
    events w' = events w ++ evs /\
    Forall (is_processing_error "file") evs /\
    length evs <= length (List.filter is_malicious ds).
Proof.
  induction ds as [|d ds IH]; intros w.
  - exists w, []. rewrite app_nil_r. repeat split; [constructor|cbn; lia].
  - cbn [map List.filter]. rewrite py_for_cons.
    destruct (add_file_indicator_contained d w) as (w1 & e1 & Hrun & He1 & Hf1 & Hn1).
    destruct (IH w1) as (w' & e2 & Hrest & He2 & Hf2 & Hn2).
    exists w', (e1 ++ e2). rewrite Hrun, Hrest, He2, He1, <- app_assoc, length_app.
    split; [done|]. split; [done|]. split; [by apply Forall_app|].
    destruct (is_malicious d); cbn [length]; lia.
Qed.

(** The loops of the domain and URL functions over dictionaries. *)
Lemma domain_loop_accounted (ds : list (gmap string PyVal)) (w : World) :
  exists w' inds evs,
    py_for (map EntryDict ds) (add_domain_indicator cfg env analysis_data) w = (Ok tt, w') /\
    indicators w' = indicators w ++ inds /\ events w' = events w ++ evs /\
    Forall (is_processing_error "domain") evs /\
    length inds + length evs = length (List.filter is_malicious ds).
Proof.
  apply accounted_loop.
  - intros d w0 Hd. rewrite add_domain_indicator_dict, Hd.
    apply build_and_append_accounted.
  - intros d w0 Hd. by rewrite add_domain_indicator_dict, Hd.
Qed.

Lemma url_loop_accounted (ds : list (gmap string PyVal)) (w : World) :
  exists w' inds evs,
    py_for (map EntryDict ds) (add_url_indicator cfg env analysis_data) w = (Ok tt, w') /\
    indicators w' = indicators w ++ inds /\ events w' = events w ++ evs /\
    Forall (is_processing_error "URL") evs /\
    length inds + length evs = length (List.filter is_malicious ds).
Proof.
  apply accounted_loop.
  - intros d w0 Hd. rewrite add_url_indicator_dict, Hd.
    apply build_and_append_accounted.
  - intros d w0 Hd. by rewrite add_url_indicator_dict, Hd.
Qed.

(** The loop of the IP function over dictionaries ends normally or with
    the error of a verdict. *)
Lemma ip_loop_cases (ds : list (gmap string PyVal)) :
  forall w, exists w',
    py_for (map EntryDict ds) (add_ip_indicator cfg env analysis_data) w = (Ok tt, w') \/
    py_for (map EntryDict ds) (add_ip_indicator cfg env analysis_data) w
      = (Raise ValueError, w').
Proof.
  induction ds as [|d ds IH]; intros w.
  - exists w. by left.
  - cbn [map]. rewrite py_for_cons.
    destruct (add_ip_indicator_dict_cases cfg env analysis_data d w) as (w1 & [H|H]);
      rewrite H; [apply IH|].
    exists w1. by right.
Qed.

End Contained.

(** X16. On a list of dictionaries [add_domain_indicators],
    [add_url_indicators] and [add_file_indicators] never raise, whatever
    the report, the configuration and the clock: an exception raised while
    an indicator is built is logged as an error of its entry and the loop
    goes on.  Each domain or URL whose [malicious] is true gives either
    one indicator or one such record; the files whose [malicious] is true
    give at most one such record each.  Nothing else is logged. *)
Theorem dictionary_entries_never_raise
    (cfg : Config) (env : Env) (analysis_data : gmap string PyVal)
    (entries : list (gmap string PyVal)) (w : World) :
  (exists inds w' evs,
     add_domain_indicators cfg env (map EntryDict entries) analysis_data w = (Ok inds, w') /\
     events w' = events w ++ evs /\ Forall (is_processing_error "domain") evs /\
     length inds + length evs = length (List.filter is_malicious entries)) /\
  (exists inds w' evs,
     add_url_indicators cfg env (map EntryDict entries) analysis_data w = (Ok inds, w') /\
     events w' = events w ++ evs /\ Forall (is_processing_error "URL") evs /\
     length inds + length evs = length (List.filter is_malicious entries)) /\
  (exists inds w' evs,
     add_file_indicators cfg env (map EntryDict entries) analysis_data w = (Ok inds, w') /\
     events w' = events w ++ evs /\ Forall (is_processing_error "file") evs /\
     length evs <= length (List.filter is_malicious entries)).
Proof.
  split; [|split].
  - destruct (domain_loop_accounted cfg env analysis_data entries (snd (indicators_reset w)))
      as (w' & inds & evs & Hrun & Hi & He & Hf & Hn).
    exists inds, w', evs. split; [|done].
    unfold add_domain_indicators. rewrite bind_run.
    change (indicators_reset w) with (Ok tt, snd (indicators_reset w)).
    cbv beta iota zeta. rewrite bind_run, Hrun. cbv beta iota zeta.
    unfold indicators_return. by rewrite Hi.
  - destruct (url_loop_accounted cfg env analysis_data entries (snd (indicators_reset w)))
      as (w' & inds & evs & Hrun & Hi & He & Hf & Hn).
    exists inds, w', evs. split; [|done].
    unfold add_url_indicators. rewrite bind_run.
    change (indicators_reset w) with (Ok tt, snd (indicators_reset w)).
    cbv beta iota zeta. rewrite bind_run, Hrun. cbv beta iota zeta.
    unfold indicators_return. by rewrite Hi.
  - destruct (file_loop_contained cfg env analysis_data entries (snd (indicators_reset w)))
      as (w' & evs & Hrun & He & Hf & Hn).
    exists (indicators w'), w', evs. split; [|done].
    unfold add_file_indicators. rewrite bind_run.
    change (indicators_reset w) with (Ok tt, snd (indicators_reset w)).
    cbv beta iota zeta. rewrite bind_run, Hrun. reflexivity.
Qed.

(** X17. An entry that is not a dictionary (a string, a number, [null], a
    list) has no [get]: the verdict lookup, which stands before the [try],
    raises [AttributeError] out of the function.  After any dictionaries
    and before anything else, such an entry makes [add_domain_indicators],
    [add_url_indicators] and [add_file_indicators] raise it, so that the
    indicators built so far are not returned; [add_ip_indicators] raises
    it too, unless the verdict of an earlier entry has already raised
    [ValueError]. *)
Theorem entry_that_is_not_a_dictionary_aborts
    (cfg : Config) (env : Env) (analysis_data : gmap string PyVal)
    (ds : list (gmap string PyVal)) (v : PyVal) (rest : list Entry) (w : World) :
  let entries := map EntryDict ds ++ EntryOther v :: rest in
  (exists w', add_domain_indicators cfg env entries analysis_data w
              = (Raise AttributeError, w')) /\
  (exists w', add_url_indicators cfg env entries analysis_data w
              = (Raise AttributeError, w')) /\
  (exists w', add_file_indicators cfg env entries analysis_data w
              = (Raise AttributeError, w')) /\
  (exists err w', add_ip_indicators cfg env entries analysis_data w = (Raise err, w') /\
                  (err = AttributeError \/ err = ValueError)).
Proof.
  intros entries. unfold entries. split; [|split; [|split]].
  - destruct (domain_loop_accounted cfg env analysis_data ds (snd (indicators_reset w)))
      as (w' & _ & _ & Hrun & _).
    exists w'. unfold add_domain_indicators. rewrite bind_run.
    change (indicators_reset w) with (Ok tt, snd (indicators_reset w)).
    cbv beta iota zeta. rewrite bind_run, py_for_app, Hrun. reflexivity.
  - destruct (url_loop_accounted cfg env analysis_data ds (snd (indicators_reset w)))
      as (w' & _ & _ & Hrun & _).
    exists w'. unfold add_url_indicators. rewrite bind_run.
    change (indicators_reset w) with (Ok tt, snd (indicators_reset w)).
    cbv beta iota zeta. rewrite bind_run, py_for_app, Hrun. reflexivity.
  - destruct (file_loop_contained cfg env analysis_data ds (snd (indicators_reset w)))
      as (w' & _ & Hrun & _).
    exists w'. unfold add_file_indicators. rewrite bind_run.
    change (indicators_reset w) with (Ok tt, snd (indicators_reset w)).
    cbv beta iota zeta. rewrite bind_run, py_for_app, Hrun. reflexivity.
  - destruct (ip_loop_cases cfg env analysis_data ds (snd (indicators_reset w)))
      as (w' & [Hrun|Hrun]).
    + exists AttributeError, w'. split; [|by left]. unfold add_ip_indicators.
      rewrite bind_run. change (indicators_reset w) with (Ok tt, snd (indicators_reset w)).
      cbv beta iota zeta. rewrite bind_run, py_for_app, Hrun. reflexivity.
    + exists ValueError, w'. split; [|by right]. unfold add_ip_indicators.
      rewrite bind_run. change (indicators_reset w) with (Ok tt, snd (indicators_reset w)).
      cbv beta iota zeta. rewrite bind_run, py_for_app, Hrun. reflexivity.
Qed.

(** X18. A verdict that is a text.  The domain and URL loops test the entry
    [malicious] for truth, and a text is true unless it is empty: an entry
    whose verdict is the text [false] gives an indicator like any malicious
    one.  The IP loop decodes the text of [@malicious] first, so that an
    entry whose verdict reads [false], in any letter case and with spaces
    around it, gives none. *)
Theorem textual_verdicts
    (cfg : Config) (env : Env) (analysis_data : gmap string PyVal)
    (d : gmap string PyVal) (s : string) (w : World) :
  can_build cfg env analysis_data ->
  s <> EmptyString ->
  (dict_get d "malicious" = PyStr s ->
   exists i1 i2 w1 w2,
     add_domain_indicators cfg env [EntryDict d] analysis_data w = (Ok [i1], w1) /\
     add_url_indicators cfg env [EntryDict d] analysis_data w = (Ok [i2], w2)) /\
  (dict_get d "@malicious" = PyStr s ->
   Json.lower (Json.strip s) = "false" ->
   add_ip_indicators cfg env [EntryDict d] analysis_data w
   = (Ok [], snd (indicators_reset w))).
Proof.
  intros Hbuild Hs. split.
  - intros Hd.
    assert (Hm : is_malicious d = true).
    { unfold is_malicious. rewrite Hd. cbn [py_bool].
      destruct (String.eqb_spec s EmptyString); done. }
    destruct (build_and_append_built cfg env analysis_data "domain"
                (generate_unique_id "domain" (dict_get d "name") default_threat_source)
                ("[domain-name:value = '" +:+ py_str (dict_get d "name") +:+ "']")
                (dict_get d "name") "domain" (snd (indicators_reset w)) Hbuild)
      as (i1 & Hrun1 & _).
    destruct (build_and_append_built cfg env analysis_data "URL"
                (generate_unique_id "url" (dict_get_default d "name" (PyStr EmptyString))
                   default_threat_source)
                ("[url:value = '"
                 +:+ py_str (dict_get_default d "name" (PyStr EmptyString)) +:+ "']")
                (dict_get_default d "name" (PyStr EmptyString)) "url"
                (snd (indicators_reset w)) Hbuild) as (i2 & Hrun2 & _).
    exists i1, i2. eexists _, _. split.
    + unfold add_domain_indicators. apply (extraction_returns _ _ [i1] []).
      rewrite with_events_nil, py_for_cons, add_domain_indicator_dict, Hm, Hrun1.
      reflexivity.
    + unfold add_url_indicators. apply (extraction_returns _ _ [i2] []).
      rewrite with_events_nil, py_for_cons, add_url_indicator_dict, Hm, Hrun2.
      reflexivity.
  - intros Hd Hfalse.
    unfold add_ip_indicators. rewrite bind_run.
    change (indicators_reset w) with (Ok tt, snd (indicators_reset w)).
    cbv beta iota zeta. rewrite bind_run, py_for_cons.
    rewrite (add_ip_indicator_benign cfg env analysis_data d (Json.Bool false));
      [reflexivity| |reflexivity].
    rewrite Hd. unfold str_to_bool. rewrite Hfalse. reflexivity.
Qed.

Lemma textual_verdicts_witness :
  let d : gmap string PyVal :=
    {[ "malicious" := PyStr "false"; "@malicious" := PyStr "false";
       "name" := PyStr "benign.example"; "$" := PyStr "8.8.8.8" ]} in
  (exists i1 i2 w1 w2,
     add_domain_indicators sample_cfg (sample_env 200) [EntryDict d] sample_analysis
       initial_world = (Ok [i1], w1) /\
     add_url_indicators sample_cfg (sample_env 200) [EntryDict d] sample_analysis
       initial_world = (Ok [i2], w2)) /\
  add_ip_indicators sample_cfg (sample_env 200) [EntryDict d] sample_analysis initial_world
  = (Ok [], initial_world).
Proof.
  intros d.
  destruct (textual_verdicts sample_cfg (sample_env 200) sample_analysis d "false"
              initial_world) as [H1 H2]; [apply sample_can_build|discriminate|].
  split.
  - apply H1. vm_compute. reflexivity.
  - apply H2; vm_compute; reflexivity.
Defined.

(** ** The shape of an identifier *)

Section IdShape.
Local Open Scope N_scope.

Lemma has_shape_append (p1 p2 s1 s2 : string) :
  has_shape p1 s1 = true -> has_shape p2 s2 = true ->
  has_shape (p1 +:+ p2) (s1 +:+ s2) = true.
Proof.
  revert s1. induction p1 as [|c p1 IH]; intros [|x s1]; simpl; try done.
  intros H1 H2. apply andb_prop in H1 as [Hc H1]. rewrite Hc. simpl. by apply IH.
Qed.

Lemma hex_digit_lower (d : N) : d < 16 -> is_lower_hex (Uuid.hex_digit d) = true.
Proof.
  intros H. rewrite <- (N2Nat.id d) in *.
  assert (Hn : (N.to_nat d < 16)%nat) by lia. revert Hn. generalize (N.to_nat d).
  intros n Hn. do 16 (destruct n as [|n]; [vm_compute; done|]). lia.
Qed.

Lemma land_15_lt (x : N) : N.land x 15 < 16.
Proof. change 15 with (N.ones 4). rewrite N.land_ones. by apply N.mod_lt. Qed.

(** [k] digits in lower case. *)
Lemma hex_shape (k : nat) (x : N) :
  has_shape (string_of_list_ascii (repeat "h"%char k)) (Uuid.hex k x) = true.
Proof.
  induction k as [|k IH]; [done|].
  cbn [repeat string_of_list_ascii Uuid.hex has_shape].
  change (Ascii.eqb "h" "h") with true. cbv iota.
  rewrite hex_digit_lower by apply land_15_lt. exact IH.
Qed.

(** The bits that [UUID(bytes=..., version=5)] sets. *)
Lemma set_version_bits (x : N) :
  let u := Uuid.set_version 5 x in
  N.testbit u 76 = true /\ N.testbit u 77 = false /\
  N.testbit u 78 = true /\ N.testbit u 79 = false /\
  N.testbit u 62 = false /\ N.testbit u 63 = true.
Proof.
  unfold Uuid.set_version. cbv zeta.
  repeat split; repeat rewrite ?N.lor_spec, ?N.ldiff_spec;
    match goal with |- context [N.testbit x ?n] => destruct (N.testbit x n) end;
    vm_compute; reflexivity.
Qed.

(** The version digit of a UUID made by [uuid5]. *)
Lemma uuid5_version_digit (namespace : Uuid.UUID) (name : string) :
  N.land (N.shiftr (N.shiftr (Uuid.uuid5 namespace name) 64) (4 * N.of_nat 3)) 15 = 5.
Proof.
  unfold Uuid.uuid5.
  destruct (set_version_bits (Sha1.be_word (take 16 (Sha1.digest
              (Sha1.be_bytes 16 namespace ++ Uuid.bytes_of_string name)))))
    as (H76 & H77 & H78 & H79 & _).
  revert H76 H77 H78 H79. cbv zeta. generalize (Uuid.set_version 5 (Sha1.be_word (take 16
    (Sha1.digest (Sha1.be_bytes 16 namespace ++ Uuid.bytes_of_string name))))).
  intros u H76 H77 H78 H79. rewrite N.shiftr_shiftr.
  change (64 + 4 * N.of_nat 3) with 76.
  apply N.bits_inj. intros i. rewrite N.land_spec, N.shiftr_spec'.
  destruct (N.lt_ge_cases i 4) as [Hi|Hi].
  - assert (Hc : i = 0 \/ i = 1 \/ i = 2 \/ i = 3) by lia.
    destruct Hc as [-> | [-> | [-> | ->]]].
    + change (0 + 76) with 76. by rewrite H76.
    + change (1 + 76) with 77. by rewrite H77.
    + change (2 + 76) with 78. by rewrite H78.
    + change (3 + 76) with 79. by rewrite H79.
  - rewrite (bits_lt_pow2 15 4 i), (bits_lt_pow2 5 4 i) by (done || lia).
    apply andb_false_r.
Qed.

(** The variant digit of a UUID made by [uuid5]. *)
Lemma uuid5_variant_digit (namespace : Uuid.UUID) (name : string) :
  existsb (Ascii.eqb (Uuid.hex_digit
             (N.land (N.shiftr (N.shiftr (Uuid.uuid5 namespace name) 48) (4 * N.of_nat 3)) 15)))
          ["8"; "9"; "a"; "b"]%char = true.
Proof.
  unfold Uuid.uuid5.
  destruct (set_version_bits (Sha1.be_word (take 16 (Sha1.digest
              (Sha1.be_bytes 16 namespace ++ Uuid.bytes_of_string name)))))
    as (_ & _ & _ & _ & H62 & H63).
  revert H62 H63. cbv zeta. generalize (Uuid.set_version 5 (Sha1.be_word (take 16
    (Sha1.digest (Sha1.be_bytes 16 namespace ++ Uuid.bytes_of_string name))))).
  intros u H62 H63. rewrite N.shiftr_shiftr.
  change (48 + 4 * N.of_nat 3) with 60.
  assert (H2 : N.testbit (N.land (N.shiftr u 60) 15) 2 = false).
  { rewrite N.land_spec, N.shiftr_spec'. change (2 + 60) with 62. by rewrite H62. }
  assert (H3 : N.testbit (N.land (N.shiftr u 60) 15) 3 = true).
  { rewrite N.land_spec, N.shiftr_spec'. change (3 + 60) with 63. by rewrite H63. }
  pose proof (land_15_lt (N.shiftr u 60)) as Hlt.
  revert H2 H3 Hlt. generalize (N.land (N.shiftr u 60) 15). intros d H2 H3 Hlt.
  rewrite <- (N2Nat.id d) in *.
  assert (Hn : (N.to_nat d < 16)%nat) by lia. clear Hlt. revert H2 H3 Hn.
  generalize (N.to_nat d). intros n H2 H3 Hn.
  do 16 (destruct n as [|n];
         [first [vm_compute; reflexivity
                | vm_compute in H2; discriminate
                | vm_compute in H3; discriminate]|]).
  lia.
Qed.

End IdShape.

(** The shape of what [generate_unique_id] returns. *)
Lemma generate_unique_id_is_indicator_id
    (indicator_type : string) (indicator_value : PyVal) (threat_source : string) :
  is_indicator_id (generate_unique_id indicator_type indicator_value threat_source) = true.
Proof.
  unfold is_indicator_id, generate_unique_id. cbv zeta.
  set (u := Uuid.uuid5 _ _).
  change "indicator--hhhhhhhh-hhhh-5hhh-vhhh-hhhhhhhhhhhh"
    with ("indicator--" +:+ (string_of_list_ascii (repeat "h"%char 8) +:+ "-" +:+
          string_of_list_ascii (repeat "h"%char 4) +:+ "-" +:+
          String "5" (string_of_list_ascii (repeat "h"%char 3)) +:+ "-" +:+
          String "v" (string_of_list_ascii (repeat "h"%char 3)) +:+ "-" +:+
          string_of_list_ascii (repeat "h"%char 12))).
  apply has_shape_append; [reflexivity|]. unfold Uuid.to_string.
  apply has_shape_append; [apply hex_shape|].
  apply (has_shape_append "-" _ "-"); [reflexivity|].
  apply has_shape_append; [apply hex_shape|].
  apply (has_shape_append "-" _ "-"); [reflexivity|].
  apply has_shape_append.
  { change (Uuid.hex 4 ?x)
      with (String (Uuid.hex_digit (N.land (N.shiftr x (4 * N.of_nat 3)) 15))
                   (Uuid.hex 3 x)).
    unfold u. rewrite uuid5_version_digit. cbn [has_shape].
    change (Ascii.eqb "5" "h") with false. change (Ascii.eqb "5" "v") with false.
    cbv iota. change (Ascii.eqb "5" (Uuid.hex_digit 5)) with true.
    apply (hex_shape 3). }
  apply (has_shape_append "-" _ "-"); [reflexivity|].
  apply has_shape_append.
  { change (Uuid.hex 4 ?x)
      with (String (Uuid.hex_digit (N.land (N.shiftr x (4 * N.of_nat 3)) 15))
                   (Uuid.hex 3 x)).
    cbn [has_shape]. change (Ascii.eqb "v" "h") with false.
    change (Ascii.eqb "v" "v") with true. cbv iota.
    unfold u. rewrite uuid5_variant_digit. apply (hex_shape 3). }
  apply (has_shape_append "-" _ "-"); [reflexivity|]. apply hex_shape.
Qed.

Lemma has_shape_length (p s : string) :
  has_shape p s = true -> String.length s = String.length p.
Proof.
  revert s. induction p as [|c p IH]; intros [|x s]; simpl; try done.
  intros H. apply andb_prop in H as [_ H]. f_equal. by apply IH.
Qed.

(** X19. Every identifier that [generate_unique_id] returns, whatever its
    arguments, is the text [indicator--] followed by a UUID in its
    canonical form: 8, 4, 4, 4 and 12 hexadecimal digits in lower case
    between dashes, 47 characters in all, the version digit being 5 and
    the variant digit one of 8, 9, a and b. *)
Theorem generate_unique_id_shape
    (indicator_type : string) (indicator_value : PyVal) (threat_source : string) :
  is_indicator_id (generate_unique_id indicator_type indicator_value threat_source) = true /\
  String.length (generate_unique_id indicator_type indicator_value threat_source) = 47.
Proof.
  pose proof (generate_unique_id_is_indicator_id indicator_type indicator_value
                threat_source) as Hshape.
  split; [exact Hshape|].
  unfold is_indicator_id in Hshape. rewrite (has_shape_length _ _ Hshape). reflexivity.
Qed.

(** ** Addresses in dotted decimal form *)

Section DottedQuad.
Import IpAddress.

Lemma str_contains_append (c : ascii) (a b : string) :
  str_contains c (a +:+ b) = str_contains c a || str_contains c b.
Proof.
  induction a as [|x a IH]; [done|]. rewrite append_cons. cbn [str_contains].
  by rewrite IH, orb_assoc.
Qed.

Lemma split_on_none (c : ascii) (a : string) :
  str_contains c a = false -> split_on c a = [a].
Proof.
  induction a as [|x a IH]; [done|]. cbn [str_contains split_on].
  intros H. apply orb_false_elim in H as [Hx Ha]. rewrite Hx, (IH Ha). reflexivity.
Qed.

Lemma split_on_append (c : ascii) (a b : string) :
  str_contains c a = false ->
  split_on c (a +:+ String c b) = a :: split_on c b.
Proof.
  induction a as [|x a IH].
  - intros _. change (EmptyString +:+ ?s) with s. cbn [split_on].
    by rewrite Ascii.eqb_refl.
  - cbn [str_contains]. intros H. apply orb_false_elim in H as [Hx Ha].
    rewrite append_cons. cbn [split_on]. rewrite Hx, (IH Ha). reflexivity.
Qed.

Lemma partition_on_none (c : ascii) (a : string) :
  str_contains c a = false -> partition_on c a = (a, None).
Proof.
  induction a as [|x a IH]; [done|]. cbn [str_contains partition_on].
  intros H. apply orb_false_elim in H as [Hx Ha]. rewrite Hx, (IH Ha). reflexivity.
Qed.

Lemma append_char (c : ascii) (s : string) : String c EmptyString +:+ s = String c s.
Proof. reflexivity. Qed.

Lemma append_assoc (a b c : string) : (a +:+ b) +:+ c = a +:+ (b +:+ c).
Proof. induction a as [|x a IH]; [done|]. rewrite !append_cons. by rewrite IH. Qed.

Lemma append_not_empty (a b : string) :
  String.eqb a EmptyString = false -> String.eqb (a +:+ b) EmptyString = false.
Proof. by destruct a. Qed.

(** The facts about the text of one number, by enumeration. *)
Lemma octet_text (z : Z) :
  (0 <= z < 1000)%Z ->
  let s := str_of_Z z in
  parse_octet s = (if is_octet z then Some (Z.to_N z) else None) /\
  parse_octet (String "0" s) = None /\
  (forall c, In c ["."; "/"; ":"; "%"]%char -> str_contains c s = false) /\
  String.eqb s EmptyString = false.
Proof.
  assert (H : all_from octet_text_ok 0 (Z.to_nat 1000) = true) by (vm_compute; reflexivity).
  intros Hz s. pose proof (all_from_spec _ _ _ H z ltac:(lia)) as Hok.
  unfold octet_text_ok in Hok. cbv zeta in Hok. fold s in Hok.
  repeat (apply andb_prop in Hok as [Hok ?]).
  apply bool_decide_eq_true in Hok.
  repeat match goal with
         | H : bool_decide _ = true |- _ => apply bool_decide_eq_true in H
         | H : negb _ = true |- _ => apply negb_true_iff in H
         end.
  split; [done|]. split; [done|]. split; [|done].
  intros c [<-|[<-|[<-|[<-|[]]]]]; done.
Qed.

(** The parts of an address in dotted decimal form, after a prefix [p] of
    its first number. *)
Lemma dotted_quad_parts (p : string) (a b c d : Z) :
  (forall x, In x ["."; "/"; ":"; "%"]%char -> str_contains x p = false) ->
  (0 <= a < 1000)%Z -> (0 <= b < 1000)%Z -> (0 <= c < 1000)%Z -> (0 <= d < 1000)%Z ->
  split_on "." (p +:+ dotted_quad a b c d)
    = [p +:+ str_of_Z a; str_of_Z b; str_of_Z c; str_of_Z d] /\
  (forall x, In x ["/"; ":"; "%"]%char ->
     str_contains x (p +:+ dotted_quad a b c d) = false) /\
  String.eqb (p +:+ dotted_quad a b c d) EmptyString = false.
Proof.
  intros Hp Ha Hb Hc Hd.
  destruct (octet_text a Ha) as (_ & _ & Hca & Hea).
  destruct (octet_text b Hb) as (_ & _ & Hcb & _).
  destruct (octet_text c Hc) as (_ & _ & Hcc & _).
  destruct (octet_text d Hd) as (_ & _ & Hcd & _).
  cbv zeta in *. unfold dotted_quad. split; [|split].
  - rewrite !append_char, <- (append_assoc p (str_of_Z a)).
    rewrite (split_on_append "." (p +:+ str_of_Z a))
      by (rewrite str_contains_append, Hp, Hca by (cbn; auto); reflexivity).
    rewrite !split_on_append, split_on_none; try reflexivity;
      first [apply Hcb | apply Hcc | apply Hcd]; cbn; auto.
  - intros x Hx. rewrite !str_contains_append.
    rewrite (Hp x), (Hca x), (Hcb x), (Hcc x), (Hcd x) by (cbn in *; tauto).
    destruct Hx as [<-|[<-|[<-|[]]]]; reflexivity.
  - destruct p as [|x p]; [exact (append_not_empty (str_of_Z a) _ Hea) | reflexivity].
Qed.

End DottedQuad.

(** X20. [check_ip] on an address in dotted decimal form, [a.b.c.d] with
    four numbers below 1000 written without sign or leading zero: the
    result is [ipv4-addr] when the four numbers are octets (at most 255),
    and [None] as soon as one of them is larger.  A zero written before
    the first number makes the address none, whatever the numbers. *)
Theorem check_ip_dotted_quad (a b c d : Z) :
  (0 <= a < 1000)%Z -> (0 <= b < 1000)%Z -> (0 <= c < 1000)%Z -> (0 <= d < 1000)%Z ->
  check_ip (PyStr (dotted_quad a b c d))
  = (if is_octet a && is_octet b && is_octet c && is_octet d
     then Some "ipv4-addr" else None) /\
  check_ip (PyStr ("0" +:+ dotted_quad a b c d)) = None.
Proof.
  intros Ha Hb Hc Hd.
  destruct (octet_text a Ha) as (Hpa & Hza & _).
  destruct (octet_text b Hb) as (Hpb & _).
  destruct (octet_text c Hc) as (Hpc & _).
  destruct (octet_text d Hd) as (Hpd & _).
  cbv zeta in *.
  assert (Hv6 : forall s,
             (forall x, In x ["/"; ":"; "%"]%char -> IpAddress.str_contains x s = false) ->
             String.eqb s EmptyString = false ->
             IpAddress.make_v6 (PyStr s) = None).
  { intros s Hnone Hne. unfold IpAddress.make_v6. cbn [IpAddress.as_int py_str].
    unfold IpAddress.v6_of_string, IpAddress.split_scope_id.
    rewrite (Hnone "/"%char) by (cbn; auto).
    rewrite (partition_on_none "%" _ (Hnone "%"%char ltac:(cbn; auto))).
    cbn [mbind option_bind]. unfold IpAddress.v6_int_from_string.
    rewrite Hne, (split_on_none ":" _ (Hnone ":"%char ltac:(cbn; auto))).
    reflexivity. }
  split.
  - destruct (dotted_quad_parts EmptyString a b c d ltac:(done) Ha Hb Hc Hd)
      as (Hparts & Hnone & Hne).
    change (EmptyString +:+ ?s) with s in *.
    unfold check_ip, IpAddress.ip_address. rewrite (Hv6 _ Hnone Hne).
    unfold IpAddress.make_v4. cbn [IpAddress.as_int py_str].
    unfold IpAddress.v4_of_string, IpAddress.v4_int_from_string.
    rewrite (Hnone "/"%char) by (cbn; auto). rewrite Hne, Hparts.
    cbn [length Nat.eqb negb mapM]. rewrite Hpa, Hpb, Hpc, Hpd.
    destruct (is_octet a), (is_octet b), (is_octet c), (is_octet d); reflexivity.
  - destruct (dotted_quad_parts "0" a b c d) as (Hparts & Hnone & Hne); try done.
    { intros x [<-|[<-|[<-|[<-|[]]]]]; reflexivity. }
    unfold check_ip, IpAddress.ip_address. rewrite (Hv6 _ Hnone Hne).
    unfold IpAddress.make_v4. cbn [IpAddress.as_int py_str].
    unfold IpAddress.v4_of_string, IpAddress.v4_int_from_string.
    rewrite (Hnone "/"%char) by (cbn; auto). rewrite Hne, Hparts.
    cbn [length Nat.eqb negb mapM]. rewrite append_char, Hza. reflexivity.
Qed.

Lemma check_ip_dotted_quad_witness :
  check_ip (PyStr "192.168.0.1") = Some "ipv4-addr" /\
  check_ip (PyStr "192.168.0.256") = None /\
  check_ip (PyStr "010.1.1.1") = None.
Proof.
  split; [|split].
  - apply (check_ip_dotted_quad 192 168 0 1); lia.
  - apply (check_ip_dotted_quad 192 168 0 256); lia.
  - apply (check_ip_dotted_quad 10 1 1 1); lia.
Defined.

(** ** Reports with missing fields, and windows that leave the calendar *)

(** X21. What [get_static_data] makes of a report that lacks a field.
    Without [webid] the description ends in [/analysis/None] and the first
    label reads [web_id: None]; without [threatname], [classification] or
    [detection] the label of the field is empty after its colon; a
    missing [detection] is looked up in [CONFIDENCE] as the empty text;
    and the confidence is 0 for a text that [CONFIDENCE] does not list.
    There are always four labels. *)
Theorem missing_report_fields
    (cfg : Config) (env : Env) (unique_uuid : string) (analysis_data : gmap string PyVal)
    (pattern : string) (ioc_value : PyVal) (ioc_type : string)
    (w : World) (ind : Indicator) (w' : World) :
  get_static_data cfg env unique_uuid analysis_data pattern ioc_value ioc_type w
    = (Ok ind, w') ->
  length (ind_labels ind) = 4 /\
  (analysis_data !! "webid" = None ->
   ind_description ind = "Analysis URL: " +:+ BASE_URL cfg +:+ "/analysis/None" /\
   ind_labels ind !! 0 = Some "web_id: None") /\
  (analysis_data !! "threatname" = None -> ind_labels ind !! 1 = Some "threat_names: ") /\
  (analysis_data !! "classification" = None ->
   ind_labels ind !! 2 = Some "classification: ") /\
  (analysis_data !! "detection" = None ->
   ind_labels ind !! 3 = Some "detection: " /\
   ind_confidence ind = default 0%Z (CONFIDENCE cfg !! EmptyString)) /\
  (forall s, analysis_data !! "detection" = Some (PyStr s) -> CONFIDENCE cfg !! s = None ->
             ind_confidence ind = 0%Z).
Proof.
  intros Hrun.
  destruct (get_static_data_cases cfg env analysis_data unique_uuid pattern ioc_value
              ioc_type w) as [(e & _ & E)|[[_ E]|[_ E]]];
    cbv zeta in E; rewrite E in Hrun; inversion Hrun; subst.
  unfold static_data_at.
  cbn [ind_labels ind_description ind_confidence length lookup list_lookup].
  unfold dict_get, dict_get_default, confidence_of.
  split; [reflexivity|]. split; [|split; [|split; [|split]]].
  - intros ->. split; reflexivity.
  - intros ->. reflexivity.
  - intros ->. reflexivity.
  - intros ->. split; reflexivity.
  - intros s -> Hs. change (default (PyStr EmptyString) (Some (PyStr s))) with (PyStr s).
    cbv beta iota. by rewrite Hs.
Qed.

Lemma missing_report_fields_witness :
  exists ind w',
    get_static_data sample_cfg (sample_env 200) "indicator--x" ∅ "[url:value = 'x']"
      (PyStr "x") "url" initial_world = (Ok ind, w') /\
    ind_description ind = "Analysis URL: https://sandbox.example/analysis/None" /\
    ind_labels ind = ["web_id: None"; "threat_names: "; "classification: "; "detection: "] /\
    ind_confidence ind = 0%Z.
Proof.
  assert (E : exists ind w',
             get_static_data sample_cfg (sample_env 200) "indicator--x" ∅ "[url:value = 'x']"
               (PyStr "x") "url" initial_world = (Ok ind, w') /\
             ind_labels ind
             = ["web_id: None"; "threat_names: "; "classification: "; "detection: "]).
  { eexists _, _. split; [vm_compute; reflexivity | reflexivity]. }
  destruct E as (ind & w' & Hrun & Hl). exists ind, w'. split; [exact Hrun|].
  destruct (missing_report_fields _ _ _ _ _ _ _ _ _ _ Hrun)
    as (_ & Hweb & _ & _ & Hdet & _).
  destruct (Hweb eq_refl) as [Hd _]. destruct (Hdet eq_refl) as [_ Hc].
  split; [rewrite Hd; reflexivity|]. split; [exact Hl|]. rewrite Hc. reflexivity.
Defined.

Section Overflow.
Variable cfg : Config.
Variable env : Env.
Variable analysis_data : gmap string PyVal.
Hypothesis overflow :
  forall n, DateTime.add_days (utcnow env n) (VALID_UNTIL cfg) = None.

Lemma get_static_data_overflow
    (unique_uuid pattern : string) (ioc_value : PyVal) (ioc_type : string) (w : World) :
  get_static_data cfg env unique_uuid analysis_data pattern ioc_value ioc_type w
  = (Raise OverflowError, clock_read 1 w).
Proof.
  unfold get_static_data. cbv zeta. rewrite bind_run, now_run. cbv beta iota zeta.
  rewrite overflow, bind_run. reflexivity.
Qed.

(** The loops of the domain and URL functions when no expiry date can be
    computed. *)
Lemma overflow_loop (body : Entry -> M unit) (category : string) :
  (forall d w,
     body (EntryDict d) w
     = if is_malicious d
       then (Ok tt, with_events (clock_read 1 w)
                      [EvLog ERROR (MsgProcessingError category OverflowError)])
       else (Ok tt, w)) ->
  forall (ds : list (gmap string PyVal)) (w : World),
    py_for (map EntryDict ds) body w
    = (Ok tt,
       with_events (clock_read (length (List.filter is_malicious ds)) w)
         (map (fun _ => EvLog ERROR (MsgProcessingError category OverflowError))
              (List.filter is_malicious ds))).
Proof.
  intros Hbody ds. induction ds as [|d ds IH]; intros w.
  - cbn [map List.filter length py_for]. rewrite with_events_nil. by destruct w.
  - cbn [map List.filter]. rewrite py_for_cons, Hbody.
    destruct (is_malicious d); [|apply IH].
    rewrite IH. cbn [map length]. f_equal.
    unfold with_events, clock_read. cbn [now_calls post_calls events indicators].
    rewrite <- app_assoc. f_equal. lia.
Qed.

End Overflow.

(** X22. When the validity window leaves the calendar (the clock plus
    [VALID_UNTIL] days is past the year 9999 or before the year 1, or
    [VALID_UNTIL] exceeds 999999999 days either way), no indicator is ever
    built: for each entry whose [malicious] is true
    [add_domain_indicators] and [add_url_indicators] read the clock once
    and log an [OverflowError] as the error of the entry, and they return
    the empty list. *)
Theorem validity_window_overflow
    (cfg : Config) (env : Env) (analysis_data : gmap string PyVal)
    (entries : list (gmap string PyVal)) (w : World) :
  let failures category :=
    map (fun _ : gmap string PyVal => EvLog ERROR (MsgProcessingError category OverflowError))
        (List.filter is_malicious entries) in
  (forall n, DateTime.add_days (utcnow env n) (VALID_UNTIL cfg) = None) ->
  (exists w',
     add_domain_indicators cfg env (map EntryDict entries) analysis_data w = (Ok [], w') /\
     events w' = events w ++ failures "domain" /\
     now_calls w' = length (List.filter is_malicious entries) + now_calls w) /\
  (exists w',
     add_url_indicators cfg env (map EntryDict entries) analysis_data w = (Ok [], w') /\
     events w' = events w ++ failures "URL" /\
     now_calls w' = length (List.filter is_malicious entries) + now_calls w).
Proof.
  intros failures Hover. split.
  - eexists. split; [|split].
    + unfold add_domain_indicators. rewrite bind_run.
      change (indicators_reset w) with (Ok tt, snd (indicators_reset w)).
      cbv beta iota zeta. rewrite bind_run.
      rewrite (overflow_loop _ "domain"); [reflexivity|].
      intros d w0. rewrite add_domain_indicator_dict.
      destruct (is_malicious d); [|reflexivity].
      unfold try_except. rewrite bind_run, get_static_data_overflow by done.
      reflexivity.
    + reflexivity.
    + reflexivity.
  - eexists. split; [|split].
    + unfold add_url_indicators. rewrite bind_run.
      change (indicators_reset w) with (Ok tt, snd (indicators_reset w)).
      cbv beta iota zeta. rewrite bind_run.
      rewrite (overflow_loop _ "URL"); [reflexivity|].
      intros d w0. rewrite add_url_indicator_dict. cbv zeta.
      destruct (is_malicious d); [|reflexivity].
      unfold try_except. rewrite bind_run, get_static_data_overflow by done.
      reflexivity.
    + reflexivity.
    + reflexivity.
Qed.

Lemma validity_window_overflow_witness :
  exists w',
    add_domain_indicators sample_cfg last_day_env [EntryDict sample_domain]
      sample_analysis initial_world = (Ok [], w') /\
    events w' = [EvLog ERROR (MsgProcessingError "domain" OverflowError)].
Proof.
  destruct (validity_window_overflow sample_cfg last_day_env sample_analysis
              [sample_domain] initial_world) as [(w' & Hrun & He & _) _].
  - intros n. vm_compute. reflexivity.
  - exists w'. split; [exact Hrun|]. rewrite He. cbn [List.filter].
    replace (is_malicious sample_domain) with true by (vm_compute; reflexivity).
    reflexivity.
Defined.

(** ** The text of a verdict *)

Section VerdictText.
Import Json.

Lemma bytes_of_string_append (a b : string) :
  Uuid.bytes_of_string (a +:+ b) = Uuid.bytes_of_string a ++ Uuid.bytes_of_string b.
Proof.
  unfold Uuid.bytes_of_string. induction a as [|c a IH]; [done|].
  rewrite append_cons. cbn [list_ascii_of_string map app]. by rewrite IH.
Qed.

Lemma string_of_bytes (s : string) :
  string_of_list_ascii (map ascii_of_N (Uuid.bytes_of_string s)) = s.
Proof.
  unfold Uuid.bytes_of_string. induction s as [|c s IH]; [done|].
  cbn [list_ascii_of_string map string_of_list_ascii].
  by rewrite ascii_N_embedding, IH.
Qed.

Lemma all_spaces_bytes (s : string) :
  all_spaces s = true -> Forall (fun n => is_space_code n = true) (Uuid.bytes_of_string s).
Proof.
  unfold all_spaces, Uuid.bytes_of_string. induction s as [|c s IH]; [constructor|].
  cbn [IpAddress.str_all list_ascii_of_string map]. intros H.
  apply andb_prop in H as [Hc Hs]. constructor; [done | by apply IH].
Qed.

(** A space at the head is dropped, from either end of the text. *)
Lemma drop_space_code (n : N) (bs : list N) :
  is_space_code n = true ->
  drop_space unicode_spaces (n :: bs) = Some bs /\
  drop_space (map (@rev N) unicode_spaces) (n :: bs) = Some bs.
Proof.
  unfold is_space_code. cbn [existsb]. intros H.
  repeat (apply orb_prop in H as [H|H]; [apply N.eqb_eq in H; subst n; by split|]).
  done.
Qed.

(** A letter of [true] or [false] at the head is not. *)
Lemma drop_space_letter (c : ascii) (bs : list N) :
  In (lower_char c) ["t"; "e"; "f"]%char ->
  drop_space unicode_spaces (N_of_ascii c :: bs) = None /\
  drop_space (map (@rev N) unicode_spaces) (N_of_ascii c :: bs) = None.
Proof.
  intros H. assert (Hc : In c ["t"; "T"; "e"; "E"; "f"; "F"]%char).
  { revert H. destruct c as [[] [] [] [] [] [] [] []]; vm_compute; intros H;
      repeat (destruct H as [H|H]; [try discriminate H|]); try done; tauto. }
  cbn [In] in Hc. repeat (destruct Hc as [<-|Hc]; [by split|]). done.
Qed.

Lemma lstrip_spaces (spaces : list (list N)) (l rest : list N) :
  (forall n bs, is_space_code n = true -> drop_space spaces (n :: bs) = Some bs) ->
  (forall fuel, lstrip fuel spaces rest = rest) ->
  Forall (fun n => is_space_code n = true) l ->
  forall fuel, length l <= fuel -> lstrip fuel spaces (l ++ rest) = rest.
Proof.
  intros Hspace Hrest Hl. induction Hl as [|n l Hn _ IH]; intros fuel Hfuel.
  - apply Hrest.
  - destruct fuel as [|fuel]; [cbn in Hfuel; lia|].
    cbn [app lstrip]. rewrite (Hspace n _ Hn). apply IH. cbn in Hfuel. lia.
Qed.

Lemma lstrip_stops (spaces : list (list N)) (n : N) (bs : list N) :
  drop_space spaces (n :: bs) = None -> forall fuel, lstrip fuel spaces (n :: bs) = n :: bs.
Proof. intros H [|fuel]; [done|]. cbn [lstrip]. by rewrite H. Qed.

(** [strip] takes the white space off a text that begins and ends with a
    letter of [true] or [false]. *)
Lemma strip_padded (l r : string) (first last : ascii) (middle : string) :
  let s := String first (middle +:+ String last EmptyString) in
  all_spaces l = true -> all_spaces r = true ->
  In (lower_char first) ["t"; "e"; "f"]%char ->
  In (lower_char last) ["t"; "e"; "f"]%char ->
  strip (l +:+ s +:+ r) = s.
Proof.
  intros s Hl Hr Hfirst Hlast. unfold strip. cbv zeta.
  rewrite !bytes_of_string_append.
  set (core := N_of_ascii first :: Uuid.bytes_of_string middle ++ [N_of_ascii last]).
  assert (Hs : Uuid.bytes_of_string s = core).
  { unfold s, core. change (String first ?x) with (String first EmptyString +:+ x).
    rewrite !bytes_of_string_append. reflexivity. }
  assert (Hrev : rev core
                 = N_of_ascii last :: (rev (Uuid.bytes_of_string middle) ++ [N_of_ascii first])).
  { unfold core. cbn [rev]. rewrite rev_app_distr. reflexivity. }
  rewrite Hs.
  rewrite (lstrip_spaces unicode_spaces (Uuid.bytes_of_string l) (core ++ Uuid.bytes_of_string r)).
  - rewrite rev_app_distr.
    rewrite (lstrip_spaces (map (@rev N) unicode_spaces) (rev (Uuid.bytes_of_string r))
               (rev core)).
    + rewrite rev_involutive, <- Hs. apply string_of_bytes.
    + intros n bs Hn. apply (drop_space_code n bs Hn).
    + rewrite Hrev. apply lstrip_stops. apply (drop_space_letter last _ Hlast).
    + apply Forall_rev. by apply all_spaces_bytes.
    + rewrite length_app, !length_rev. lia.
  - intros n bs Hn. apply (drop_space_code n bs Hn).
  - unfold core. cbn [app]. apply lstrip_stops. apply (drop_space_letter first _ Hfirst).
  - by apply all_spaces_bytes.
  - rewrite !length_app. lia.
Qed.

Lemma lower_true_false (s : string) :
  lower s = "true" \/ lower s = "false" ->
  exists first middle last,
    s = String first (middle +:+ String last EmptyString) /\
    In (lower_char first) ["t"; "e"; "f"]%char /\
    In (lower_char last) ["t"; "e"; "f"]%char.
Proof.
  intros [H|H].
  - destruct s as [|c1 [|c2 [|c3 [|c4 [|]]]]]; try discriminate H.
    cbn [lower] in H. inversion H as [[H1 H2 H3 H4]].
    exists c1, (String c2 (String c3 EmptyString)), c4.
    rewrite H1, H4. split; [reflexivity|]. cbn. tauto.
  - destruct s as [|c1 [|c2 [|c3 [|c4 [|c5 [|]]]]]]; try discriminate H.
    cbn [lower] in H. inversion H as [[H1 H2 H3 H4 H5]].
    exists c1, (String c2 (String c3 (String c4 EmptyString))), c5.
    rewrite H1, H5. split; [reflexivity|]. cbn. tauto.
Qed.

End VerdictText.

(** X23. [str_to_bool] reads the words [true] and [false] in any letter case
    and with any ASCII white space before and after: such a text gives
    [True] or [False] without an exception. *)
Theorem verdict_text_is_normalised (l s r : string) (w : World) :
  all_spaces l = true -> all_spaces r = true ->
  Json.lower s = "true" \/ Json.lower s = "false" ->
  str_to_bool (PyStr (l +:+ s +:+ r)) w
  = (Ok (Json.Bool (String.eqb (Json.lower s) "true")), w).
Proof.
  intros Hl Hr Hs.
  destruct (lower_true_false s Hs) as (first & middle & last & E & Hfirst & Hlast).
  unfold str_to_bool. rewrite E, (strip_padded l r first last middle Hl Hr Hfirst Hlast).
  rewrite <- E. destruct Hs as [-> | ->]; reflexivity.
Qed.

Lemma verdict_text_is_normalised_witness :
  str_to_bool (PyStr "  True ") initial_world = (Ok (Json.Bool true), initial_world) /\
  str_to_bool (PyStr "FALSE") initial_world = (Ok (Json.Bool false), initial_world).
Proof.
  split.
  - apply (verdict_text_is_normalised "  " "True" " " initial_world);
      [reflexivity | reflexivity | by left].
  - apply (verdict_text_is_normalised EmptyString "FALSE" EmptyString initial_world);
      [reflexivity | reflexivity | by right].
Defined.

(** ** Every indicator returned is well formed *)

Section WellFormed.
Variable cfg : Config.
Variable env : Env.
Variable analysis_data : gmap string PyVal.

Lemma get_static_data_well_formed
    (unique_uuid pattern : string) (ioc_value : PyVal) (ioc_type : string)
    (w : World) (ind : Indicator) (w' : World) :
  is_indicator_id unique_uuid = true -> In ioc_type ioc_types ->
  get_static_data cfg env unique_uuid analysis_data pattern ioc_value ioc_type w
    = (Ok ind, w') ->
  well_formed ind.
Proof.
  intros Hid Hty Hrun.
  destruct (get_static_data_cases cfg env analysis_data unique_uuid pattern ioc_value
              ioc_type w) as [(e & _ & E)|[[_ E]|[_ E]]];
    cbv zeta in E; rewrite E in Hrun; inversion Hrun; subst.
  unfold well_formed, static_data_at. cbn. repeat split; try done. by exists ioc_type.
Qed.

(** The construction of one indicator under its [try] keeps the list well
    formed. *)
Lemma build_and_append_well_formed
    (category indicator_type pattern : string) (ioc_value : PyVal) (ioc_type : string)
    (w : World) (r : Result unit) (w' : World) :
  In ioc_type ioc_types ->
  try_except
    (indicator_data ←
       get_static_data cfg env
         (generate_unique_id indicator_type ioc_value default_threat_source)
         analysis_data pattern ioc_value ioc_type;
     indicators_append indicator_data)
    (fun err => log ERROR (MsgProcessingError category err)) w = (r, w') ->
  Forall well_formed (indicators w) -> Forall well_formed (indicators w').
Proof.
  intros Hty Hrun Hinv.
  destruct (build_and_append_cases cfg env analysis_data category
              (generate_unique_id indicator_type ioc_value default_threat_source)
              pattern ioc_value ioc_type w) as [(ind & Hb & E)|(err & k & E)];
    cbv zeta in E; rewrite E in Hrun; inversion Hrun; subst.
  - cbn [appended indicators clock_read]. apply Forall_app. split; [exact Hinv|].
    constructor; [|constructor].
    eapply get_static_data_well_formed;
      [apply generate_unique_id_is_indicator_id | exact Hty | exact Hb].
  - exact Hinv.
Qed.

Lemma add_domain_indicator_well_formed (entry : Entry) (w : World) (r : Result unit)
    (w' : World) :
  add_domain_indicator cfg env analysis_data entry w = (r, w') ->
  Forall well_formed (indicators w) -> Forall well_formed (indicators w').
Proof.
  destruct entry as [d|v]; [|by inversion 1; subst].
  rewrite add_domain_indicator_dict. destruct (is_malicious d); [|by inversion 1; subst].
  apply build_and_append_well_formed. cbn. tauto.
Qed.

Lemma add_url_indicator_well_formed (entry : Entry) (w : World) (r : Result unit)
    (w' : World) :
  add_url_indicator cfg env analysis_data entry w = (r, w') ->
  Forall well_formed (indicators w) -> Forall well_formed (indicators w').
Proof.
  destruct entry as [d|v]; [|by inversion 1; subst].
  rewrite add_url_indicator_dict. cbv zeta.
  destruct (is_malicious d); [|by inversion 1; subst].
  apply build_and_append_well_formed. cbn. tauto.
Qed.

Lemma add_ip_indicator_well_formed (entry : Entry) (w : World) (r : Result unit)
    (w' : World) :
  add_ip_indicator cfg env analysis_data entry w = (r, w') ->
  Forall well_formed (indicators w) -> Forall well_formed (indicators w').
Proof.
  destruct entry as [d|v]; [|by inversion 1; subst].
  pose proof (str_to_bool_verdict (dict_get d "@malicious") w) as Hv.
  destruct (verdict_of (dict_get d "@malicious")) as [b|] eqn:Hd.
  - destruct Hv as (j & Hv & Ht). destruct b.
    + rewrite (add_ip_indicator_malicious cfg env analysis_data d j w Hv Ht). cbv zeta.
      destruct (check_ip _) as [ip_type|] eqn:Hip; [|by inversion 1; subst].
      apply build_and_append_well_formed.
      unfold check_ip in Hip. destruct (IpAddress.ip_address _) as [[ip|ip sc]|];
        inversion Hip; subst; cbn; tauto.
    + rewrite (add_ip_indicator_benign cfg env analysis_data d j w Hv Ht).
      by inversion 1; subst.
  - rewrite (add_ip_indicator_undecoded cfg env analysis_data d w Hd). by inversion 1; subst.
Qed.

Lemma add_file_hash_indicator_well_formed (file : Entry) (filename : PyVal)
    (hash : string * string) (w : World) (r : Result unit) (w' : World) :
  add_file_hash_indicator cfg env analysis_data file filename hash w = (r, w') ->
  Forall well_formed (indicators w) -> Forall well_formed (indicators w').
Proof.
  destruct hash as [hash_type key]. destruct file as [d|v]; [|by inversion 1; subst].
  unfold add_file_hash_indicator. rewrite bind_run. cbn [entry_get]. rewrite ret_run.
  cbv beta iota zeta. destruct (py_bool (dict_get d key)); cbn [negb];
    [|by inversion 1; subst].
  rewrite bind_run. intros Hrun Hinv.
  match type of Hrun with
  | context [get_static_data ?c ?e ?u ?a ?p ?v ?t ?w0] =>
      destruct (get_static_data_cases c e a u p v t w0)
        as [(ex & _ & E)|[[_ E]|[_ E]]]; cbv zeta in E; rewrite E in Hrun
  end; inversion Hrun; subst; [|exact Hinv|exact Hinv].
  cbn [appended indicators clock_read]. apply Forall_app. split; [exact Hinv|].
  constructor; [|constructor].
  eapply get_static_data_well_formed;
    [apply generate_unique_id_is_indicator_id | | exact E]. cbn. tauto.
Qed.

Lemma add_file_indicator_well_formed (entry : Entry) (w : World) (r : Result unit)
    (w' : World) :
  add_file_indicator cfg env analysis_data entry w = (r, w') ->
  Forall well_formed (indicators w) -> Forall well_formed (indicators w').
Proof.
  destruct entry as [d|v]; [|by inversion 1; subst].
  unfold add_file_indicator. rewrite bind_run. cbn [entry_get]. rewrite ret_run.
  cbv beta iota zeta. destruct (py_bool (dict_get d "malicious")); cbn [negb];
    [|by inversion 1; subst].
  unfold try_except. rewrite bind_run. cbn [entry_get_default]. rewrite ret_run.
  cbv beta iota zeta. intros Hrun Hinv.
  destruct (py_for (HASH_TYPE_LIST cfg) _ w) as [[[]|e|] w1] eqn:E;
    pose proof (py_for_inv well_formed _ _ (add_file_hash_indicator_well_formed _ _)
                  _ _ _ E Hinv) as H1;
    inversion Hrun; subst; exact H1.
Qed.

End WellFormed.

(** X24. Whatever the entries, the report, the configuration, the clock and
    the state it is called in, every indicator that one of the four
    [add_*_indicators] functions returns is well formed: its type is
    [indicator], its versions are 2.1, its pattern type is [stix], it is
    not revoked, its identifier has the canonical shape of
    [indicator--] and a version-5 UUID, it has a single indicator type,
    which is one of [domain], [url], [file], [ipv4-addr] and [ipv6-addr],
    and it has four labels. *)
Theorem returned_indicators_are_well_formed
    (cfg : Config) (env : Env) (analysis_data : gmap string PyVal)
    (entries : list Entry) (w : World) (inds : list Indicator) (w' : World) :
  add_domain_indicators cfg env entries analysis_data w = (Ok inds, w') \/
  add_url_indicators cfg env entries analysis_data w = (Ok inds, w') \/
  add_file_indicators cfg env entries analysis_data w = (Ok inds, w') \/
  add_ip_indicators cfg env entries analysis_data w = (Ok inds, w') ->
  Forall well_formed inds.
Proof.
  assert (Hgen : forall body,
             (forall x w r w', body x w = (r, w') ->
                Forall well_formed (indicators w) -> Forall well_formed (indicators w')) ->
             (_ ← indicators_reset; _ ← py_for entries body; indicators_return) w
               = (Ok inds, w') -> Forall well_formed inds).
  { intros body Hbody Hrun. rewrite bind_run in Hrun. cbn [indicators_reset] in Hrun.
    rewrite bind_run in Hrun.
    destruct (py_for entries body _) as [[[]|e|] w1] eqn:E; [|done|done].
    apply (py_for_inv well_formed _ _ Hbody) in E; [|constructor].
    inversion Hrun; subst. exact E. }
  intros [H|[H|[H|H]]]; eapply Hgen; try exact H.
  - apply add_domain_indicator_well_formed.
  - apply add_url_indicator_well_formed.
  - apply add_file_indicator_well_formed.
  - apply add_ip_indicator_well_formed.
Qed.

Lemma returned_indicators_are_well_formed_witness :
  exists ind w',
    add_ip_indicators sample_cfg (sample_env 200) [EntryDict sample_good_ip]
      sample_analysis initial_world = (Ok [ind], w') /\
    well_formed ind.
Proof.
  assert (E : exists ind w',
             add_ip_indicators sample_cfg (sample_env 200) [EntryDict sample_good_ip]
               sample_analysis initial_world = (Ok [ind], w')).
  { eexists _, _. vm_compute. reflexivity. }
  destruct E as (ind & w' & E). exists ind, w'. split; [exact E|].
  apply (Forall_inv (l := [])).
  apply (returned_indicators_are_well_formed sample_cfg (sample_env 200) sample_analysis
           [EntryDict sample_good_ip] initial_world [ind] w').
  right. right. right. exact E.
Defined.

(** ** Addresses of eight groups *)

Section FullIPv6.
Import IpAddress.

Lemma hex_digit_not_separator (c x : ascii) :
  is_hex_digit c = true -> In x ["."; "/"; ":"; "%"]%char -> Ascii.eqb c x = false.
Proof.
  intros Hc Hx. cbn [In] in Hx.
  destruct Hx as [<-|[<-|[<-|[<-|[]]]]];
    destruct c as [[] [] [] [] [] [] [] []]; try reflexivity; vm_compute in Hc;
    discriminate Hc.
Qed.

Lemma hex_digits_no_separator (g : string) (x : ascii) :
  str_all is_hex_digit g = true -> In x ["."; "/"; ":"; "%"]%char ->
  str_contains x g = false.
Proof.
  intros Hg Hx. induction g as [|c g IH]; [done|].
  cbn [str_all] in Hg. apply andb_prop in Hg as [Hc Hg].
  cbn [str_contains]. by rewrite (hex_digit_not_separator c x Hc Hx), IH.
Qed.

Lemma hextet_facts (g : string) :
  is_hextet g = true ->
  (forall x, In x ["."; "/"; ":"; "%"]%char -> str_contains x g = false) /\
  String.eqb g EmptyString = false /\
  is_Some (parse_hextet g).
Proof.
  unfold is_hextet. intros H. apply andb_prop in H as [H H4].
  apply andb_prop in H as [Hd H1].
  split; [|split].
  - intros x Hx. by apply hex_digits_no_separator.
  - destruct g; [discriminate H1 | reflexivity].
  - unfold parse_hextet. rewrite Hd. cbn [negb].
    apply Nat.leb_le in H4. destruct (Nat.ltb_spec 4 (String.length g)); [lia|].
    destruct g; [discriminate H1|]. by eexists.
Qed.

Lemma shift_hextets_some (parts : list string) :
  Forall (fun g => is_Some (parse_hextet g)) parts ->
  forall acc, is_Some (shift_hextets parts acc).
Proof.
  unfold shift_hextets. intros H. induction H as [|g parts [h Hg] _ IH]; intros acc.
  - by eexists.
  - cbn [foldl mbind option_bind]. rewrite Hg. cbn [mbind option_bind]. apply IH.
Qed.

Lemma join_with_cons (c : ascii) (g g' : string) (rest : list string) :
  join_with c (g :: g' :: rest) = g +:+ String c (join_with c (g' :: rest)).
Proof. reflexivity. Qed.

(** The text of groups that hold no separator splits into the groups. *)
Lemma split_on_join (c : ascii) (gs : list string) :
  gs <> [] -> Forall (fun g => str_contains c g = false) gs ->
  split_on c (join_with c gs) = gs.
Proof.
  intros Hne H. induction H as [|g gs Hg Hgs IH]; [done|].
  destruct gs as [|g' gs].
  - cbn [join_with]. by apply split_on_none.
  - rewrite join_with_cons, split_on_append by done. f_equal. by apply IH.
Qed.

Lemma str_contains_join (x c : ascii) (gs : list string) :
  Ascii.eqb c x = false -> Forall (fun g => str_contains x g = false) gs ->
  str_contains x (join_with c gs) = false.
Proof.
  intros Hc H. induction H as [|g gs Hg Hgs IH]; [done|].
  destruct gs as [|g' gs]; [done|].
  rewrite join_with_cons, str_contains_append, Hg. cbn [str_contains orb].
  by rewrite Hc, IH.
Qed.

(** Eight groups make an address of the sixth version. *)
Lemma v6_int_from_string_full (gs : list string) :
  length gs = 8 -> Forall (fun g => is_hextet g = true) gs ->
  is_Some (v6_int_from_string (join_with ":" gs)).
Proof.
  intros Hlen Hall.
  assert (Hsplit : split_on ":" (join_with ":" gs) = gs).
  { apply split_on_join; [by destruct gs|].
    eapply Forall_impl; [exact Hall|]. intros g Hg.
    apply (proj1 (hextet_facts g Hg)). cbn. tauto. }
  assert (Hparse : Forall (fun g => is_Some (parse_hextet g)) gs).
  { eapply Forall_impl; [exact Hall|]. intros g Hg. apply (hextet_facts g Hg). }
  destruct gs as [|g1 [|g2 [|g3 [|g4 [|g5 [|g6 [|g7 [|g8 [|]]]]]]]]]; try discriminate Hlen.
  assert (Hempty : forall g, In g [g1; g2; g3; g4; g5; g6; g7; g8] ->
                             String.eqb g EmptyString = false).
  { intros g Hg. rewrite Forall_forall in Hall.
    apply (hextet_facts g). apply Hall. by apply list_elem_of_In. }
  assert (Hdot : str_contains "." g8 = false).
  { rewrite Forall_forall in Hall.
    apply (proj1 (hextet_facts g8 (Hall g8 ltac:(apply list_elem_of_In; cbn; tauto)))).
    cbn. tauto. }
  unfold v6_int_from_string. rewrite Hsplit.
  assert (Hne : String.eqb (join_with ":" [g1; g2; g3; g4; g5; g6; g7; g8]) EmptyString
                = false).
  { rewrite join_with_cons. apply append_not_empty. apply Hempty. cbn. tauto. }
  rewrite Hne. cbn [length Nat.ltb Nat.leb List.last]. rewrite Hdot.
  cbn [mbind option_bind length Nat.ltb Nat.leb Nat.sub find_skip Nat.eqb andb negb List.hd
       List.last].
  rewrite !Hempty by (cbn; tauto).
  cbn [andb mbind option_bind negb Nat.add take drop Nat.sub length Nat.leb].
  destruct (shift_hextets_some [g1; g2; g3; g4; g5; g6; g7; g8] Hparse 0%N) as [hi Hhi].
  rewrite Hhi. cbn [mbind option_bind]. by eexists.
Qed.

End FullIPv6.

(** X25. [check_ip] on an address of eight groups of one to four
    hexadecimal digits between colons, the full form of an IPv6 address:
    the result is [ipv6-addr]. *)
Theorem check_ip_full_ipv6 (groups : list string) :
  length groups = 8 -> forallb is_hextet groups = true ->
  check_ip (PyStr (join_with ":" groups)) = Some "ipv6-addr".
Proof.
  intros Hlen Hall'. pose proof (proj1 (forallb_forall _ _) Hall') as Hall.
  assert (HF : Forall (fun g => is_hextet g = true) groups)
    by (apply Forall_forall; intros g Hg; apply Hall; by apply list_elem_of_In).
  destruct (v6_int_from_string_full groups Hlen HF) as [ip Hip].
  assert (Hsep : forall x, In x ["."; "/"; "%"]%char ->
                           IpAddress.str_contains x (join_with ":" groups) = false).
  { intros x Hx. apply str_contains_join.
    - cbn [In] in Hx. destruct Hx as [<-|[<-|[<-|[]]]]; reflexivity.
    - eapply Forall_impl; [exact HF|]. intros g Hg.
      apply (proj1 (hextet_facts g Hg)). cbn in *. tauto. }
  unfold check_ip, IpAddress.ip_address, IpAddress.make_v4, IpAddress.make_v6.
  cbn [IpAddress.as_int py_str].
  unfold IpAddress.v4_of_string, IpAddress.v4_int_from_string.
  rewrite (Hsep "/"%char) by (cbn; tauto).
  rewrite (split_on_none "." _ (Hsep "."%char ltac:(cbn; tauto))).
  assert (Hne : String.eqb (join_with ":" groups) EmptyString = false).
  { destruct (String.eqb_spec (join_with ":" groups) EmptyString) as [E|]; [|done].
    rewrite E in Hip. vm_compute in Hip. discriminate Hip. }
  rewrite Hne. cbn [length Nat.eqb negb].
  unfold IpAddress.v6_of_string, IpAddress.split_scope_id.
  rewrite (Hsep "/"%char) by (cbn; tauto).
  rewrite (partition_on_none "%" _ (Hsep "%"%char ltac:(cbn; tauto))).
  cbn [mbind option_bind]. rewrite Hip. reflexivity.
Qed.

Lemma check_ip_full_ipv6_witness :
  check_ip (PyStr "2001:db8:0:0:0:ff00:42:8329") = Some "ipv6-addr".
Proof.
  apply (check_ip_full_ipv6 ["2001"; "db8"; "0"; "0"; "0"; "ff00"; "42"; "8329"]);
    reflexivity.
Defined.
